(** * College basketball score prediction: the score model, the aggregator,
      the team-name normalisers and the pipeline around them

    A shallow embedding of
    - [torvik_game_output.py]  (efficiency score model, [predict_games] and
      the file it writes),
    - [combine_predictions.py] (the three files it reads and the consensus),
    - [game_card_generator.py] (winner marking, logos, file names),
    - [fetch_daily_games.py] and [haslametric_scrape.py]
      ([normalize_team_names], the scoreboard events, the scraped cells),
    - [torvik_scrape.py], [kenpom_fetch.py], [espn_logo_mapping.py] and
      [run_all.py].

    The Python code is written once and runs on whatever numbers pandas hands
    it (binary64 in practice).  The embedding is therefore generic in an
    arithmetic structure [Number]; it is instantiated with the rationals
    (exact arithmetic) and with the kernel's binary64 floats (the arithmetic
    the program really runs). *)

From Stdlib Require Import List String Ascii Bool ZArith QArith Qround Floats.
From Stdlib Require Import Lia Lqa Qabs Permutation Sorted.
Import ListNotations.

(* ================================================================= *)
(** ** Numbers *)

(** The operations the pipeline applies to scores and ratings. *)
Class Number (F : Type) : Type := {
  add   : F -> F -> F;      (* x + y *)
  sub   : F -> F -> F;      (* x - y *)
  mul   : F -> F -> F;      (* x * y *)
  div   : F -> F -> F;      (* x / y *)
  gtb   : F -> F -> bool;   (* x > y *)
  isnan : F -> bool;        (* pandas' isna on a numeric cell *)
  rint  : F -> F;           (* numpy's rint: nearest integer, halves to even *)
  fromZ : Z -> F            (* an integer literal, or int -> float *)
}.

(** A decimal literal such as [67.6], written [decimal 676 10]. *)
Definition decimal {F} `{Number F} (n : Z) (d : positive) : F :=
  div (fromZ n) (fromZ (Zpos d)).

(** *** Exact arithmetic *)

(** Round to the nearest integer, halves to the even neighbour. *)
Definition Qrint_Z (x : Q) : Z :=
  let f := Qfloor x in
  match Qcompare (x - inject_Z f) (1 # 2) with
  | Lt => f
  | Gt => (f + 1)%Z
  | Eq => if Z.even f then f else (f + 1)%Z
  end.

#[export] Instance Number_Q : Number Q := {
  add := Qplus;
  sub := Qminus;
  mul := Qmult;
  div := Qdiv;
  gtb := fun x y => negb (Qle_bool x y);
  isnan := fun _ => false;
  rint := fun x => inject_Z (Qrint_Z x);
  fromZ := inject_Z
}.

(** *** IEEE 754 binary64 *)

Definition float_of_Z (z : Z) : float :=
  match z with
  | Z0 => PrimFloat.zero
  | Zpos _ => PrimFloat.of_uint63 (Uint63.of_Z z)
  | Zneg p => PrimFloat.opp (PrimFloat.of_uint63 (Uint63.of_Z (Zpos p)))
  end.

(** [rint] in the default rounding mode: below [2^52] in magnitude, adding and
    subtracting [2^52] rounds to an integer, halves to even; from [2^52] on
    every binary64 value is an integer already. *)
Definition float_rint (x : float) : float :=
  let two52 := float_of_Z (2 ^ 52) in
  if PrimFloat.is_nan x then x
  else if PrimFloat.ltb (PrimFloat.abs x) two52 then
    let y := PrimFloat.sub (PrimFloat.add (PrimFloat.abs x) two52) two52 in
    if PrimFloat.get_sign x then PrimFloat.opp y else y
  else x.

#[export] Instance Number_float : Number float := {
  add := PrimFloat.add;
  sub := PrimFloat.sub;
  mul := PrimFloat.mul;
  div := PrimFloat.div;
  gtb := fun x y => PrimFloat.ltb y x;
  isnan := PrimFloat.is_nan;
  rint := float_rint;
  fromZ := float_of_Z
}.

(** Python's [round(x, 1)] on a numpy float: scale by ten, [rint], scale
    back. *)
Definition round1 {F} `{Number F} (x : F) : F :=
  div (rint (mul x (fromZ 10))) (fromZ 10).

(* ================================================================= *)
(** ** Prediction files *)

(** What [pd.read_csv] makes of a prediction file. *)
Inductive CsvFile (Row : Type) : Type :=
| NoFile                     (* no such file: [FileNotFoundError] *)
| NoColumns                  (* nothing to parse, as in the file of one empty
                                line that [to_csv] writes for a frame without
                                columns: [EmptyDataError] *)
| Frame (rows : list Row).   (* the header line with the columns, and the
                                rows *)

Arguments NoFile {Row}.
Arguments NoColumns {Row}.
Arguments Frame {Row}.

(* ================================================================= *)
(** ** torvik_game_output.py *)

Module Torvik.
Section ScoreModel.
Context {F : Type} `{Number F}.

(** [D1_AVERAGES = {'tempo': 67.6, 'def_efficiency': 110.3}] *)
Definition D1_AVERAGES_tempo : F := decimal 676 10.
Definition D1_AVERAGES_def_efficiency : F := decimal 1103 10.

(** The value under a row's ['HCA'] label, by what [float(..)] does with it:
    [Num h] is a cell that [float] converts to [h] (a number, or text that
    reads as one); [Bad message] is a cell on which [float] raises, [message]
    being the text of the exception (text that is no number). *)
Inductive Cell : Type :=
| Num (h : F)
| Bad (message : string).

(** One row of [torvik_data.csv].  [HCA = None] stands for a row whose index
    has no ['HCA'] label. *)
Record TeamRow : Type := mkTeamRow {
  Team : string;
  AdjO : F;
  AdjD : F;
  AdjT : F;
  HCA  : option Cell
}.

Definition DataFrame : Type := list TeamRow.

(** [df[df['Team'] == team]], then [None] when empty, else [.iloc[0]]. *)
Definition get_team_data (df : DataFrame) (team : string) : option TeamRow :=
  let team_data := filter (fun r => String.eqb (Team r) team) df in
  match team_data with
  | [] => None
  | r :: _ => Some r
  end.

(** The [calculate_*] functions return [None] when they raise: they
    subscript the result of [get_team_data] without a check, and
    [calculate_home_score] calls [float] on the ['HCA'] cell. *)
Definition calculate_tempo (torvik_data : DataFrame)
    (home_team away_team : string) : option F :=
  match get_team_data torvik_data home_team,
        get_team_data torvik_data away_team with
  | Some home_data, Some away_data =>
      Some (div (mul (AdjT home_data) (AdjT away_data)) D1_AVERAGES_tempo)
  | _, _ => None
  end.

(** [float(home_data['HCA']) if 'HCA' in home_data.index else 3.0];
    [None] when [float] raises. *)
Definition hca_of (home_data : TeamRow) : option F :=
  match HCA home_data with
  | Some (Num h) => Some h
  | Some (Bad _) => None
  | None => Some (fromZ 3)
  end.

(** [str(e)] for the exception [e] of [float(home_data['HCA'])]. *)
Definition hca_error (home_data : TeamRow) : string :=
  match HCA home_data with
  | Some (Bad message) => message
  | _ => ""
  end.

Definition calculate_home_score (torvik_data : DataFrame)
    (home_team away_team : string) (neutral_site : bool) : option F :=
  match get_team_data torvik_data home_team,
        get_team_data torvik_data away_team,
        calculate_tempo torvik_data home_team away_team with
  | Some home_data, Some away_data, Some tempo =>
      let score :=
        div (mul (mul (AdjO home_data) (AdjD away_data)) tempo)
            (mul D1_AVERAGES_def_efficiency (fromZ 100)) in
      if negb neutral_site then
        match hca_of home_data with
        | Some hca => Some (add score hca)
        | None => None
        end
      else Some score
  | _, _, _ => None
  end.

Definition calculate_away_score (torvik_data : DataFrame)
    (away_team home_team : string) : option F :=
  match get_team_data torvik_data home_team,
        get_team_data torvik_data away_team,
        calculate_tempo torvik_data home_team away_team with
  | Some home_data, Some away_data, Some tempo =>
      Some (div (mul (mul (AdjO away_data) (AdjD home_data)) tempo)
                (mul D1_AVERAGES_def_efficiency (fromZ 100)))
  | _, _, _ => None
  end.

(** One row of [daily_matchups.csv], as [predict_games] reads it. *)
Record Game : Type := mkGame {
  home_team : string;
  away_team : string;
  neutral_site : bool;
  game_time : string
}.

(** A row of [torvik_predictions.csv]. *)
Record Prediction : Type := mkPrediction {
  Home_Team : string;
  Away_Team : string;
  Home_Score : F;
  Away_Score : F
}.

(** An entry of the [skipped] list: [{'home': .., 'away': ..}], with an
    ['error'] text when it was added by the [except] branch. *)
Record Skipped : Type := mkSkipped {
  skipped_home : string;
  skipped_away : string;
  skipped_error : option string
}.

Definition is_None {A} (o : option A) : bool :=
  match o with None => true | Some _ => false end.

(** One iteration of [for _, game in matchups_df.iterrows()], on the two
    accumulators [predictions] and [skipped]. *)
Definition predict_step (torvik_data : DataFrame)
    (acc : list Prediction * list Skipped) (game : Game)
    : list Prediction * list Skipped :=
  let (predictions, skipped) := acc in
  let home_data := get_team_data torvik_data (home_team game) in
  let away_data := get_team_data torvik_data (away_team game) in
  if is_None home_data || is_None away_data then
    (predictions,
     skipped ++ [mkSkipped (home_team game) (away_team game) None])
  else
    match calculate_home_score torvik_data (home_team game) (away_team game)
                               (neutral_site game),
          calculate_away_score torvik_data (away_team game) (home_team game)
    with
    | Some home_score, Some away_score =>
        (predictions ++
           [mkPrediction (home_team game) (away_team game)
                         (round1 home_score) (round1 away_score)],
         skipped)
    | _, _ =>
        (* except Exception as e: both rows were found, so [e] is the
           exception of [float(home_data['HCA'])] *)
        (predictions,
         skipped ++ [mkSkipped (home_team game) (away_team game)
                               (Some (match home_data with
                                      | Some row => hca_error row
                                      | None => ""%string
                                      end))])
    end.

(** What one game adds to each accumulator. *)
Definition predicted (df : DataFrame) (g : Game) : list Prediction :=
  fst (predict_step df ([], []) g).

Definition skipped_of (df : DataFrame) (g : Game) : list Skipped :=
  snd (predict_step df ([], []) g).

(** [predict_games], from the two loaded tables to the predictions written
    to [torvik_predictions.csv] and the [skipped] list. *)
Definition predict_games (torvik_data : DataFrame) (matchups_df : list Game)
    : list Prediction * list Skipped :=
  fold_left (predict_step torvik_data) matchups_df ([], []).

(** [pd.DataFrame(predictions).to_csv('torvik_predictions.csv', index=False)]
    as [read_csv] finds the file afterwards: the frame of an empty list has
    no columns, so only an empty line is written. *)
Definition to_csv (predictions : list Prediction) : CsvFile Prediction :=
  match predictions with
  | [] => NoColumns
  | _ :: _ => Frame predictions
  end.

End ScoreModel.

Arguments Cell F : clear implicits.
Arguments TeamRow F : clear implicits.
Arguments DataFrame F : clear implicits.
Arguments Prediction F : clear implicits.
End Torvik.

(* ================================================================= *)
(** ** combine_predictions.py *)

Module Combine.
Section Aggregator.
Context {F : Type} `{Number F}.

(** The three prediction files share one shape once the Haslametrics
    columns are renamed: home team, away team, home score, away score. *)
Definition SourceRow : Type := Torvik.Prediction F.

Definition same_game (home away : string) (r : SourceRow) : bool :=
  String.eqb (Torvik.Home_Team r) home && String.eqb (Torvik.Away_Team r) away.

(** [left.merge(right, on=['Home Team', 'Away Team'], how='left')]: every
    left row is kept, in order; it is paired with each right row of the
    same two teams, or with a missing (NaN) entry when there is none. *)
Definition merge_left {L : Type} (home_of away_of : L -> string)
    (left : list L) (right : list SourceRow) : list (L * option SourceRow) :=
  flat_map
    (fun l =>
       match filter (same_game (home_of l) (away_of l)) right with
       | [] => [(l, None)]
       | matches => map (fun r => (l, Some r)) matches
       end)
    left.

(** A row of [combined_df] after both merges: the Kenpom row it started
    from and the Torvik and Haslametrics cells (missing when [None]). *)
Record MergedRow : Type := mkMergedRow {
  kenpom : SourceRow;
  torvik : option SourceRow;
  haslam : option SourceRow
}.

Definition merge_all (kenpom_df torvik_df haslam_df : list SourceRow)
    : list MergedRow :=
  let combined_df :=
    merge_left (@Torvik.Home_Team F) (@Torvik.Away_Team F)
               kenpom_df torvik_df in
  let combined_df :=
    merge_left (fun kt => Torvik.Home_Team (fst kt))
               (fun kt => Torvik.Away_Team (fst kt))
               combined_df haslam_df in
  map (fun kth => mkMergedRow (fst (fst kth)) (snd (fst kth)) (snd kth))
      combined_df.

(** [combined_df[['Kenpom_Home', 'Torvik_Home', 'Haslam_Home']]] and the
    away counterpart, one row at a time; [None] is a NaN left by a merge. *)
Definition home_scores (r : MergedRow) : list (option F) :=
  [ Some (Torvik.Home_Score (kenpom r));
    option_map (@Torvik.Home_Score F) (torvik r);
    option_map (@Torvik.Home_Score F) (haslam r) ].

Definition away_scores (r : MergedRow) : list (option F) :=
  [ Some (Torvik.Away_Score (kenpom r));
    option_map (@Torvik.Away_Score F) (torvik r);
    option_map (@Torvik.Away_Score F) (haslam r) ].

(** The cells [skipna] keeps. *)
Fixpoint present (cells : list (option F)) : list F :=
  match cells with
  | [] => []
  | Some x :: rest => if isnan x then present rest else x :: present rest
  | None :: rest => present rest
  end.

Definition sum (xs : list F) : F := fold_left add xs (fromZ 0).

(** [.mean(axis=1, skipna=True)] on one row: NaN ([None]) when nothing is
    present. *)
Definition mean_skipna (cells : list (option F)) : option F :=
  match present cells with
  | [] => None
  | xs => Some (div (sum xs) (fromZ (Z.of_nat (List.length xs))))
  end.

(** [.round()] of a column, one cell at a time. *)
Definition round (cell : option F) : option F := option_map rint cell.

(** A row of [final_df], written to [combined_predictions.csv]. *)
Record FinalRow : Type := mkFinalRow {
  Home_Team : string;
  Away_Team : string;
  Home_Score : option F;
  Away_Score : option F
}.

Definition final_row (r : MergedRow) : FinalRow :=
  mkFinalRow (Torvik.Home_Team (kenpom r)) (Torvik.Away_Team (kenpom r))
             (round (mean_skipna (home_scores r)))
             (round (mean_skipna (away_scores r))).

(** The body of [combine_predictions] once the three files are read (lines
    31-97): from the three frames to [final_df]. *)
Definition combine_predictions (kenpom_df torvik_df haslam_df : list SourceRow)
    : list FinalRow :=
  map final_row (merge_all kenpom_df torvik_df haslam_df).

(** [combine_predictions()] from the three files on disk: the frames are
    read in the order Kenpom, Torvik, Haslametrics; [FileNotFoundError] is
    caught and [None] returned; [EmptyDataError] is not caught. *)
Inductive Exception : Type := EmptyDataError.

Inductive Outcome : Type :=
| Returned (final_df : list FinalRow)   (* written and returned *)
| ReturnedNone                          (* except FileNotFoundError *)
| Raised (e : Exception).

Definition read_csv (file : CsvFile SourceRow)
    (continue : list SourceRow -> Outcome) : Outcome :=
  match file with
  | NoFile => ReturnedNone
  | NoColumns => Raised EmptyDataError
  | Frame df => continue df
  end.

Definition combine_predictions_files
    (KENPOM_FILE TORVIK_FILE HASLAM_FILE : CsvFile SourceRow) : Outcome :=
  read_csv KENPOM_FILE (fun kenpom_df =>
  read_csv TORVIK_FILE (fun torvik_df =>
  read_csv HASLAM_FILE (fun haslam_df =>
  Returned (combine_predictions kenpom_df torvik_df haslam_df)))).

(** *** Notions used to state what the merges do *)

(** No two rows of a prediction file are for the same game. *)
Fixpoint unique_games (df : list SourceRow) : bool :=
  match df with
  | [] => true
  | r :: rest =>
      negb (existsb (same_game (Torvik.Home_Team r) (Torvik.Away_Team r)) rest)
      && unique_games rest
  end.

(** Sum over count of a non-empty list, the form [mean_skipna] has on the
    cells that are present. *)
Definition mean_of (xs : list F) : option F :=
  match xs with
  | [] => None
  | _ => Some (div (fold_left add xs (fromZ 0))
                   (fromZ (Z.of_nat (List.length xs))))
  end.

(** The first row of a file for a game, if any. *)
Definition lookup_game (home away : string) (df : list SourceRow)
    : option SourceRow :=
  match filter (same_game home away) df with
  | [] => None
  | r :: _ => Some r
  end.

Definition cells_of (o : option SourceRow) : list SourceRow :=
  match o with
  | None => []
  | Some r => [r]
  end.

(** What a merge may put next to a left row for a game: a row of the right
    file for that game, or nothing when the file has none. *)
Definition cell_for (df : list SourceRow) (home away : string)
    (cell : option SourceRow) : Prop :=
  match cell with
  | Some r => In r df /\ same_game home away r = true
  | None => forall r, In r df -> same_game home away r = false
  end.

Definition game_of (r : FinalRow) : string * string :=
  (Home_Team r, Away_Team r).

Definition source_game_of (r : SourceRow) : string * string :=
  (Torvik.Home_Team r, Torvik.Away_Team r).

End Aggregator.

Arguments SourceRow F : clear implicits.
Arguments MergedRow F : clear implicits.
Arguments FinalRow F : clear implicits.
Arguments Outcome F : clear implicits.
Arguments ReturnedNone {F}.
Arguments Raised {F}.
End Combine.

(* ================================================================= *)
(** ** The consensus in the words of the specification

    Section 4.3: "for each matchup, collects all SourcePredictions that exist
    for it (0-3, one per source at most)"; "if the collection is empty, the
    matchup is excluded"; "otherwise home_score = round(mean(home_score over
    available sources))", likewise for the away score, "arithmetic mean over
    only the present sources"; "round-half-to-even or round-half-up is
    acceptable but must be applied consistently to both".  Section 8.5: a
    source with "(72, missing)" "has no prediction".  The arithmetic is
    exact. *)

Module Spec.

(** The two scores a source gives for a matchup, either of which may be
    missing. *)
Definition SourcePrediction : Type := (option Q * option Q)%type.

(** The predictions that exist: those with both scores. *)
Fixpoint available (predictions : list SourcePrediction) : list (Q * Q) :=
  match predictions with
  | [] => []
  | (Some home_score, Some away_score) :: rest =>
      (home_score, away_score) :: available rest
  | _ :: rest => available rest
  end.

Definition mean (xs : list Q) : Q :=
  fold_right Qplus 0 xs / inject_Z (Z.of_nat (List.length xs)).

Definition round_half_up (x : Q) : Z := Qfloor (x + (1 # 2)).

Definition round_half_even (x : Q) : Z :=
  let n := Qfloor (x + (1 # 2)) in
  if Qeq_bool (x + (1 # 2)) (inject_Z n) && Z.odd n then (n - 1)%Z else n.

(** [None]: the matchup is excluded. *)
Definition consensus (round : Q -> Z) (predictions : list SourcePrediction)
    : option (Z * Z) :=
  match available predictions with
  | [] => None
  | scores =>
      Some (round (mean (map fst scores)), round (mean (map snd scores)))
  end.

End Spec.

(* ================================================================= *)
(** ** game_card_generator.py *)

Module GameCard.
Section Card.
Context {F : Type} `{Number F}.

(** What [create_game_card] draws that depends on its arguments: the two
    team names, the colour of each score and the venue line. *)
Record Card : Type := mkCard {
  home_name : string;
  away_name : string;
  home_color : string;
  away_color : string;
  venue_text : string
}.

Definition red : string := "#d32f2f".
Definition dark : string := "#222".

Definition create_game_card (home_team away_team : string)
    (home_score away_score : F) (venue : string) (neutral_site : bool)
    : Card :=
  (* Determine winner *)
  let home_winning := gtb home_score away_score in
  (* RED if winning, BLACK if losing *)
  let home_color := if home_winning then red else dark in
  let away_color := if negb home_winning then red else dark in
  let venue_text := if neutral_site then (venue ++ " (N)")%string else venue in
  mkCard home_team away_team home_color away_color venue_text.

(** A side is shown as the winner when its score is drawn in red. *)
Definition home_marked_winner (c : Card) : bool := String.eqb (home_color c) red.
Definition away_marked_winner (c : Card) : bool := String.eqb (away_color c) red.

End Card.
End GameCard.

(* ================================================================= *)
(** ** Team names: what the two [normalize_team_names] share *)

Module Py.

(** Truth value of [get_canonical_name]'s result in [if normalized:] --
    [None] and the empty string are false. *)
Definition truthy (o : option string) : bool :=
  match o with
  | Some s => negb (String.eqb s "")
  | None => false
  end.

(** The string a true result holds. *)
Definition value (o : option string) : string :=
  match o with
  | Some s => s
  | None => ""
  end.

(** [x in l] on a list of strings. *)
Definition mem (x : string) (l : list string) : bool :=
  existsb (String.eqb x) l.

(** [if name not in unmapped_teams: unmapped_teams.append(name)] *)
Definition note_unmapped (name : string) (unmapped_teams : list string)
    : list string :=
  if mem name unmapped_teams then unmapped_teams
  else unmapped_teams ++ [name].

(** [sorted(set(l))]: the distinct names in code-point order. *)
Fixpoint insert (x : string) (l : list string) : list string :=
  match l with
  | [] => [x]
  | y :: l' => if String.leb x y then x :: y :: l' else y :: insert x l'
  end.

Definition sorted (l : list string) : list string := fold_right insert [] l.

Definition set (l : list string) : list string := nodup string_dec l.

(** The names printed under "Unmapped teams (add to team_mapping.py):". *)
Definition unmapped_report (unmapped_teams : list string) : list string :=
  sorted (set unmapped_teams).

(** *** [re.sub(r'\s*\d+$', '', s).strip()]

    Characters are code points below 256. *)

(** [\s] and [str.strip]'s whitespace: tab to carriage return, the four
    separators 28..31, space, NEL and the no-break space. *)
Definition is_space (c : ascii) : bool :=
  let n := nat_of_ascii c in
  ((9 <=? n) && (n <=? 13)) || ((28 <=? n) && (n <=? 32))
  || (n =? 133) || (n =? 160).

(** [\d] *)
Definition is_digit (c : ascii) : bool :=
  let n := nat_of_ascii c in (48 <=? n) && (n <=? 57).

Fixpoint drop_while (p : ascii -> bool) (l : list ascii) : list ascii :=
  match l with
  | [] => []
  | c :: l' => if p c then drop_while p l' else l
  end.

(** The leftmost match of [\s*\d+] that ends where [s] ends is the longest
    run of digits at the end together with all the whitespace before it;
    [drop_rank] removes it, and leaves [s] alone when [s] does not end in a
    digit. *)
Definition drop_rank (s : list ascii) : list ascii :=
  match rev s with
  | c :: _ =>
      if is_digit c
      then rev (drop_while is_space (drop_while is_digit (rev s)))
      else s
  | [] => s
  end.

Definition newline : ascii := ascii_of_nat 10.

(** [$] matches at the end of the string and also just before a newline
    that is its last character. *)
Definition re_sub_rank (s : list ascii) : list ascii :=
  match rev s with
  | c :: before =>
      if Ascii.eqb c newline then drop_rank (rev before) ++ [c]
      else drop_rank s
  | [] => s
  end.

(** [s.strip()]: whitespace removed at the end, then at the start. *)
Definition strip (s : list ascii) : list ascii :=
  drop_while is_space (rev (drop_while is_space (rev s))).

(** [re.sub(r'\s*\d+$', '', name).strip()] *)
Definition clean (name : string) : string :=
  string_of_list_ascii (strip (re_sub_rank (list_ascii_of_string name))).

(** *** The lookup both loops do for a name

    [resolve] is the [if normalized: .. else: ..] block of the two loops:
    the key written back to the table and the list of unmapped names. *)
Definition resolve (get_canonical_name : string -> option string)
    (name : string) (unmapped_teams : list string) : string * list string :=
  let normalized := get_canonical_name name in
  if truthy normalized then (value normalized, unmapped_teams)
  else (name, note_unmapped name unmapped_teams).

Definition key_of (get_canonical_name : string -> option string)
    (name : string) : string :=
  fst (resolve get_canonical_name name []).

Definition unmapped (get_canonical_name : string -> option string)
    (name : string) : bool :=
  negb (truthy (get_canonical_name name)).

End Py.

(* ================================================================= *)
(** ** fetch_daily_games.py *)

Module FetchDailyGames.
Section Normalize.
(** [team_mapping.get_canonical_name]: the mapping table, [None] for a
    name it does not have. *)
Variable get_canonical_name : string -> option string.
(** The columns [normalize_team_names] does not touch. *)
Variable Other : Type.

Record Row : Type := mkRow {
  home_team : string;
  away_team : string;
  other : Other
}.

(** One iteration of [for idx, row in df.iterrows()]: the row as rewritten
    by the two [df.at[idx, ..] = ..], and the list [unmapped_teams]. *)
Definition normalize_row (unmapped_teams : list string) (row : Row)
    : Row * list string :=
  let normalized_home := get_canonical_name (home_team row) in
  let normalized_away := get_canonical_name (away_team row) in
  let (new_home, unmapped_teams) :=
    if Py.truthy normalized_home then (Py.value normalized_home, unmapped_teams)
    else (home_team row, Py.note_unmapped (home_team row) unmapped_teams) in
  let (new_away, unmapped_teams) :=
    if Py.truthy normalized_away then (Py.value normalized_away, unmapped_teams)
    else (away_team row, Py.note_unmapped (away_team row) unmapped_teams) in
  (mkRow new_home new_away (other row), unmapped_teams).

Fixpoint normalize_loop (unmapped_teams : list string) (df : list Row)
    : list Row * list string :=
  match df with
  | [] => ([], unmapped_teams)
  | row :: rest =>
      let (row', unmapped_teams) := normalize_row unmapped_teams row in
      let (rest', unmapped_teams) := normalize_loop unmapped_teams rest in
      (row' :: rest', unmapped_teams)
  end.

(** [normalize_team_names]: the rewritten table and the names it prints as
    unmapped. *)
Definition normalize_team_names (df : list Row) : list Row * list string :=
  let (df', unmapped_teams) := normalize_loop [] df in
  (df', Py.unmapped_report unmapped_teams).

End Normalize.

Arguments mkRow {Other}.
Arguments home_team {Other}.
Arguments away_team {Other}.
Arguments other {Other}.
Arguments normalize_row get_canonical_name {Other}.
Arguments normalize_loop get_canonical_name {Other}.
Arguments normalize_team_names get_canonical_name {Other}.
End FetchDailyGames.

(* ================================================================= *)
(** ** haslametric_scrape.py *)

Module HaslametricScrape.
Section Normalize.
Variable get_canonical_name : string -> option string.
(** The two score columns, which [normalize_team_names] does not touch. *)
Variable Other : Type.

Record Row : Type := mkRow {
  home_team : string;
  away_team : string;
  other : Other
}.

(** One iteration of the loop: away team first, then home team, each
    looked up after [Py.clean]. *)
Definition normalize_row (unmapped_teams : list string) (row : Row)
    : Row * list string :=
  (* Remove ranking numbers *)
  let away_clean := Py.clean (away_team row) in
  let home_clean := Py.clean (home_team row) in
  (* Map away team *)
  let normalized_away := get_canonical_name away_clean in
  let (new_away, unmapped_teams) :=
    if Py.truthy normalized_away then (Py.value normalized_away, unmapped_teams)
    else (away_clean, Py.note_unmapped away_clean unmapped_teams) in
  (* Map home team *)
  let normalized_home := get_canonical_name home_clean in
  let (new_home, unmapped_teams) :=
    if Py.truthy normalized_home then (Py.value normalized_home, unmapped_teams)
    else (home_clean, Py.note_unmapped home_clean unmapped_teams) in
  (mkRow new_home new_away (other row), unmapped_teams).

Fixpoint normalize_loop (unmapped_teams : list string) (df : list Row)
    : list Row * list string :=
  match df with
  | [] => ([], unmapped_teams)
  | row :: rest =>
      let (row', unmapped_teams) := normalize_row unmapped_teams row in
      let (rest', unmapped_teams) := normalize_loop unmapped_teams rest in
      (row' :: rest', unmapped_teams)
  end.

Definition normalize_team_names (df : list Row) : list Row * list string :=
  let (df', unmapped_teams) := normalize_loop [] df in
  (df', Py.unmapped_report unmapped_teams).

End Normalize.

Arguments mkRow {Other}.
Arguments home_team {Other}.
Arguments away_team {Other}.
Arguments other {Other}.
Arguments normalize_row get_canonical_name {Other}.
Arguments normalize_loop get_canonical_name {Other}.
Arguments normalize_team_names get_canonical_name {Other}.
End HaslametricScrape.

(* ================================================================= *)
(** ** game_card_generator.py: logos and file names *)

Module GameCardFiles.

(** An entry of [espn_team_logos.json]; [get_logo_url] reads its
    ['logo_url'] only, [None] when the key is missing or null. *)
Record LogoEntry : Type := mkLogoEntry {
  logo_url : option string
}.

(** The loaded JSON object, in file order. *)
Definition LogoData : Type := list (string * LogoEntry).

(** [logo_data[key]], [None] when [key not in logo_data]. *)
Definition dict_get (logo_data : LogoData) (key : string) : option LogoEntry :=
  match find (fun kv => String.eqb (fst kv) key) logo_data with
  | Some kv => Some (snd kv)
  | None => None
  end.

(** [str.lower] on code points below 256: the letters A..Z and the
    accented capitals 192..222, the multiplication sign 215 apart. *)
Definition lower_char (c : ascii) : ascii :=
  let n := nat_of_ascii c in
  if ((65 <=? n) && (n <=? 90))
     || ((192 <=? n) && (n <=? 222) && negb (n =? 215))
  then ascii_of_nat (n + 32)
  else c.

Definition lower (s : string) : string :=
  string_of_list_ascii (map lower_char (list_ascii_of_string s)).

Definition get_logo_url (team_name : string) (logo_data : LogoData)
    : option string :=
  (* Direct lookup - names are already normalized *)
  match dict_get logo_data team_name with
  | Some entry => logo_url entry
  | None =>
      (* Fallback: case-insensitive match just in case *)
      let team_lower := lower team_name in
      match find (fun kv => String.eqb (lower (fst kv)) team_lower) logo_data
      with
      | Some kv => logo_url (snd kv)
      | None => None
      end
  end.

(** [s.replace(old, new)] for one-character [old] and [new]. *)
Definition replace_char (old new : ascii) (s : string) : string :=
  string_of_list_ascii
    (map (fun c => if Ascii.eqb c old then new else c)
         (list_ascii_of_string s)).

(** [game['Home Team'].replace(' ', '_').replace('/', '-')] *)
Definition safe_name (team : string) : string :=
  replace_char "/" "-" (replace_char " " "_" team).

(** [f"{home_safe}_vs_{away_safe}.png"] *)
Definition card_filename (home_team away_team : string) : string :=
  (safe_name home_team ++ "_vs_" ++ safe_name away_team ++ ".png")%string.

End GameCardFiles.

(* ================================================================= *)
(** ** torvik_scrape.py and kenpom_fetch.py: the team names of the ratings *)

Module TorvikScrape.
Section Names.
Variable get_canonical_name : string -> option string.
(** The rating columns. *)
Variable Other : Type.

Record Row : Type := mkRow {
  Team : string;
  other : Other
}.

(** One iteration of the loop "Normalize team names":
    [if normalized and normalized != original: df.at[idx, 'Team'] = normalized]. *)
Definition normalize_row (row : Row) : Row :=
  let original := Team row in
  let normalized := get_canonical_name original in
  if Py.truthy normalized && negb (String.eqb (Py.value normalized) original)
  then mkRow (Py.value normalized) (other row)
  else row.

(** The loop, then [df[df['Team'].isin(teams_playing)]]. *)
Definition teams_kept (teams_playing : list string) (df : list Row)
    : list Row :=
  filter (fun row => Py.mem (Team row) teams_playing) (map normalize_row df).

End Names.

Arguments mkRow {Other}.
Arguments Team {Other}.
Arguments other {Other}.
Arguments normalize_row get_canonical_name {Other}.
Arguments teams_kept get_canonical_name {Other}.
End TorvikScrape.

Module KenpomFetch.
Section Names.
Variable get_canonical_name : string -> option string.
Variable Other : Type.

(** A row as the API gives it, and as the loop leaves it: the loop may
    store [None] in the ['Team'] cell. *)
Record Row : Type := mkRow {
  Team : string;
  other : Other
}.

Record NormalizedRow : Type := mkNormalizedRow {
  Team' : option string;
  other' : Other
}.

(** [normalized != original] between the lookup result and a string. *)
Definition differs (normalized : option string) (original : string) : bool :=
  match normalized with
  | Some name => negb (String.eqb name original)
  | None => true
  end.

(** One iteration of the loop "Normalize team names":
    [if normalized != original: df.at[idx, 'Team'] = normalized]. *)
Definition normalize_row (row : Row) : NormalizedRow :=
  let original := Team row in
  let normalized := get_canonical_name original in
  if differs normalized original
  then mkNormalizedRow normalized (other row)
  else mkNormalizedRow (Some original) (other row).

(** [.isin(teams_playing)] on a cell: [None] is in no list of names. *)
Definition isin (cell : option string) (teams_playing : list string) : bool :=
  match cell with
  | Some name => Py.mem name teams_playing
  | None => false
  end.

(** The loop, then [df[df['Team'].isin(teams_playing)]]. *)
Definition teams_kept (teams_playing : list string) (df : list Row)
    : list NormalizedRow :=
  filter (fun row => isin (Team' row) teams_playing) (map normalize_row df).

End Names.

Arguments mkRow {Other}.
Arguments Team {Other}.
Arguments other {Other}.
Arguments mkNormalizedRow {Other}.
Arguments Team' {Other}.
Arguments other' {Other}.
Arguments normalize_row get_canonical_name {Other}.
Arguments teams_kept get_canonical_name {Other}.
End KenpomFetch.

(* ================================================================= *)
(** ** fetch_daily_games.py: from the scoreboard events to the games *)

Module Scoreboard.

(** The parts of the scoreboard JSON that [fetch_daily_matchups] reads; a
    field is [None] when its key is absent. *)
Record Competitor : Type := mkCompetitor {
  homeAway : option string;
  displayName : option string        (* competitor['team']['displayName'] *)
}.

Record Competition : Type := mkCompetition {
  venue_fullName : option string;    (* competition['venue']['fullName'] *)
  neutralSite : option bool;
  competitors : list Competitor
}.

Record Event : Type := mkEvent {
  id : option string;
  date : option string;
  status_description : option string; (* event['status']['type']['description'] *)
  competitions : list Competition
}.

(** The dictionary [game_info]. *)
Record GameInfo : Type := mkGameInfo {
  game_id : option string;
  home_team : string;
  away_team : string;
  game_time : string;
  venue : string;
  neutral_site : bool;
  game_status : string
}.

Definition get_default {A : Type} (o : option A) (default : A) : A :=
  match o with
  | Some x => x
  | None => default
  end.

Definition is_home (c : Competitor) : bool :=
  match homeAway c with
  | Some side => String.eqb side "home"%string
  | None => false
  end.

(** One iteration of [for competitor in competitors], on the pair
    [(home_team, away_team)]. *)
Definition assign (teams : option string * option string) (c : Competitor)
    : option string * option string :=
  let team_name := displayName c in
  if is_home c then (team_name, snd teams) else (fst teams, team_name).

Section Parse.
(** The conversion of ['date'] to Eastern time, [None] when [strptime]
    raises. *)
Variable to_eastern : string -> option string.

(** The body of [for event in events]: [None] for an event left out by a
    [continue] or by the [except] branch. *)
Definition parse_event (event : Event) : option GameInfo :=
  match competitions event with
  | [] => None
  | competition :: _ =>
      if negb (Nat.eqb (List.length (competitors competition)) 2) then None
      else
        let (home_team, away_team) :=
          fold_left assign (competitors competition) (None, None) in
        if negb (Py.truthy home_team) || negb (Py.truthy away_team) then None
        else
          match date event with
          | None => None
          | Some game_date =>
              match to_eastern game_date with
              | None => None
              | Some game_time_str =>
                  Some (mkGameInfo (id event)
                          (Py.value home_team) (Py.value away_team)
                          game_time_str
                          (get_default (venue_fullName competition) "Unknown"%string)
                          (get_default (neutralSite competition) false)
                          (get_default (status_description event) "Unknown"%string))
              end
          end
  end.

(** The list [games] after the loop. *)
Fixpoint parse_events (events : list Event) : list GameInfo :=
  match events with
  | [] => []
  | event :: rest =>
      match parse_event event with
      | Some game_info => game_info :: parse_events rest
      | None => parse_events rest
      end
  end.

End Parse.
End Scoreboard.

(* ================================================================= *)
(** ** run_all.py *)

Module RunAll.

Inductive Script : Type :=
| fetch_daily_games
| kenpom_fetch
| kenpom_game_output
| torvik_scrape
| torvik_game_output
| haslametric_scrape
| combine_predictions
| game_card_generator.

(** What a call of [main] did: the scripts started, in order; the counter
    [steps_completed]; whether the predictions folder was cleared; whether
    the summary "PIPELINE COMPLETE" was reached. *)
Record Run : Type := mkRun {
  started : list Script;
  steps_completed : nat;
  cleared : bool;
  complete : bool
}.

Definition all_scripts : list Script :=
  [ fetch_daily_games; kenpom_fetch; kenpom_game_output; torvik_scrape;
    torvik_game_output; haslametric_scrape; combine_predictions;
    game_card_generator ].

Section Main.
(** [run_script] for each script: whether the subprocess ended well. *)
Variable run_script : Script -> bool.

(** A step whose failure stops the pipeline: [if run_script(..):
    steps_completed += 1 else: return]. *)
Definition required (script : Script) (state : list Script * nat)
    (next : list Script * nat -> Run) : Run :=
  let (started, steps_completed) := state in
  if run_script script then next (started ++ [script], S steps_completed)
  else mkRun (started ++ [script]) steps_completed false false.

(** A step whose failure only prints a warning. *)
Definition optional (script : Script) (state : list Script * nat)
    (next : list Script * nat -> Run) : Run :=
  let (started, steps_completed) := state in
  if run_script script then next (started ++ [script], S steps_completed)
  else next (started ++ [script], steps_completed).

Definition main : Run :=
  required fetch_daily_games ([], 0%nat) (fun state =>
  required kenpom_fetch state (fun state =>
  required kenpom_game_output state (fun state =>
  optional torvik_scrape state (fun state =>
  optional torvik_game_output state (fun state =>
  optional haslametric_scrape state (fun state =>
  required combine_predictions state (fun state =>
  (* clear_predictions_folder() *)
  let (started, steps_completed) := state in
  if run_script game_card_generator
  then mkRun (started ++ [game_card_generator]) (S steps_completed) true true
  else mkRun (started ++ [game_card_generator]) steps_completed true false))))))).

End Main.
End RunAll.

(* ================================================================= *)
(** ** haslametric_scrape.py: from the table cells to the games *)

Module HaslamCells.

(** [re.match(r'tdUpcoming_(\d+)_([12])(_sc)?', cell_id)]: the game number,
    the row number and whether the third group is ['_sc']. *)
Fixpoint strip_prefix (prefix s : list ascii) : option (list ascii) :=
  match prefix, s with
  | [], _ => Some s
  | p :: prefix', c :: s' =>
      if Ascii.eqb p c then strip_prefix prefix' s' else None
  | _ :: _, [] => None
  end.

Fixpoint take_digits (s : list ascii) : list ascii * list ascii :=
  match s with
  | c :: s' =>
      if Py.is_digit c
      then let (digits, rest) := take_digits s' in (c :: digits, rest)
      else ([], s)
  | [] => ([], [])
  end.

(** [int(digits)] *)
Definition int_of_digits (digits : list ascii) : N :=
  fold_left (fun acc d => (acc * 10 + (N_of_ascii d - 48))%N) digits 0%N.

Definition starts_with_sc (s : list ascii) : bool :=
  match s with
  | a :: b :: c :: _ =>
      Ascii.eqb a "_" && Ascii.eqb b "s" && Ascii.eqb c "c"
  | _ => false
  end.

Definition match_id (cell_id : string) : option (N * nat * bool) :=
  match strip_prefix (list_ascii_of_string "tdUpcoming_")
                     (list_ascii_of_string cell_id) with
  | None => None
  | Some after_prefix =>
      match take_digits after_prefix with
      | ([], _) => None
      | (digits, underscore :: row :: rest) =>
          if Ascii.eqb underscore "_"
          then if Ascii.eqb row "1"
               then Some (int_of_digits digits, 1%nat, starts_with_sc rest)
               else if Ascii.eqb row "2"
               then Some (int_of_digits digits, 2%nat, starts_with_sc rest)
               else None
          else None
      | (_, _) => None
      end
  end.

Section Cells.
(** The type of a parsed score. *)
Variable Score : Type.

(** A table cell: its id, [float(cell.get_text(strip=True))] ([None] when
    that raises [ValueError]) and the text of its [ratings2.php] link
    ([None] when it has none). *)
Record Cell : Type := mkCell {
  cell_id : string;
  as_float : option Score;
  link_text : option string
}.

(** An entry of [games_dict]: the keys set so far. *)
Record Partial : Type := mkPartial {
  away_team : option string;
  home_team : option string;
  away_score : option Score;
  home_score : option Score
}.

Definition empty : Partial := mkPartial None None None None.

(** [games_dict], in insertion order. *)
Definition GamesDict : Type := list (N * Partial).

Fixpoint has_key (game_num : N) (d : GamesDict) : bool :=
  match d with
  | [] => false
  | (k, _) :: rest => N.eqb k game_num || has_key game_num rest
  end.

(** [games_dict[game_num][key] = value], written as a change [f] of the
    entry. *)
Fixpoint update (game_num : N) (f : Partial -> Partial) (d : GamesDict)
    : GamesDict :=
  match d with
  | [] => []
  | (k, entry) :: rest =>
      if N.eqb k game_num then (k, f entry) :: rest
      else (k, entry) :: update game_num f rest
  end.

(** [if game_num not in games_dict: games_dict[game_num] = {}] *)
Definition add_key (game_num : N) (d : GamesDict) : GamesDict :=
  if has_key game_num d then d else d ++ [(game_num, empty)].

(** One iteration of [for cell in all_cells]. *)
Definition step (d : GamesDict) (cell : Cell) : GamesDict :=
  match match_id (cell_id cell) with
  | None => d
  | Some (game_num, row_num, is_score) =>
      let d := add_key game_num d in
      if is_score then
        match as_float cell with
        | Some score =>
            if Nat.eqb row_num 1
            then update game_num
                   (fun e => mkPartial (away_team e) (home_team e)
                                       (Some score) (home_score e)) d
            else update game_num
                   (fun e => mkPartial (away_team e) (home_team e)
                                       (away_score e) (Some score)) d
        | None => d
        end
      else
        match link_text cell with
        | Some team_name =>
            if Nat.eqb row_num 1
            then update game_num
                   (fun e => mkPartial (Some team_name) (home_team e)
                                       (away_score e) (home_score e)) d
            else update game_num
                   (fun e => mkPartial (away_team e) (Some team_name)
                                       (away_score e) (home_score e)) d
        | None => d
        end
  end.

Definition group_cells (all_cells : list Cell) : GamesDict :=
  fold_left step all_cells [].

(** [sorted(games_dict.items())]: by game number, the keys being distinct. *)
Fixpoint insert_item (item : N * Partial) (l : GamesDict) : GamesDict :=
  match l with
  | [] => [item]
  | other :: l' =>
      if N.leb (fst item) (fst other) then item :: other :: l'
      else other :: insert_item item l'
  end.

Definition sorted_items (d : GamesDict) : GamesDict :=
  fold_right insert_item [] d.

(** A row of [games_data]. *)
Record GameRow : Type := mkGameRow {
  row_home_team : string;
  row_away_team : string;
  row_home_score : Score;
  row_away_score : Score
}.

(** [if all(k in game_data for k in [..]): games_data.append({..})] *)
Definition complete_row (entry : Partial) : option GameRow :=
  match away_team entry, home_team entry, away_score entry, home_score entry
  with
  | Some at_, Some ht, Some as_, Some hs => Some (mkGameRow ht at_ hs as_)
  | _, _, _, _ => None
  end.

(** The games appended to [games_data], each with its game number. *)
Fixpoint complete_items (items : GamesDict) : list (N * GameRow) :=
  match items with
  | [] => []
  | (game_num, entry) :: rest =>
      match complete_row entry with
      | Some row => (game_num, row) :: complete_items rest
      | None => complete_items rest
      end
  end.

Definition numbered_games (all_cells : list Cell) : list (N * GameRow) :=
  complete_items (sorted_items (group_cells all_cells)).

Definition games_data (all_cells : list Cell) : list GameRow :=
  map snd (numbered_games all_cells).

End Cells.

Arguments mkCell {Score}.
Arguments cell_id {Score}.
Arguments as_float {Score}.
Arguments link_text {Score}.
Arguments mkPartial {Score}.
Arguments away_team {Score}.
Arguments home_team {Score}.
Arguments away_score {Score}.
Arguments home_score {Score}.
Arguments empty {Score}.
Arguments has_key {Score}.
Arguments update {Score}.
Arguments add_key {Score}.
Arguments step {Score}.
Arguments group_cells {Score}.
Arguments insert_item {Score}.
Arguments sorted_items {Score}.
Arguments mkGameRow {Score}.
Arguments row_home_team {Score}.
Arguments row_away_team {Score}.
Arguments row_home_score {Score}.
Arguments row_away_score {Score}.
Arguments complete_row {Score}.
Arguments complete_items {Score}.
Arguments numbered_games {Score}.
Arguments games_data {Score}.
End HaslamCells.

(** Where the four values of an entry of [games_dict] come from. *)
(* ================================================================= *)
(** ** espn_logo_mapping.py: the logo dictionary *)

Module EspnLogoMapping.
Section Teams.
Variable get_canonical_name : string -> option string.
(** The JSON value under ['id']: the code uses its truth value and its text
    in the f-string of the URL. *)
Variable Id : Type.
Variable id_truthy : Id -> bool.
Variable id_text : Id -> string.

(** [team_obj.get('team', {})]: each field is [None] when absent. *)
Record Team : Type := mkTeam {
  id : option Id;
  displayName : option string;
  shortDisplayName : option string;
  abbreviation : option string
}.

(** A value of [team_logos]. *)
Record TeamLogo : Type := mkTeamLogo {
  logo_id : Id;
  name : string;
  espn_name : string;
  short_name : option string;
  logo_abbreviation : option string;
  logo_url : option string
}.

(** [team_logos], in insertion order. *)
Definition Logos : Type := list (string * TeamLogo).

(** [team_logos[key] = value]: an existing key keeps its place. *)
Fixpoint dict_set (key : string) (value : TeamLogo) (d : Logos) : Logos :=
  match d with
  | [] => [(key, value)]
  | (k, old) :: rest =>
      if String.eqb k key then (k, value) :: rest
      else (k, old) :: dict_set key value rest
  end.

(** [f"https://a.espncdn.com/i/teamlogos/ncaa/500/{team_id}.png"
     if team_id else None] *)
Definition make_logo_url (team_id : option Id) : option string :=
  match team_id with
  | Some i =>
      if id_truthy i
      then Some ("https://a.espncdn.com/i/teamlogos/ncaa/500/"
                 ++ id_text i ++ ".png")%string
      else None
  | None => None
  end.

Record State : Type := mkState {
  team_logos : Logos;
  unmapped_teams : list string
}.

(** [if team_id and team_name:] *)
Definition usable (team : Team) : bool :=
  match id team, displayName team with
  | Some team_id, Some team_name =>
      id_truthy team_id && negb (String.eqb team_name "")
  | _, _ => false
  end.

(** The body of [for team_obj in teams]; [None] is a [team_obj] without
    ['team']. *)
Definition add_team (st : State) (team_obj : option Team) : State :=
  let team :=
    match team_obj with
    | Some team => team
    | None => mkTeam None None None None
    end in
  let team_short := shortDisplayName team in
  let team_abbr := abbreviation team in
  let url := make_logo_url (id team) in
  match id team, displayName team with
  | Some team_id, Some team_name =>
      if id_truthy team_id && negb (String.eqb team_name "") then
        let canonical_name := get_canonical_name team_name in
        if Py.truthy canonical_name then
          mkState
            (dict_set (Py.value canonical_name)
               (mkTeamLogo team_id (Py.value canonical_name) team_name
                  team_short team_abbr url)
               (team_logos st))
            (unmapped_teams st)
        else
          mkState
            (dict_set team_name
               (mkTeamLogo team_id team_name team_name
                  team_short team_abbr url)
               (team_logos st))
            (unmapped_teams st ++ [team_name])
      else st
  | _, _ => st
  end.

(** [data['sports']] as the list of its sports, each the list of its leagues,
    each the list of its teams; a missing key is the empty list.  Only the
    first sport is read. *)
Definition fetch_all_cbb_teams (sports : list (list (list (option Team))))
    : State :=
  match sports with
  | [] => mkState [] []
  | sport :: _ =>
      fold_left (fun st league => fold_left add_team league st) sport
        (mkState [] [])
  end.

End Teams.

Arguments mkTeam {Id}.
Arguments id {Id}.
Arguments displayName {Id}.
Arguments shortDisplayName {Id}.
Arguments abbreviation {Id}.
Arguments mkTeamLogo {Id}.
Arguments logo_id {Id}.
Arguments name {Id}.
Arguments espn_name {Id}.
Arguments short_name {Id}.
Arguments logo_abbreviation {Id}.
Arguments logo_url {Id}.
Arguments dict_set {Id}.
Arguments mkState {Id}.
Arguments team_logos {Id}.
Arguments unmapped_teams {Id}.
Arguments usable {Id}.
Arguments make_logo_url {Id}.
Arguments add_team get_canonical_name {Id}.
Arguments fetch_all_cbb_teams get_canonical_name {Id}.
End EspnLogoMapping.

(** [espn_team_logos.json] as [load_logo_data] reads it back: the keys in
    the order of [team_logos], each with the ['logo_url'] of its value. *)
Definition logo_file {Id : Type} (logos : EspnLogoMapping.Logos Id)
    : GameCardFiles.LogoData :=
  map (fun kv => (fst kv,
                  GameCardFiles.mkLogoEntry (EspnLogoMapping.logo_url (snd kv))))
      logos.

(** The key under which [fetch_all_cbb_teams] stores a team. *)
Definition logo_key {Id : Type} (get_canonical_name : string -> option string)
    (team : EspnLogoMapping.Team Id) : string :=
  Py.key_of get_canonical_name (Py.value (EspnLogoMapping.displayName team)).

(** The order of [sorted(games_dict.items())] on the game numbers. *)
Definition key_le {Score : Type} (a b : N * HaslamCells.Partial Score) : Prop :=
  (fst a <= fst b)%N.

(** A property of entries that no assignment of the cell loop destroys. *)
Definition kept_by_assignments {Score : Type}
    (P : HaslamCells.Partial Score -> Prop) : Prop :=
  forall e, P e ->
    (forall s, P (HaslamCells.mkPartial (Some s) (HaslamCells.home_team e)
                    (HaslamCells.away_score e) (HaslamCells.home_score e)))
    /\ (forall s, P (HaslamCells.mkPartial (HaslamCells.away_team e) (Some s)
                    (HaslamCells.away_score e) (HaslamCells.home_score e)))
    /\ (forall x, P (HaslamCells.mkPartial (HaslamCells.away_team e)
                    (HaslamCells.home_team e) (Some x)
                    (HaslamCells.home_score e)))
    /\ (forall x, P (HaslamCells.mkPartial (HaslamCells.away_team e)
                    (HaslamCells.home_team e) (HaslamCells.away_score e)
                    (Some x))).

Definition justified {Score : Type} (all_cells : list (HaslamCells.Cell Score))
    (n : N) (e : HaslamCells.Partial Score) : Prop :=
  (forall s, HaslamCells.home_team e = Some s ->
     exists c, In c all_cells /\ HaslamCells.match_id (HaslamCells.cell_id c) = Some (n, 2%nat, false)
               /\ HaslamCells.link_text c = Some s)
  /\ (forall s, HaslamCells.away_team e = Some s ->
        exists c, In c all_cells
                  /\ HaslamCells.match_id (HaslamCells.cell_id c) = Some (n, 1%nat, false)
                  /\ HaslamCells.link_text c = Some s)
  /\ (forall x, HaslamCells.home_score e = Some x ->
        exists c, In c all_cells
                  /\ HaslamCells.match_id (HaslamCells.cell_id c) = Some (n, 2%nat, true)
                  /\ HaslamCells.as_float c = Some x)
  /\ (forall x, HaslamCells.away_score e = Some x ->
        exists c, In c all_cells
                  /\ HaslamCells.match_id (HaslamCells.cell_id c) = Some (n, 1%nat, true)
                  /\ HaslamCells.as_float c = Some x).

(* ================================================================= *)
(** ** The order of the printed names *)

(** [a <= b] and [a < b] on strings, by code points. *)
Definition leb_rel (a b : string) : Prop := String.leb a b = true.
Definition ltb_rel (a b : string) : Prop := String.ltb a b = true.

(* ================================================================= *)
(** ** Names that cleaning leaves alone *)

(** A name with no whitespace at either end and no digit at its end. *)
Definition tidy (s : list ascii) : bool :=
  match s, rev s with
  | first :: _, last :: _ =>
      negb (Py.is_space first) && negb (Py.is_space last)
      && negb (Py.is_digit last)
  | _, _ => true
  end.

(* ================================================================= *)
(** ** Notions used to state how the slate and the files are processed *)

(** Both teams of a game have a row in the ratings table: the negation of
    the test [home_data is None or away_data is None] of [predict_games]. *)
Definition rated {F : Type} `{Number F} (df : Torvik.DataFrame F)
    (g : Torvik.Game) : bool :=
  negb (Torvik.is_None (Torvik.get_team_data df (Torvik.home_team g))
        || Torvik.is_None (Torvik.get_team_data df (Torvik.away_team g))).

Definition game_names (g : Torvik.Game) : string * string :=
  (Torvik.home_team g, Torvik.away_team g).

Definition prediction_names {F : Type} (p : Torvik.Prediction F)
    : string * string :=
  (Torvik.Home_Team p, Torvik.Away_Team p).

(** [{'home': home_team, 'away': away_team}] *)
Definition skip_entry (g : Torvik.Game) : Torvik.Skipped :=
  Torvik.mkSkipped (Torvik.home_team g) (Torvik.away_team g) None.

(** The [try] block of [predict_games] does not raise for a game: the site
    is neutral, so that the ['HCA'] cell is not read, or [float] converts
    the cell of the home row. *)
Definition converts {F : Type} `{Number F} (df : Torvik.DataFrame F)
    (g : Torvik.Game) : bool :=
  Torvik.neutral_site g
  || match Torvik.get_team_data df (Torvik.home_team g) with
     | Some home => negb (Torvik.is_None (Torvik.hca_of home))
     | None => false
     end.

(** The games [predict_games] has a prediction for. *)
Definition predictable {F : Type} `{Number F} (df : Torvik.DataFrame F)
    (g : Torvik.Game) : bool :=
  rated df g && converts df g.

(** The entry of [skipped] for a game without a prediction: without an
    error text when a team has no row, and otherwise with the text of the
    exception of [float(home_data['HCA'])]. *)
Definition skipped_entry {F : Type} `{Number F} (df : Torvik.DataFrame F)
    (g : Torvik.Game) : Torvik.Skipped :=
  if rated df g then
    Torvik.mkSkipped (Torvik.home_team g) (Torvik.away_team g)
      (Some (match Torvik.get_team_data df (Torvik.home_team g) with
             | Some home => Torvik.hca_error home
             | None => ""%string
             end))
  else skip_entry g.

(** The predictions the given files hold for a matchup, file by file, with
    the exact value of each score ([None] for a missing one). *)
Definition named {F : Type} (home away : string) (r : Torvik.Prediction F)
    : bool :=
  if string_dec (Torvik.Home_Team r) home
  then if string_dec (Torvik.Away_Team r) away then true else false
  else false.

Definition predictions_for {F : Type} (value : F -> option Q)
    (files : list (list (Torvik.Prediction F))) (home away : string)
    : list Spec.SourcePrediction :=
  flat_map
    (fun df =>
       map (fun r => (value (Torvik.Home_Score r), value (Torvik.Away_Score r)))
           (filter (named home away) df))
    files.

(** The scores a file has for a matchup on one side. *)
Definition scores_for {F : Type} (score_of : Torvik.Prediction F -> F)
    (df : list (Torvik.Prediction F)) (home away : string) : list F :=
  map score_of (filter (named home away) df).

(** The consensus of one side as the code computes it: the scores that are
    numbers, added up from zero in the order given, divided by their count
    and rounded to the nearest integer, halves to even; nothing when no score
    is a number. *)
Definition side_consensus {F : Type} `{Number F} (scores : list F)
    : option F :=
  match filter (fun x => negb (isnan x)) scores with
  | [] => None
  | numbers =>
      Some (rint (div (fold_left add numbers (fromZ 0))
                      (fromZ (Z.of_nat (List.length numbers)))))
  end.

(** The rational a binary64 value stands for; [None] for a NaN and for the
    infinities. *)
Definition exact_value (x : float) : option Q :=
  match Prim2SF x with
  | S754_zero _ => Some 0
  | S754_finite sign m e =>
      Some ((if sign then - inject_Z (Zpos m) else inject_Z (Zpos m))
            * Qpower 2 e)
  | _ => None
  end.

(** How many rows a prediction file has for the game of a Kenpom row. *)
Definition rows_for {F : Type} `{Number F} (df : list (Combine.SourceRow F))
    (k : Combine.SourceRow F) : nat :=
  List.length
    (filter (Combine.same_game (Torvik.Home_Team k) (Torvik.Away_Team k)) df).

(* ================================================================= *)
(** ** Sample data *)

(** Two teams with the same ratings: 110 offence, 100 defence, tempo 70,
    HCA 3.2. *)
Definition twin_ratings (F : Type) `{Number F} : Torvik.DataFrame F :=
  [ Torvik.mkTeamRow "Duke" (fromZ 110) (fromZ 100) (fromZ 70)
                     (Some (Torvik.Num (decimal 32 10)));
    Torvik.mkTeamRow "UNC" (fromZ 110) (fromZ 100) (fromZ 70)
                     (Some (Torvik.Num (decimal 32 10))) ].

Arguments twin_ratings F {_}.

(** The three-source example: Kenpom (75, 70), Torvik (73, 68) and
    Haslametrics (74, 69) for one game. *)
Definition kenpom_sample (F : Type) `{Number F} : list (Combine.SourceRow F) :=
  [ Torvik.mkPrediction "Duke" "UNC" (fromZ 75) (fromZ 70) ].
Definition torvik_sample (F : Type) `{Number F} : list (Combine.SourceRow F) :=
  [ Torvik.mkPrediction "Duke" "UNC" (fromZ 73) (fromZ 68) ].
Definition haslam_sample (F : Type) `{Number F} : list (Combine.SourceRow F) :=
  [ Torvik.mkPrediction "Duke" "UNC" (fromZ 74) (fromZ 69) ].

Arguments kenpom_sample F {_}.
Arguments torvik_sample F {_}.
Arguments haslam_sample F {_}.

(** Three home scores whose arithmetic mean is 65.5: 65.1, 65.6 and 65.8. *)
Definition close_kenpom (F : Type) `{Number F} : list (Combine.SourceRow F) :=
  [ Torvik.mkPrediction "Duke" "UNC" (decimal 651 10) (fromZ 70) ].
Definition close_torvik (F : Type) `{Number F} : list (Combine.SourceRow F) :=
  [ Torvik.mkPrediction "Duke" "UNC" (decimal 656 10) (fromZ 68) ].
Definition close_haslam (F : Type) `{Number F} : list (Combine.SourceRow F) :=
  [ Torvik.mkPrediction "Duke" "UNC" (decimal 658 10) (fromZ 69) ].

Arguments close_kenpom F {_}.
Arguments close_torvik F {_}.
Arguments close_haslam F {_}.

(** Section 8.5 of the specification: A has (70, 65) and B has (72, missing);
    a third file has a row for another game only. *)
Definition source_a : list (Combine.SourceRow float) :=
  [ Torvik.mkPrediction "Duke" "UNC" (fromZ 70) (fromZ 65) ].
Definition source_b : list (Combine.SourceRow float) :=
  [ Torvik.mkPrediction "Duke" "UNC" (fromZ 72) PrimFloat.nan ].
Definition other_game (F : Type) `{Number F} : list (Combine.SourceRow F) :=
  [ Torvik.mkPrediction "Kansas" "Baylor" (fromZ 71) (fromZ 66) ].

Arguments other_game F {_}.

(** Ratings whose HCA column holds text: Duke's cell reads "TBD", on which
    [float] raises; UNC's converts to 3.5. *)
Definition text_hca_ratings (F : Type) `{Number F} : Torvik.DataFrame F :=
  [ Torvik.mkTeamRow "Duke" (fromZ 110) (fromZ 100) (fromZ 70)
      (Some (Torvik.Bad "could not convert string to float: 'TBD'"));
    Torvik.mkTeamRow "UNC" (fromZ 110) (fromZ 100) (fromZ 70)
      (Some (Torvik.Num (decimal 35 10))) ].

Arguments text_hca_ratings F {_}.

(** A slate of two games; Gonzaga has no rating row in [twin_ratings]. *)
Definition sample_games : list Torvik.Game :=
  [ Torvik.mkGame "Duke" "UNC" false "2026-02-04 07:00 PM";
    Torvik.mkGame "Duke" "Gonzaga" false "2026-02-04 09:00 PM" ].

(** A mapping table with one entry, and two scraped slates. *)
Definition one_entry_mapping (name : string) : option string :=
  if String.eqb name "Duke"%string then Some "Duke Blue Devils"%string
  else None.

(** A mapping table that has a ranked spelling, "UNC 3", and nothing
    else. *)
Definition ranked_only_mapping (name : string) : option string :=
  if String.eqb name "UNC 3"%string then Some "North Carolina"%string
  else None.

Definition espn_slate : list (FetchDailyGames.Row unit) :=
  [ FetchDailyGames.mkRow "Duke" "Chaminade" tt;
    FetchDailyGames.mkRow "Chaminade" "UNC" tt ].

Definition haslam_slate : list (HaslametricScrape.Row unit) :=
  [ HaslametricScrape.mkRow "Duke 12" "UNC 3" tt;
    HaslametricScrape.mkRow "Kansas" "UNC 3" tt ].

(** A second, different row for Duke, as a later duplicate. *)
Definition later_duke_row : Torvik.TeamRow Q :=
  Torvik.mkTeamRow "Duke" (fromZ 120) (fromZ 90) (fromZ 65) None.

(** Ratings of two different teams. *)
Definition two_team_ratings : Torvik.DataFrame Q :=
  [ Torvik.mkTeamRow "Duke" (decimal 1215 10) (decimal 932 10)
                     (decimal 664 10) (Some (Torvik.Num (decimal 41 10)));
    Torvik.mkTeamRow "UNC" (decimal 1148 10) (decimal 978 10)
                     (decimal 713 10) (Some (Torvik.Num (decimal 36 10))) ].

(** A logo file with two keys that differ in case only. *)
Definition sample_logos : GameCardFiles.LogoData :=
  [ ("UCONN"%string,
     GameCardFiles.mkLogoEntry (Some "https://a.espncdn.com/41.png"%string));
    ("UConn"%string,
     GameCardFiles.mkLogoEntry (Some "https://a.espncdn.com/42.png"%string)) ].

(** The teams of an ESPN answer whose ids are JSON strings: one sport with
    two leagues, an object without ['team'] and a team without an id. *)
Definition text_truthy (team_id : string) : bool :=
  negb (String.eqb team_id "").

Definition duke_team : EspnLogoMapping.Team string :=
  EspnLogoMapping.mkTeam (Some "150"%string) (Some "Duke"%string)
    (Some "Duke"%string) (Some "DUKE"%string).

Definition sample_sports
    : list (list (list (option (EspnLogoMapping.Team string)))) :=
  [ [ [ Some duke_team; None ];
      [ Some (EspnLogoMapping.mkTeam (Some "153"%string)
                (Some "North Carolina Tar Heels"%string)
                (Some "North Carolina"%string) (Some "UNC"%string));
        Some (EspnLogoMapping.mkTeam None (Some "Chaminade"%string)
                None None) ] ] ].

(** A scoreboard event as ESPN lists it: the away team first. *)
Definition sample_event : Scoreboard.Event :=
  Scoreboard.mkEvent (Some "401700001"%string)
    (Some "2026-02-05T00:00Z"%string) (Some "Scheduled"%string)
    [ Scoreboard.mkCompetition (Some "Cameron Indoor Stadium"%string)
        (Some false)
        [ Scoreboard.mkCompetitor (Some "away"%string)
            (Some "North Carolina Tar Heels"%string);
          Scoreboard.mkCompetitor (Some "home"%string)
            (Some "Duke Blue Devils"%string) ] ].

(** A stand-in for the time conversion that keeps the text. *)
Definition keep_time (game_date : string) : option string := Some game_date.

(** The cells of two games; game 1 comes after game 2 in the page, and game
    3 has no home score. *)
Definition sample_cells : list (HaslamCells.Cell Q) :=
  [ HaslamCells.mkCell "tdUpcoming_2_1" None (Some "Kansas 9"%string);
    HaslamCells.mkCell "tdUpcoming_2_1_sc" (Some (decimal 712 10)) None;
    HaslamCells.mkCell "tdUpcoming_2_2" None (Some "Baylor"%string);
    HaslamCells.mkCell "tdUpcoming_2_2_sc" (Some (decimal 698 10)) None;
    HaslamCells.mkCell "tdUpcoming_1_1" None (Some "UNC 3"%string);
    HaslamCells.mkCell "tdUpcoming_1_1_sc" (Some (decimal 745 10)) None;
    HaslamCells.mkCell "tdUpcoming_1_2" None (Some "Duke 12"%string);
    HaslamCells.mkCell "tdUpcoming_1_2_sc" (Some (decimal 781 10)) None;
    HaslamCells.mkCell "tdUpcoming_3_1" None (Some "Iowa"%string);
    HaslamCells.mkCell "tdUpcoming_3_1_sc" (Some (decimal 66 1)) None;
    HaslamCells.mkCell "tdUpcoming_3_2" None (Some "Ohio"%string) ].

(* ================================================================= *)
(** * Properties *)

(** ** The score model *)

Section ScoreModelFacts.
Context {F : Type} `{Number F}.
Import Torvik.

Lemma filter_first_match (p : TeamRow F -> bool) (df : DataFrame F) (r : TeamRow F)
    (rest : list (TeamRow F)) :
  filter p df = r :: rest ->
  exists pre post,
    df = pre ++ r :: post /\ p r = true /\ forall x, In x pre -> p x = false.
Proof.
  induction df as [|x df IH]; simpl; intros E.
  - discriminate E.
  - destruct (p x) eqn:Px.
    + injection E as -> _. exists [], df. simpl. repeat split; auto.
      intros y [].
    + destruct (IH E) as (pre & post & -> & Pr & Hpre).
      exists (x :: pre), post. simpl. repeat split; auto.
      intros y [<- | Hy]; auto.
Qed.

Lemma filter_skip_prefix (p : TeamRow F -> bool) (pre : list (TeamRow F)) (r : TeamRow F)
    (post : list (TeamRow F)) :
  (forall x, In x pre -> p x = false) -> p r = true ->
  filter p (pre ++ r :: post) = r :: filter p post.
Proof.
  intros Hpre Pr. induction pre as [|x pre IH]; simpl.
  - now rewrite Pr.
  - rewrite (Hpre x (or_introl eq_refl)). apply IH.
    intros y Hy. apply Hpre. now right.
Qed.

Lemma get_team_data_None (df : DataFrame F) (team : string) :
  get_team_data df team = None <-> forall r, In r df -> Team r <> team.
Proof.
  unfold get_team_data. split.
  - intros E r Hr Heq.
    assert (Hin : In r (filter (fun r => String.eqb (Team r) team) df)).
    { apply filter_In. split; auto. now apply String.eqb_eq. }
    destruct (filter _ df); [destruct Hin | discriminate E].
  - intros Hno.
    destruct (filter _ df) as [|r rest] eqn:E; auto.
    assert (Hin : In r (filter (fun r => String.eqb (Team r) team) df))
      by (rewrite E; now left).
    apply filter_In in Hin as [Hin Heq]. apply String.eqb_eq in Heq.
    now destruct (Hno r Hin).
Qed.

Lemma get_team_data_Some (df : DataFrame F) (team : string) (r : TeamRow F) :
  get_team_data df team = Some r <->
  exists pre post,
    df = pre ++ r :: post /\ Team r = team /\
    forall x, In x pre -> Team x <> team.
Proof.
  unfold get_team_data. split.
  - destruct (filter _ df) as [|r' rest] eqn:E; intros Hr; [discriminate|].
    injection Hr as ->.
    destruct (filter_first_match _ _ _ _ E) as (pre & post & -> & Pr & Hpre).
    exists pre, post. repeat split; [now apply String.eqb_eq|].
    intros x Hx Heq. apply String.eqb_eq in Heq.
    rewrite (Hpre x Hx) in Heq. discriminate.
  - intros (pre & post & -> & Pr & Hpre).
    rewrite filter_skip_prefix; auto.
    + intros x Hx. apply String.eqb_neq. now apply Hpre.
    + now apply String.eqb_eq.
Qed.

(** C10: [get_team_data] returns [None] exactly when no row of the table
    has the given [Team], and otherwise the first row that has it; being a
    total function it always returns one of the two. *)
Theorem get_team_data_first_row (df : DataFrame F) (team : string) :
  (get_team_data df team = None <-> forall r, In r df -> Team r <> team)
  /\ (forall r,
        get_team_data df team = Some r <->
        exists pre post,
          df = pre ++ r :: post /\ Team r = team /\
          forall x, In x pre -> Team x <> team)
  /\ (get_team_data df team = None \/ exists r, get_team_data df team = Some r).
Proof.
  split; [apply get_team_data_None|].
  split; [intros r; apply get_team_data_Some|].
  destruct (get_team_data df team) as [r|]; [right; now exists r | now left].
Qed.

(** With both rows found, the tempo and the two scores are the formulas;
    only [float] on the home row's ['HCA'] cell can still raise. *)
Lemma calculate_scores_found (torvik_data : DataFrame F)
    (home_team away_team : string) (home away : TeamRow F) :
  get_team_data torvik_data home_team = Some home ->
  get_team_data torvik_data away_team = Some away ->
  let tempo := div (mul (AdjT home) (AdjT away)) (decimal 676 10) in
  let k := mul (decimal 1103 10) (fromZ 100) in
  let home_points := div (mul (mul (AdjO home) (AdjD away)) tempo) k in
  let away_points := div (mul (mul (AdjO away) (AdjD home)) tempo) k in
  calculate_tempo torvik_data home_team away_team = Some tempo
  /\ calculate_home_score torvik_data home_team away_team true
     = Some home_points
  /\ calculate_home_score torvik_data home_team away_team false
     = option_map (add home_points) (hca_of home)
  /\ calculate_away_score torvik_data away_team home_team = Some away_points.
Proof.
  intros Hh Ha. cbv zeta.
  unfold calculate_home_score, calculate_away_score, calculate_tempo.
  rewrite Hh, Ha. cbn [negb].
  destruct (hca_of home); repeat split; reflexivity.
Qed.

(** C1: when both teams are in the ratings table, the three functions
    return exactly the published formulas: tempo is the product of the two
    tempos over 67.6; each side's points are offence times the opponent's
    defence times tempo over 110.3 * 100; on a neutral site the home score
    is these points and nothing else; otherwise the number in the home
    row's HCA cell is added to them (3.0 when the table has no HCA column,
    and no score at all when [float] raises on the cell); the away side
    never gets an HCA term. *)
Theorem score_model_formulas (torvik_data : DataFrame F)
    (home_team away_team : string) (home away : TeamRow F) :
  get_team_data torvik_data home_team = Some home ->
  get_team_data torvik_data away_team = Some away ->
  let tempo := div (mul (AdjT home) (AdjT away)) (decimal 676 10) in
  let k := mul (decimal 1103 10) (fromZ 100) in
  let home_points := div (mul (mul (AdjO home) (AdjD away)) tempo) k in
  let away_points := div (mul (mul (AdjO away) (AdjD home)) tempo) k in
  calculate_tempo torvik_data home_team away_team = Some tempo
  /\ calculate_home_score torvik_data home_team away_team true
     = Some home_points
  /\ calculate_home_score torvik_data home_team away_team false
     = match HCA home with
       | Some (Num hca) => Some (add home_points hca)
       | Some (Bad _) => None
       | None => Some (add home_points (fromZ 3))
       end
  /\ calculate_away_score torvik_data away_team home_team = Some away_points.
Proof.
  intros Hh Ha. cbv zeta.
  destruct (calculate_scores_found torvik_data home_team away_team home away
              Hh Ha) as (Et & En & Eh & Ea).
  split; [exact Et|]. split; [exact En|]. split; [|exact Ea].
  rewrite Eh. unfold hca_of.
  destruct (HCA home) as [[hca|message]|]; reflexivity.
Qed.

(** With equal ratings on both sides and a non-neutral site, the home
    score is the away score plus the home HCA, in whatever arithmetic the
    code runs; there is no home score when [float] raises on the HCA cell. *)
Lemma equal_ratings_home_is_away_plus_hca (torvik_data : DataFrame F)
    (home_team away_team : string) (home away : TeamRow F) :
  get_team_data torvik_data home_team = Some home ->
  get_team_data torvik_data away_team = Some away ->
  AdjO home = AdjO away -> AdjD home = AdjD away ->
  AdjT home = AdjT away -> HCA home = HCA away ->
  exists away_score,
    calculate_away_score torvik_data away_team home_team = Some away_score
    /\ calculate_home_score torvik_data home_team away_team false
       = option_map (add away_score) (hca_of home).
Proof.
  intros Hh Ha EO ED ET _.
  destruct (calculate_scores_found torvik_data home_team away_team home away
              Hh Ha) as (_ & _ & Eh & Ea).
  eexists. split; [exact Ea|]. rewrite Eh, EO, ED. reflexivity.
Qed.

End ScoreModelFacts.

(** The constants of the binary64 instance are Python's [67.6], [110.3] and
    [110.3 * 100]. *)
Lemma binary64_constants :
  decimal (F:=float) 676 10 = 0x1.0e66666666666p+6%float
  /\ decimal (F:=float) 1103 10 = 0x1.b933333333333p+6%float
  /\ mul (decimal (F:=float) 1103 10) (fromZ 100) = 11030%float.
Proof. repeat split; vm_compute; reflexivity. Qed.

(** [rint] on halves and on a model score scaled by ten, in both
    arithmetics. *)
Example rint_exact_samples :
  map Qrint_Z [1 # 2; 3 # 2; 5 # 2; - (1 # 2); - (3 # 2); 7288 # 100]
  = [0; 2; 2; 0; -2; 73]%Z.
Proof. reflexivity. Qed.

Example rint_binary64_samples :
  map float_rint [0.5; 1.5; 2.5; 3.5; -1.5; 74; 754.875]%float
  = [0; 2; 2; 4; -2; 74; 755]%float.
Proof. vm_compute. reflexivity. Qed.

Lemma score_model_formulas_witness :
  Torvik.calculate_home_score (twin_ratings Q) "Duke" "UNC" false
  = Some (add (div (mul (mul (fromZ 110) (fromZ 100))
                        (div (mul (fromZ 70) (fromZ 70)) (decimal 676 10)))
                   (mul (decimal 1103 10) (fromZ 100)))
              (decimal 32 10))
  /\ Torvik.calculate_home_score (twin_ratings Q) "Duke" "UNC" true
     = Some (div (mul (mul (fromZ 110) (fromZ 100))
                      (div (mul (fromZ 70) (fromZ 70)) (decimal 676 10)))
                 (mul (decimal 1103 10) (fromZ 100)))
  /\ Torvik.calculate_away_score (twin_ratings Q) "UNC" "Duke"
     = Some (div (mul (mul (fromZ 110) (fromZ 100))
                      (div (mul (fromZ 70) (fromZ 70)) (decimal 676 10)))
                 (mul (decimal 1103 10) (fromZ 100))).
Proof.
  pose proof (score_model_formulas (twin_ratings Q) "Duke" "UNC"
                (Torvik.mkTeamRow "Duke" (fromZ 110) (fromZ 100) (fromZ 70)
                                  (Some (Torvik.Num (decimal 32 10))))
                (Torvik.mkTeamRow "UNC" (fromZ 110) (fromZ 100) (fromZ 70)
                                  (Some (Torvik.Num (decimal 32 10))))
                eq_refl eq_refl) as (_ & Neutral & Home & Away).
  split; [exact Home | split; [exact Neutral | exact Away]].
Defined.

(** In exact arithmetic the difference of the two scores is the HCA. *)
Lemma equal_ratings_difference_exact (torvik_data : Torvik.DataFrame Q)
    (home_team away_team : string) (home away : Torvik.TeamRow Q) :
  Torvik.get_team_data torvik_data home_team = Some home ->
  Torvik.get_team_data torvik_data away_team = Some away ->
  Torvik.AdjO home = Torvik.AdjO away -> Torvik.AdjD home = Torvik.AdjD away ->
  Torvik.AdjT home = Torvik.AdjT away -> Torvik.HCA home = Torvik.HCA away ->
  match Torvik.hca_of home with
  | Some hca =>
      exists home_score away_score,
        Torvik.calculate_home_score torvik_data home_team away_team false
        = Some home_score
        /\ Torvik.calculate_away_score torvik_data away_team home_team
           = Some away_score
        /\ home_score - away_score == hca
  | None =>
      Torvik.calculate_home_score torvik_data home_team away_team false = None
  end.
Proof.
  intros Hh Ha EO ED ET EH.
  destruct (equal_ratings_home_is_away_plus_hca _ _ _ _ _ Hh Ha EO ED ET EH)
    as (away_score & Eaway & Ehome).
  destruct (Torvik.hca_of home) as [hca|]; [|exact Ehome].
  exists (add away_score hca), away_score.
  repeat split; auto. simpl. ring.
Qed.

(** C7, as the code has it: with identical ratings on both sides and
    [neutral_site = False], the home score is the away score plus the home
    team's HCA in any arithmetic (first part), and the difference of the two
    scores is exactly the HCA when the arithmetic is exact (second part).
    The HCA is the number [float] makes of the home row's cell, 3.0 without
    an HCA column; when [float] raises there is no home score. *)
Theorem hca_asymmetry :
  (forall (F : Type) (NF : Number F) (torvik_data : Torvik.DataFrame F)
          (home_team away_team : string) (home away : Torvik.TeamRow F),
      Torvik.get_team_data torvik_data home_team = Some home ->
      Torvik.get_team_data torvik_data away_team = Some away ->
      Torvik.AdjO home = Torvik.AdjO away ->
      Torvik.AdjD home = Torvik.AdjD away ->
      Torvik.AdjT home = Torvik.AdjT away ->
      Torvik.HCA home = Torvik.HCA away ->
      exists away_score,
        Torvik.calculate_away_score torvik_data away_team home_team
        = Some away_score
        /\ Torvik.calculate_home_score torvik_data home_team away_team false
           = option_map (add away_score) (Torvik.hca_of home))
  /\
  (forall (torvik_data : Torvik.DataFrame Q)
          (home_team away_team : string) (home away : Torvik.TeamRow Q),
      Torvik.get_team_data torvik_data home_team = Some home ->
      Torvik.get_team_data torvik_data away_team = Some away ->
      Torvik.AdjO home = Torvik.AdjO away ->
      Torvik.AdjD home = Torvik.AdjD away ->
      Torvik.AdjT home = Torvik.AdjT away ->
      Torvik.HCA home = Torvik.HCA away ->
      match Torvik.hca_of home with
      | Some hca =>
          exists home_score away_score,
            Torvik.calculate_home_score torvik_data home_team away_team false
            = Some home_score
            /\ Torvik.calculate_away_score torvik_data away_team home_team
               = Some away_score
            /\ home_score - away_score == hca
      | None =>
          Torvik.calculate_home_score torvik_data home_team away_team false
          = None
      end).
Proof.
  split.
  - intros F NF. apply equal_ratings_home_is_away_plus_hca.
  - apply equal_ratings_difference_exact.
Qed.

Lemma hca_asymmetry_witness :
  exists home_score away_score,
    Torvik.calculate_home_score (twin_ratings Q) "Duke" "UNC" false
    = Some home_score
    /\ Torvik.calculate_away_score (twin_ratings Q) "UNC" "Duke"
       = Some away_score
    /\ home_score - away_score == 32 # 10.
Proof.
  exact (proj2 hca_asymmetry (twin_ratings Q) "Duke"%string "UNC"%string
           (Torvik.mkTeamRow "Duke" (fromZ 110) (fromZ 100) (fromZ 70)
                             (Some (Torvik.Num (decimal 32 10))))
           (Torvik.mkTeamRow "UNC" (fromZ 110) (fromZ 100) (fromZ 70)
                             (Some (Torvik.Num (decimal 32 10))))
           eq_refl eq_refl eq_refl eq_refl eq_refl eq_refl).
Defined.

(** C7 as stated fails in binary64: for the twin ratings the two scores are
    75.488057851904713 and 72.288057851904711, and their difference
    3.2000000000000028 is not the HCA 3.2. *)
Lemma hca_difference_inexact_in_binary64 :
  exists home_score away_score,
    Torvik.calculate_home_score (twin_ratings float) "Duke" "UNC" false
    = Some home_score
    /\ Torvik.calculate_away_score (twin_ratings float) "UNC" "Duke"
       = Some away_score
    /\ Torvik.hca_of (Torvik.mkTeamRow "Duke" (fromZ 110) (fromZ 100)
                        (fromZ 70)
                        (Some (Torvik.Num (decimal (F:=float) 32 10))))
       = Some 0x1.999999999999ap+1%float
    /\ sub home_score away_score = 0x1.99999999999a0p+1%float
    /\ PrimFloat.eqb (sub home_score away_score) 0x1.999999999999ap+1 = false.
Proof.
  eexists. eexists.
  split; [vm_compute; reflexivity|].
  split; [vm_compute; reflexivity|].
  repeat split; vm_compute; reflexivity.
Qed.

(** ** [predict_games] *)

Section PredictGamesFacts.
Context {F : Type} `{Number F}.
Import Torvik.

Lemma predict_step_appends (df : DataFrame F) (g : Game)
    (predictions : list (Prediction F)) (skipped : list Skipped) :
  predict_step df (predictions, skipped) g
  = (predictions ++ predicted df g, skipped ++ skipped_of df g).
Proof.
  unfold predicted, skipped_of, predict_step.
  destruct (is_None _ || is_None _); simpl.
  - now rewrite app_nil_r.
  - destruct (calculate_home_score _ _ _ _);
      [destruct (calculate_away_score _ _ _)|];
      simpl; now rewrite app_nil_r.
Qed.

Lemma fold_predict_step (df : DataFrame F) (games : list Game) :
  forall predictions skipped,
    fold_left (predict_step df) games (predictions, skipped)
    = (predictions ++ flat_map (predicted df) games,
       skipped ++ flat_map (skipped_of df) games).
Proof.
  induction games as [|g games IH]; intros predictions skipped;
    cbn [fold_left flat_map].
  - now rewrite !app_nil_r.
  - rewrite predict_step_appends, IH. now rewrite <- !app_assoc.
Qed.

Lemma predict_games_flat (df : DataFrame F) (games : list Game) :
  predict_games df games
  = (flat_map (predicted df) games, flat_map (skipped_of df) games).
Proof. unfold predict_games. now rewrite fold_predict_step. Qed.

(** A game with a team that has no rating row is skipped. *)
Lemma missing_team_skipped (df : DataFrame F) (g : Game) :
  get_team_data df (home_team g) = None \/
  get_team_data df (away_team g) = None ->
  predicted df g = []
  /\ skipped_of df g = [mkSkipped (home_team g) (away_team g) None].
Proof.
  unfold predicted, skipped_of, predict_step.
  intros [E | E]; rewrite E; simpl.
  - split; reflexivity.
  - rewrite orb_true_r. split; reflexivity.
Qed.

(** What the loop does with a game whose two teams are rated: a prediction
    to one decimal, or, when [float] raises on the home row's HCA cell, an
    entry of [skipped] with the text of the exception. *)
Lemma rated_teams_processed (df : DataFrame F) (g : Game)
    (home away : TeamRow F) :
  get_team_data df (home_team g) = Some home ->
  get_team_data df (away_team g) = Some away ->
  exists away_score,
    calculate_away_score df (away_team g) (home_team g) = Some away_score
    /\ match calculate_home_score df (home_team g) (away_team g)
                                  (neutral_site g) with
       | Some home_score =>
           predicted df g
           = [mkPrediction (home_team g) (away_team g)
                           (round1 home_score) (round1 away_score)]
           /\ skipped_of df g = []
       | None =>
           neutral_site g = false /\ hca_of home = None
           /\ predicted df g = []
           /\ skipped_of df g
              = [mkSkipped (home_team g) (away_team g)
                           (Some (hca_error home))]
       end.
Proof.
  intros Hh Ha.
  destruct (calculate_scores_found df (home_team g) (away_team g) home away
              Hh Ha) as (_ & En & Eh & Ea).
  eexists. split; [exact Ea|].
  unfold predicted, skipped_of, predict_step.
  rewrite Ea, Hh, Ha. cbn [is_None orb].
  destruct (neutral_site g).
  - rewrite En. split; reflexivity.
  - rewrite Eh. destruct (hca_of home) as [hca|]; cbn [option_map].
    + split; reflexivity.
    + repeat split; reflexivity.
Qed.

(** A game with both teams rated is predicted, to one decimal, when the
    site is neutral or the home row's HCA cell converts. *)
Lemma rated_teams_predicted (df : DataFrame F) (g : Game) (home away : TeamRow F) :
  get_team_data df (home_team g) = Some home ->
  get_team_data df (away_team g) = Some away ->
  neutral_site g = true \/ hca_of home <> None ->
  exists home_score away_score,
    calculate_home_score df (home_team g) (away_team g) (neutral_site g)
    = Some home_score
    /\ calculate_away_score df (away_team g) (home_team g) = Some away_score
    /\ predicted df g
       = [mkPrediction (home_team g) (away_team g)
                       (round1 home_score) (round1 away_score)]
    /\ skipped_of df g = [].
Proof.
  intros Hh Ha C.
  destruct (rated_teams_processed df g home away Hh Ha) as (aws & Ea & P).
  destruct (calculate_home_score df (home_team g) (away_team g)
              (neutral_site g)) as [hs|].
  - exists hs, aws. tauto.
  - destruct P as (N & E & _). destruct C as [C | C]; congruence.
Qed.

(** Every prediction comes from a game whose two teams are rated. *)
Lemma predicted_inv (df : DataFrame F) (g : Game) (p : Prediction F) :
  In p (predicted df g) ->
  exists home_score away_score,
    get_team_data df (home_team g) <> None
    /\ get_team_data df (away_team g) <> None
    /\ calculate_home_score df (home_team g) (away_team g) (neutral_site g)
       = Some home_score
    /\ calculate_away_score df (away_team g) (home_team g) = Some away_score
    /\ p = mkPrediction (home_team g) (away_team g)
                        (round1 home_score) (round1 away_score).
Proof.
  destruct (get_team_data df (home_team g)) as [home|] eqn:Hh.
  2: { rewrite (proj1 (missing_team_skipped df g (or_introl Hh))).
       intros []. }
  destruct (get_team_data df (away_team g)) as [away|] eqn:Ha.
  2: { rewrite (proj1 (missing_team_skipped df g (or_intror Ha))).
       intros []. }
  destruct (rated_teams_processed df g home away Hh Ha) as (aws & Ea & P).
  destruct (calculate_home_score df (home_team g) (away_team g)
              (neutral_site g)) as [hs|].
  - destruct P as [-> _]. intros [<- | []].
    exists hs, aws. repeat split; auto; discriminate.
  - destruct P as (_ & _ & -> & _). intros [].
Qed.

(** Every game adds one entry to one of the two lists. *)
Lemma one_entry_per_game (df : DataFrame F) (g : Game) :
  (List.length (predicted df g) + List.length (skipped_of df g) = 1)%nat.
Proof.
  destruct (get_team_data df (home_team g)) as [home|] eqn:Hh.
  2: { destruct (missing_team_skipped df g (or_introl Hh)) as [-> ->].
       reflexivity. }
  destruct (get_team_data df (away_team g)) as [away|] eqn:Ha.
  2: { destruct (missing_team_skipped df g (or_intror Ha)) as [-> ->].
       reflexivity. }
  destruct (rated_teams_processed df g home away Hh Ha) as (aws & _ & P).
  destruct (calculate_home_score df (home_team g) (away_team g)
              (neutral_site g)).
  - destruct P as [-> ->]. reflexivity.
  - destruct P as (_ & _ & -> & ->). reflexivity.
Qed.

(** C6: a game with a team missing from the ratings table gets no
    prediction and is put on the skipped list, without an error text; the
    loop goes on with the other games: a game with both teams rated is
    predicted when its site is neutral or [float] converts the home row's
    HCA cell, and is put on the skipped list with the text of the exception
    when [float] raises; every game ends in exactly one of the two lists. *)
Theorem missing_ratings_are_skipped (df : DataFrame F) (games : list Game)
    (g : Game) :
  In g games ->
  get_team_data df (home_team g) = None \/
  get_team_data df (away_team g) = None ->
  (forall p, In p (fst (predict_games df games)) ->
             ~ (Home_Team p = home_team g /\ Away_Team p = away_team g))
  /\ In (mkSkipped (home_team g) (away_team g) None)
        (snd (predict_games df games))
  /\ (forall g' home,
         In g' games ->
         get_team_data df (home_team g') = Some home ->
         get_team_data df (away_team g') <> None ->
         (neutral_site g' = true \/ hca_of home <> None ->
          exists p, In p (fst (predict_games df games))
                    /\ Home_Team p = home_team g'
                    /\ Away_Team p = away_team g')
         /\ (forall message,
               neutral_site g' = false -> HCA home = Some (Bad message) ->
               In (mkSkipped (home_team g') (away_team g') (Some message))
                  (snd (predict_games df games))))
  /\ (List.length (fst (predict_games df games))
      + List.length (snd (predict_games df games))
      = List.length games)%nat.
Proof.
  intros Hg Hmiss. rewrite predict_games_flat. simpl.
  split; [|split; [|split]].
  - intros p Hp [Eh Ea].
    apply in_flat_map in Hp as (g' & _ & Hp).
    destruct (predicted_inv df g' p Hp) as (hs & aws & Nh & Na & _ & _ & ->).
    simpl in Eh, Ea. rewrite Eh in Nh. rewrite Ea in Na.
    destruct Hmiss; contradiction.
  - apply in_flat_map. exists g. split; auto.
    rewrite (proj2 (missing_team_skipped df g Hmiss)). now left.
  - intros g' home Hg' Hh Na.
    destruct (get_team_data df (away_team g')) as [away|] eqn:Ha;
      [|now destruct Na].
    split.
    + intros C.
      destruct (rated_teams_predicted df g' home away Hh Ha C)
        as (hs & aws & _ & _ & Ep & _).
      eexists. split.
      * apply in_flat_map. exists g'. split; auto. rewrite Ep. now left.
      * split; reflexivity.
    + intros message N B.
      destruct (rated_teams_processed df g' home away Hh Ha) as (aws & _ & P).
      assert (E : calculate_home_score df (home_team g') (away_team g')
                    (neutral_site g') = None).
      { destruct (calculate_scores_found df (home_team g') (away_team g')
                    home away Hh Ha) as (_ & _ & Eh & _).
        rewrite N, Eh. unfold hca_of. now rewrite B. }
      rewrite E in P. destruct P as (_ & _ & _ & Es).
      apply in_flat_map. exists g'. split; auto. rewrite Es.
      unfold hca_error. rewrite B. now left.
  - clear Hg Hmiss g. induction games as [|g games IH]; simpl; auto.
    rewrite !length_app. pose proof (one_entry_per_game df g). lia.
Qed.


End PredictGamesFacts.

(** ** Rounding in exact arithmetic *)



Lemma Qrint_Z_comp (x y : Q) : x == y -> Qrint_Z x = Qrint_Z y.
Proof.
  intros E. unfold Qrint_Z.
  rewrite (Qfloor_comp x y E).
  assert (C : Qcompare (x - inject_Z (Qfloor y)) (1 # 2)
              = Qcompare (y - inject_Z (Qfloor y)) (1 # 2))
    by now rewrite E.
  now rewrite C.
Qed.

Lemma filter_all_kept {A : Type} (l : list A) :
  filter (fun _ => true) l = l.
Proof. induction l as [|x l IH]; simpl; [reflexivity | now rewrite IH]. Qed.

Lemma Qfloor_unique (x : Q) (n : Z) :
  inject_Z n <= x -> x < inject_Z (n + 1) -> Qfloor x = n.
Proof.
  intros L U.
  pose proof (Qfloor_le x) as Fl. pose proof (Qlt_floor x) as Fu.
  assert (A : (Qfloor x < n + 1)%Z).
  { rewrite Zlt_Qlt. apply Qle_lt_trans with x; assumption. }
  assert (B : (n < Qfloor x + 1)%Z).
  { rewrite Zlt_Qlt. apply Qle_lt_trans with x; assumption. }
  lia.
Qed.

(** The specification's round-half-to-even is the exact [rint]. *)
Lemma round_half_even_is_rint (x : Q) :
  Spec.round_half_even x = Qrint_Z x.
Proof.
  unfold Spec.round_half_even, Qrint_Z.
  pose proof (Qfloor_le x) as Fl. pose proof (Qlt_floor x) as Fu.
  rewrite inject_Z_plus in Fu. change (inject_Z 1) with 1 in Fu.
  destruct (Qcompare (x - inject_Z (Qfloor x)) (1 # 2)) eqn:C.
  - apply Qeq_alt in C.
    assert (E : x + (1 # 2) == inject_Z (Qfloor x + 1)).
    { rewrite inject_Z_plus. change (inject_Z 1) with 1. lra. }
    rewrite (Qfloor_comp _ _ E), Qfloor_Z.
    assert (B : Qeq_bool (x + (1 # 2)) (inject_Z (Qfloor x + 1)) = true)
      by now apply Qeq_bool_iff.
    rewrite B, Z.add_1_r, Z.odd_succ. cbn [andb].
    destruct (Z.even (Qfloor x)); lia.
  - apply Qlt_alt in C.
    assert (E : Qfloor (x + (1 # 2)) = Qfloor x).
    { apply Qfloor_unique; [lra|].
      rewrite inject_Z_plus. change (inject_Z 1) with 1. lra. }
    rewrite E.
    destruct (Qeq_bool (x + (1 # 2)) (inject_Z (Qfloor x))) eqn:B;
      [|reflexivity].
    apply Qeq_bool_iff in B. lra.
  - apply Qgt_alt in C.
    assert (E : Qfloor (x + (1 # 2)) = (Qfloor x + 1)%Z).
    { apply Qfloor_unique; rewrite !inject_Z_plus;
        change (inject_Z 1) with 1; lra. }
    rewrite E.
    destruct (Qeq_bool (x + (1 # 2)) (inject_Z (Qfloor x + 1))) eqn:B;
      [|reflexivity].
    apply Qeq_bool_iff in B. rewrite inject_Z_plus in B.
    change (inject_Z 1) with 1 in B. lra.
Qed.

Lemma fold_left_Qplus (xs : list Q) (acc : Q) :
  fold_left Qplus xs acc == acc + fold_right Qplus 0 xs.
Proof.
  revert acc. induction xs as [|x xs IH]; intros acc; cbn [fold_left fold_right].
  - ring.
  - rewrite IH. ring.
Qed.

(** In exact arithmetic the consensus of one side is the specification's
    rounded mean of the scores. *)
Lemma side_consensus_exact (x : Q) (xs : list Q) :
  side_consensus (x :: xs)
  = Some (inject_Z (Spec.round_half_even (Spec.mean (x :: xs)))).
Proof.
  unfold side_consensus. cbn [isnan Number_Q negb].
  rewrite filter_all_kept. cbn [rint div add fromZ Number_Q].
  rewrite round_half_even_is_rint. do 2 f_equal.
  apply Qrint_Z_comp. unfold Spec.mean.
  apply Qdiv_comp; [|reflexivity].
  rewrite fold_left_Qplus. change (inject_Z 0) with 0. ring.
Qed.

(** ** The aggregator *)

Section AggregatorFacts.
Context {F : Type} `{Number F}.
Import Combine.

Lemma same_game_iff (home away : string) (r : SourceRow F) :
  same_game home away r = true <->
  Torvik.Home_Team r = home /\ Torvik.Away_Team r = away.
Proof.
  unfold same_game. rewrite andb_true_iff, !String.eqb_eq. tauto.
Qed.

Lemma same_game_refl (r : SourceRow F) :
  same_game (Torvik.Home_Team r) (Torvik.Away_Team r) r = true.
Proof. apply same_game_iff. auto. Qed.

(** *** The left merge keeps the left rows *)

Lemma merge_left_fst {L : Type} (home_of away_of : L -> string)
    (left : list L) (right : list (SourceRow F)) (x : L * option (SourceRow F)) :
  In x (merge_left home_of away_of left right) -> In (fst x) left.
Proof.
  unfold merge_left. intros Hx.
  apply in_flat_map in Hx as (l & Hl & Hx).
  destruct (filter _ right) as [|r rs].
  - destruct Hx as [<- | []]. exact Hl.
  - apply in_map_iff in Hx as (r' & <- & _). exact Hl.
Qed.

Lemma merge_left_keeps {L : Type} (home_of away_of : L -> string)
    (left : list L) (right : list (SourceRow F)) (l : L) :
  In l left -> exists o, In (l, o) (merge_left home_of away_of left right).
Proof.
  unfold merge_left. intros Hl.
  destruct (filter (same_game (home_of l) (away_of l)) right) as [|r rs] eqn:E.
  - exists None. apply in_flat_map. exists l. split; auto.
    rewrite E. now left.
  - exists (Some r). apply in_flat_map. exists l. split; auto.
    rewrite E. now left.
Qed.

Lemma merge_left_cell {L : Type} (home_of away_of : L -> string)
    (left : list L) (right : list (SourceRow F)) (l : L)
    (cell : option (SourceRow F)) :
  In (l, cell) (merge_left home_of away_of left right) ->
  In l left /\ cell_for right (home_of l) (away_of l) cell.
Proof.
  unfold merge_left. intros Hx.
  apply in_flat_map in Hx as (l' & Hl & Hx).
  destruct (filter (same_game (home_of l') (away_of l')) right)
    as [|r rs] eqn:E.
  - destruct Hx as [Hx | []]. injection Hx as <- <-. split; auto.
    intros r Hr. destruct (same_game (home_of l') (away_of l') r) eqn:S; auto.
    assert (Hin : In r (filter (same_game (home_of l') (away_of l')) right))
      by (apply filter_In; auto).
    rewrite E in Hin. destruct Hin.
  - apply in_map_iff in Hx as (r' & Hx & Hr'). injection Hx as <- <-.
    split; auto. rewrite <- E in Hr'. apply filter_In in Hr'. exact Hr'.
Qed.

(** Every row of the combined table pairs one Kenpom row with what the other
    two files have for its game. *)
Lemma merged_rows_sound (kenpom_df torvik_df haslam_df : list (SourceRow F))
    (m : MergedRow F) :
  In m (merge_all kenpom_df torvik_df haslam_df) ->
  In (kenpom m) kenpom_df
  /\ cell_for torvik_df (Torvik.Home_Team (kenpom m))
        (Torvik.Away_Team (kenpom m)) (torvik m)
  /\ cell_for haslam_df (Torvik.Home_Team (kenpom m))
        (Torvik.Away_Team (kenpom m)) (haslam m).
Proof.
  unfold merge_all. intros Hm.
  apply in_map_iff in Hm as ([[k t] h] & <- & Hx).
  apply merge_left_cell in Hx as [Hkt Hh].
  apply merge_left_cell in Hkt as [Hk Ht].
  cbn [kenpom torvik haslam fst snd] in *. auto.
Qed.

(** *** Files with one row per game *)

Lemma existsb_false_filter {A : Type} (p : A -> bool) (l : list A) :
  existsb p l = false -> filter p l = [].
Proof.
  induction l as [|x l IH]; simpl; auto.
  destruct (p x); simpl; [discriminate | exact IH].
Qed.

Lemma unique_games_filter (df : list (SourceRow F)) (home away : string) :
  unique_games df = true ->
  filter (same_game home away) df
  = match lookup_game home away df with
    | None => []
    | Some r => [r]
    end.
Proof.
  unfold lookup_game.
  induction df as [|r df IH]; simpl; auto.
  intros U. apply andb_true_iff in U as [Hr U].
  apply negb_true_iff in Hr.
  destruct (same_game home away r) eqn:S.
  - apply same_game_iff in S as [<- <-].
    now rewrite (existsb_false_filter _ _ Hr).
  - apply IH, U.
Qed.

Lemma unique_games_own_row (df : list (SourceRow F)) (k : SourceRow F) :
  unique_games df = true -> In k df ->
  filter (same_game (Torvik.Home_Team k) (Torvik.Away_Team k)) df = [k].
Proof.
  intros U Hk.
  assert (Hin : In k (filter (same_game (Torvik.Home_Team k)
                                        (Torvik.Away_Team k)) df)).
  { apply filter_In. split; auto. apply same_game_refl. }
  rewrite (unique_games_filter df _ _ U) in *.
  destruct (lookup_game _ _ df); [|destruct Hin].
  destruct Hin as [-> | []]. reflexivity.
Qed.

Lemma merge_left_unique {L : Type} (home_of away_of : L -> string)
    (left : list L) (right : list (SourceRow F)) :
  unique_games right = true ->
  merge_left home_of away_of left right
  = map (fun l => (l, lookup_game (home_of l) (away_of l) right)) left.
Proof.
  intros U. unfold merge_left.
  induction left as [|l left IH]; cbn [flat_map]; auto.
  rewrite IH, (unique_games_filter right _ _ U), map_cons.
  destruct (lookup_game _ _ right); reflexivity.
Qed.

Lemma merge_all_unique (kenpom_df torvik_df haslam_df : list (SourceRow F)) :
  unique_games torvik_df = true -> unique_games haslam_df = true ->
  merge_all kenpom_df torvik_df haslam_df
  = map (fun k =>
           mkMergedRow k
             (lookup_game (Torvik.Home_Team k) (Torvik.Away_Team k) torvik_df)
             (lookup_game (Torvik.Home_Team k) (Torvik.Away_Team k) haslam_df))
        kenpom_df.
Proof.
  intros UT UH. unfold merge_all.
  rewrite (merge_left_unique _ _ kenpom_df torvik_df UT).
  rewrite (merge_left_unique _ _ _ haslam_df UH).
  rewrite !map_map. reflexivity.
Qed.

(** *** Which games reach the combined output *)

Lemma combined_games_are_kenpom_games
    (kenpom_df torvik_df haslam_df : list (SourceRow F)) (home away : string) :
  (exists r, In r (combine_predictions kenpom_df torvik_df haslam_df)
             /\ Home_Team r = home /\ Away_Team r = away)
  <-> (exists k, In k kenpom_df
                 /\ Torvik.Home_Team k = home /\ Torvik.Away_Team k = away).
Proof.
  unfold combine_predictions, merge_all. split.
  - intros (r & Hr & <- & <-).
    apply in_map_iff in Hr as (m & <- & Hm).
    apply in_map_iff in Hm as (x & <- & Hx).
    apply merge_left_fst in Hx. apply merge_left_fst in Hx.
    exists (fst (fst x)). auto.
  - intros (k & Hk & <- & <-).
    destruct (merge_left_keeps (@Torvik.Home_Team F) (@Torvik.Away_Team F)
                kenpom_df torvik_df k Hk) as (t & Ht).
    destruct (merge_left_keeps
                (fun kt : SourceRow F * option (SourceRow F) =>
                   Torvik.Home_Team (fst kt))
                (fun kt => Torvik.Away_Team (fst kt))
                _ haslam_df (k, t) Ht) as (h & Hh).
    exists (final_row (mkMergedRow k t h)). split; [|split; reflexivity].
    apply in_map. apply in_map_iff. exists (k, t, h). auto.
Qed.

Lemma combined_games_one_per_kenpom_row
    (kenpom_df torvik_df haslam_df : list (SourceRow F)) :
  unique_games torvik_df = true -> unique_games haslam_df = true ->
  map game_of (combine_predictions kenpom_df torvik_df haslam_df)
  = map source_game_of kenpom_df.
Proof.
  intros UT UH. unfold combine_predictions.
  rewrite (merge_all_unique kenpom_df torvik_df haslam_df UT UH).
  rewrite !map_map. reflexivity.
Qed.

(** *** The consensus is the rounded mean of the available sources *)

Lemma present_mean_is_mean_of (score_of : SourceRow F -> F)
    (k : SourceRow F) (t h : option (SourceRow F)) :
  mean_skipna [Some (score_of k); option_map score_of t; option_map score_of h]
  = mean_of (filter (fun x => negb (isnan x))
                      (map score_of ([k] ++ cells_of t ++ cells_of h))).
Proof.
  unfold mean_skipna, mean_of, sum.
  destruct t as [t|], h as [h|]; simpl;
    repeat match goal with
           | |- context [isnan ?x] => destruct (isnan x); simpl
           end;
    reflexivity.
Qed.

Lemma consensus_of_merged_row
    (kenpom_df torvik_df haslam_df : list (SourceRow F)) (r : FinalRow F) :
  In r (combine_predictions kenpom_df torvik_df haslam_df) ->
  exists k t h,
    In k kenpom_df
    /\ cell_for torvik_df (Torvik.Home_Team k) (Torvik.Away_Team k) t
    /\ cell_for haslam_df (Torvik.Home_Team k) (Torvik.Away_Team k) h
    /\ Home_Team r = Torvik.Home_Team k
    /\ Away_Team r = Torvik.Away_Team k
    /\ Home_Score r
       = option_map rint
           (mean_of (filter (fun x => negb (isnan x))
                         (map (@Torvik.Home_Score F)
                              ([k] ++ cells_of t ++ cells_of h))))
    /\ Away_Score r
       = option_map rint
           (mean_of (filter (fun x => negb (isnan x))
                         (map (@Torvik.Away_Score F)
                              ([k] ++ cells_of t ++ cells_of h)))).
Proof.
  unfold combine_predictions. intros Hr.
  apply in_map_iff in Hr as (m & <- & Hm).
  destruct (merged_rows_sound _ _ _ m Hm) as (Hk & Ht & Hh).
  exists (kenpom m), (torvik m), (haslam m).
  unfold final_row, home_scores, away_scores, round.
  cbn [Home_Team Away_Team Home_Score Away_Score].
  rewrite !present_mean_is_mean_of. repeat split; auto.
Qed.

(** *** Files that list each game at most once *)

Lemma named_same_game (home away : string) (r : SourceRow F) :
  named home away r = same_game home away r.
Proof.
  unfold named, same_game.
  destruct (string_dec (Torvik.Home_Team r) home) as [-> | Nh].
  - rewrite String.eqb_refl.
    destruct (string_dec (Torvik.Away_Team r) away) as [-> | Na].
    + now rewrite String.eqb_refl.
    + apply String.eqb_neq in Na. now rewrite Na.
  - apply String.eqb_neq in Nh. now rewrite Nh.
Qed.

Lemma filter_named (home away : string) (df : list (SourceRow F)) :
  filter (named home away) df = filter (same_game home away) df.
Proof. apply filter_ext. intros r. apply named_same_game. Qed.

Lemma NoDup_unique_games (df : list (SourceRow F)) :
  NoDup (map source_game_of df) -> unique_games df = true.
Proof.
  induction df as [|r df IH]; [reflexivity|].
  cbn [map unique_games]. intros ND.
  apply NoDup_cons_iff in ND as [Nr ND].
  rewrite (IH ND), andb_true_r. apply negb_true_iff.
  destruct (existsb _ df) eqn:E; [|reflexivity].
  apply existsb_exists in E as (x & Hx & Sx).
  apply same_game_iff in Sx as [Eh Ea]. destruct Nr.
  apply in_map_iff. exists x. split; [|exact Hx].
  unfold source_game_of. now rewrite Eh, Ea.
Qed.

Lemma scores_of_lookup (score_of : SourceRow F -> F) (df : list (SourceRow F))
    (home away : string) :
  unique_games df = true ->
  scores_for score_of df home away
  = map score_of (cells_of (lookup_game home away df)).
Proof.
  intros U. unfold scores_for.
  rewrite filter_named, (unique_games_filter df home away U).
  now destruct (lookup_game home away df).
Qed.

(** *** One side of one row *)

Lemma round_mean_is_side_consensus (score_of : SourceRow F -> F)
    (k : SourceRow F) (t h : option (SourceRow F)) :
  round (mean_skipna
           [Some (score_of k); option_map score_of t; option_map score_of h])
  = side_consensus
      (score_of k :: map score_of (cells_of t) ++ map score_of (cells_of h)).
Proof.
  unfold round, mean_skipna, side_consensus, sum.
  destruct t as [t|], h as [h|]; simpl;
    repeat match goal with
           | |- context [isnan ?x] => destruct (isnan x); simpl
           end;
    reflexivity.
Qed.

(** With Torvik and Haslametrics listing each game at most once, the
    combined output has one row per Kenpom row, in Kenpom's order, and each
    side of it is the consensus of the scores the three files have for the
    game on that side. *)
Lemma combine_per_side (kenpom_df torvik_df haslam_df : list (SourceRow F)) :
  NoDup (map source_game_of torvik_df) ->
  NoDup (map source_game_of haslam_df) ->
  combine_predictions kenpom_df torvik_df haslam_df
  = map (fun k =>
           let home := Torvik.Home_Team k in
           let away := Torvik.Away_Team k in
           mkFinalRow home away
             (side_consensus
                (Torvik.Home_Score k
                 :: scores_for (@Torvik.Home_Score F) torvik_df home away
                 ++ scores_for (@Torvik.Home_Score F) haslam_df home away))
             (side_consensus
                (Torvik.Away_Score k
                 :: scores_for (@Torvik.Away_Score F) torvik_df home away
                 ++ scores_for (@Torvik.Away_Score F) haslam_df home away)))
        kenpom_df.
Proof.
  intros NT NH.
  pose proof (NoDup_unique_games torvik_df NT) as UT.
  pose proof (NoDup_unique_games haslam_df NH) as UH.
  unfold combine_predictions.
  rewrite (merge_all_unique kenpom_df torvik_df haslam_df UT UH), map_map.
  apply map_ext. intros k. cbv zeta.
  unfold final_row, home_scores, away_scores.
  cbn [kenpom torvik haslam].
  rewrite !round_mean_is_side_consensus.
  now rewrite !(scores_of_lookup _ torvik_df _ _ UT),
              !(scores_of_lookup _ haslam_df _ _ UH).
Qed.

(** *** What the files decide *)

Lemma combine_files_returned
    (KENPOM_FILE TORVIK_FILE HASLAM_FILE : CsvFile (SourceRow F))
    (final_df : list (FinalRow F)) :
  combine_predictions_files KENPOM_FILE TORVIK_FILE HASLAM_FILE
  = Returned final_df <->
  exists kenpom_df torvik_df haslam_df,
    KENPOM_FILE = Frame kenpom_df /\ TORVIK_FILE = Frame torvik_df
    /\ HASLAM_FILE = Frame haslam_df
    /\ final_df = combine_predictions kenpom_df torvik_df haslam_df.
Proof.
  unfold combine_predictions_files, read_csv. split.
  - destruct KENPOM_FILE as [| |kenpom_df]; try discriminate.
    destruct TORVIK_FILE as [| |torvik_df]; try discriminate.
    destruct HASLAM_FILE as [| |haslam_df]; try discriminate.
    intros [= <-]. exists kenpom_df, torvik_df, haslam_df. auto.
  - intros (kenpom_df & torvik_df & haslam_df & -> & -> & -> & ->).
    reflexivity.
Qed.

End AggregatorFacts.

(** ** Main results on [predict_games] and [combine_predictions] *)

Lemma missing_ratings_are_skipped_witness :
  In (Torvik.mkSkipped "Duke" "Gonzaga" None)
     (snd (Torvik.predict_games (text_hca_ratings Q) sample_games))
  /\ In (Torvik.mkSkipped "Duke" "UNC"
           (Some "could not convert string to float: 'TBD'"%string))
        (snd (Torvik.predict_games (text_hca_ratings Q) sample_games))
  /\ (List.length (fst (Torvik.predict_games (text_hca_ratings Q) sample_games))
      + List.length (snd (Torvik.predict_games (text_hca_ratings Q)
                            sample_games))
      = 2)%nat
  /\ Torvik.predict_games (text_hca_ratings Q) sample_games
     = ([],
        [ Torvik.mkSkipped "Duke" "UNC"
            (Some "could not convert string to float: 'TBD'"%string);
          Torvik.mkSkipped "Duke" "Gonzaga" None ])
  /\ map prediction_names
         (fst (Torvik.predict_games (twin_ratings Q) sample_games))
     = [("Duke"%string, "UNC"%string)]
  /\ snd (Torvik.predict_games (twin_ratings Q) sample_games)
     = [Torvik.mkSkipped "Duke" "Gonzaga" None].
Proof.
  pose proof (missing_ratings_are_skipped (text_hca_ratings Q) sample_games
                (Torvik.mkGame "Duke" "Gonzaga" false "2026-02-04 09:00 PM")
                (or_intror (or_introl eq_refl)) (or_intror eq_refl))
    as (_ & Skipped & Others & Count).
  split; [exact Skipped|].
  split; [|split; [exact Count | repeat split; vm_compute; reflexivity]].
  apply (proj2 (Others
                  (Torvik.mkGame "Duke" "UNC" false "2026-02-04 07:00 PM")
                  (Torvik.mkTeamRow "Duke" (fromZ 110) (fromZ 100) (fromZ 70)
                     (Some (Torvik.Bad
                              "could not convert string to float: 'TBD'")))
                  (or_introl eq_refl) eq_refl
                  ltac:(discriminate))
               "could not convert string to float: 'TBD'"%string
               eq_refl eq_refl).
Defined.

Lemma available_complete {A : Type} (home_of away_of : A -> Q) (l : list A) :
  Spec.available (map (fun r => (Some (home_of r), Some (away_of r))) l)
  = map (fun r => (home_of r, away_of r)) l.
Proof.
  induction l as [|r l IH]; [reflexivity|].
  cbn [map Spec.available]. now rewrite IH.
Qed.

(** In exact arithmetic, with each file listing a game at most once, a row
    of the combined output carries the consensus of the specification. *)
Lemma combined_row_is_spec_consensus
    (kenpom_df torvik_df haslam_df : list (Combine.SourceRow Q))
    (r : Combine.FinalRow Q) :
  NoDup (map Combine.source_game_of kenpom_df) ->
  NoDup (map Combine.source_game_of torvik_df) ->
  NoDup (map Combine.source_game_of haslam_df) ->
  In r (Combine.combine_predictions kenpom_df torvik_df haslam_df) ->
  exists home_score away_score,
    Spec.consensus Spec.round_half_even
      (predictions_for Some [kenpom_df; torvik_df; haslam_df]
         (Combine.Home_Team r) (Combine.Away_Team r))
    = Some (home_score, away_score)
    /\ Combine.Home_Score r = Some (inject_Z home_score)
    /\ Combine.Away_Score r = Some (inject_Z away_score).
Proof.
  intros NK NT NH Hr.
  rewrite (combine_per_side kenpom_df torvik_df haslam_df NT NH) in Hr.
  apply in_map_iff in Hr as (k & <- & Hk). cbv zeta.
  cbn [Combine.Home_Team Combine.Away_Team Combine.Home_Score
       Combine.Away_Score].
  set (home := Torvik.Home_Team k). set (away := Torvik.Away_Team k).
  assert (Own : filter (named home away) kenpom_df = [k]).
  { rewrite filter_named.
    apply unique_games_own_row; [now apply NoDup_unique_games | exact Hk]. }
  assert (P : predictions_for Some [kenpom_df; torvik_df; haslam_df] home away
              = map (fun r => (Some (Torvik.Home_Score r),
                               Some (Torvik.Away_Score r)))
                    (k :: filter (named home away) torvik_df
                       ++ filter (named home away) haslam_df)).
  { unfold predictions_for. cbn [flat_map]. rewrite Own, app_nil_r.
    cbn [map app]. now rewrite map_app. }
  rewrite P. unfold Spec.consensus. rewrite available_complete.
  cbn [map]. rewrite !map_map. cbn [fst snd].
  unfold scores_for. rewrite !side_consensus_exact, <- !map_app.
  do 2 eexists. repeat split; reflexivity.
Qed.

(** C2, as the code has it: with Torvik and Haslametrics listing each game
    at most once, the combined output has one row per Kenpom row, and on
    each side, separately, the consensus of the scores that the three files
    have for the game on that side: the scores that are there are added in
    the order Kenpom, Torvik, Haslametrics, divided by their count and
    rounded to the nearest integer, halves to even, in the arithmetic the
    program runs in; a file without a row for the game, or with a row
    without a score on that side, adds nothing to the sum or the count
    (first part).  In exact arithmetic, and each file listing a game at most
    once, this is the consensus of the specification: the half-even rounding
    of the arithmetic mean over the sources with a prediction (second part).
    Kenpom (75, 70), Torvik (73, 68), Haslametrics (74, 69) give (74, 69), in
    exact arithmetic and in binary64; Kenpom (75, 70) and Torvik (73, 68),
    with Haslametrics listing another game only, give (74, 69) as well; and
    in binary64 the home scores 65.1, 65.6, 65.8 give 66. *)
Theorem consensus_is_rounded_per_side_mean :
  (forall (F : Type) (NF : Number F)
          (kenpom_df torvik_df haslam_df : list (Combine.SourceRow F)),
      NoDup (map Combine.source_game_of torvik_df) ->
      NoDup (map Combine.source_game_of haslam_df) ->
      Combine.combine_predictions kenpom_df torvik_df haslam_df
      = map (fun k =>
               let home := Torvik.Home_Team k in
               let away := Torvik.Away_Team k in
               Combine.mkFinalRow home away
                 (side_consensus
                    (Torvik.Home_Score k
                     :: scores_for (@Torvik.Home_Score F) torvik_df home away
                     ++ scores_for (@Torvik.Home_Score F) haslam_df home away))
                 (side_consensus
                    (Torvik.Away_Score k
                     :: scores_for (@Torvik.Away_Score F) torvik_df home away
                     ++ scores_for (@Torvik.Away_Score F) haslam_df home
                          away)))
            kenpom_df)
  /\
  (forall (kenpom_df torvik_df haslam_df : list (Combine.SourceRow Q))
          (r : Combine.FinalRow Q),
      NoDup (map Combine.source_game_of kenpom_df) ->
      NoDup (map Combine.source_game_of torvik_df) ->
      NoDup (map Combine.source_game_of haslam_df) ->
      In r (Combine.combine_predictions kenpom_df torvik_df haslam_df) ->
      exists home_score away_score,
        Spec.consensus Spec.round_half_even
          (predictions_for Some [kenpom_df; torvik_df; haslam_df]
             (Combine.Home_Team r) (Combine.Away_Team r))
        = Some (home_score, away_score)
        /\ Combine.Home_Score r = Some (inject_Z home_score)
        /\ Combine.Away_Score r = Some (inject_Z away_score))
  /\ Combine.combine_predictions
       (kenpom_sample Q) (torvik_sample Q) (haslam_sample Q)
     = [Combine.mkFinalRow "Duke" "UNC" (Some (fromZ 74)) (Some (fromZ 69))]
  /\ Combine.combine_predictions
       (kenpom_sample float) (torvik_sample float) (haslam_sample float)
     = [Combine.mkFinalRow "Duke" "UNC" (Some (fromZ 74)) (Some (fromZ 69))]
  /\ Combine.combine_predictions
       (kenpom_sample float) (torvik_sample float) (other_game float)
     = [Combine.mkFinalRow "Duke" "UNC" (Some (fromZ 74)) (Some (fromZ 69))]
  /\ Combine.combine_predictions
       (close_kenpom float) (close_torvik float) (close_haslam float)
     = [Combine.mkFinalRow "Duke" "UNC" (Some (fromZ 66)) (Some (fromZ 69))].
Proof.
  split; [|split; [|repeat split; vm_compute; reflexivity]].
  - intros F NF. apply combine_per_side.
  - intros kenpom_df torvik_df haslam_df r.
    apply combined_row_is_spec_consensus.
Qed.

Lemma one_game_NoDup {F : Type} (r : Combine.SourceRow F) :
  NoDup (map Combine.source_game_of [r]).
Proof. constructor; [intros [] | constructor]. Defined.

Lemma consensus_is_rounded_per_side_mean_witness :
  Combine.combine_predictions
    (close_kenpom float) (close_torvik float) (close_haslam float)
  = [Combine.mkFinalRow "Duke" "UNC" (Some 66%float) (Some 69%float)]
  /\ exists home_score away_score,
       Spec.consensus Spec.round_half_even
         (predictions_for Some
            [close_kenpom Q; close_torvik Q; close_haslam Q] "Duke" "UNC")
       = Some (home_score, away_score)
       /\ Some (inject_Z 66) = Some (inject_Z home_score)
       /\ Some (inject_Z 69) = Some (inject_Z away_score).
Proof.
  split.
  - rewrite (proj1 consensus_is_rounded_per_side_mean float Number_float
               (close_kenpom float) (close_torvik float) (close_haslam float)
               (one_game_NoDup _) (one_game_NoDup _)).
    vm_compute. reflexivity.
  - exact (proj1 (proj2 consensus_is_rounded_per_side_mean)
             (close_kenpom Q) (close_torvik Q) (close_haslam Q)
             (Combine.mkFinalRow "Duke" "UNC" (Some (inject_Z 66))
                                 (Some (inject_Z 69)))
             (one_game_NoDup _) (one_game_NoDup _) (one_game_NoDup _)
             (or_introl eq_refl)).
Defined.

(** C2 as stated fails.  In binary64 the home scores 65.1, 65.6 and 65.8
    give 66 when they are Kenpom's, Torvik's and Haslametrics' in this order
    and 65 when Torvik and Haslametrics are exchanged, while the arithmetic
    mean of the three scores and its rounding do not depend on the order: it
    rounds to 65 for the three binary64 values and to 66 for the three
    decimal numbers, under either rounding rule.  And with Kenpom (70, 65)
    and Torvik (72, missing), where Torvik has no prediction, the consensus
    is (71, 65), not (70, 65): Torvik's home score is averaged in. *)
Lemma consensus_is_not_the_rounded_arithmetic_mean :
  (Combine.combine_predictions
     (close_kenpom float) (close_torvik float) (close_haslam float)
   = [Combine.mkFinalRow "Duke" "UNC" (Some 66%float) (Some 69%float)]
   /\ Combine.combine_predictions
        (close_kenpom float) (close_haslam float) (close_torvik float)
      = [Combine.mkFinalRow "Duke" "UNC" (Some 65%float) (Some 69%float)]
   /\ (forall round,
          In round [Spec.round_half_even; Spec.round_half_up] ->
          Spec.consensus round
            (predictions_for exact_value
               [close_kenpom float; close_torvik float; close_haslam float]
               "Duke" "UNC")
          = Some (65, 69)%Z
          /\ Spec.consensus round
               (predictions_for exact_value
                  [close_kenpom float; close_haslam float; close_torvik float]
                  "Duke" "UNC")
             = Some (65, 69)%Z
          /\ Spec.consensus round
               (predictions_for Some
                  [close_kenpom Q; close_torvik Q; close_haslam Q]
                  "Duke" "UNC")
             = Some (66, 69)%Z
          /\ Spec.consensus round
               (predictions_for Some
                  [close_kenpom Q; close_haslam Q; close_torvik Q]
                  "Duke" "UNC")
             = Some (66, 69)%Z))
  /\ Combine.combine_predictions source_a source_b (other_game float)
     = [Combine.mkFinalRow "Duke" "UNC" (Some 71%float) (Some 65%float)]
  /\ (forall round,
         In round [Spec.round_half_even; Spec.round_half_up] ->
         Spec.consensus round
           (predictions_for exact_value
              [source_a; source_b; other_game float] "Duke" "UNC")
         = Some (70, 65)%Z).
Proof.
  split; [split; [|split]|split].
  - vm_compute. reflexivity.
  - vm_compute. reflexivity.
  - intros round [<- | [<- | []]]; repeat split; vm_compute; reflexivity.
  - vm_compute. reflexivity.
  - intros round [<- | [<- | []]]; vm_compute; reflexivity.
Qed.

(** C3, as the code has it: the aggregator returns a table only when the
    three files load; the table then starts from the Kenpom frame and
    left-merges the other two, so that a game is in it exactly when Kenpom
    has a row for it, whatever rows Torvik and Haslametrics have, with one
    row per Kenpom row, in the same order, when Torvik and Haslametrics list
    each game at most once.  When the first file that does not load is
    missing the aggregator returns [None], and when it has no columns the
    [EmptyDataError] leaves the function. *)
Theorem combined_output_follows_kenpom (F : Type) (NF : Number F)
    (KENPOM_FILE TORVIK_FILE HASLAM_FILE : CsvFile (Combine.SourceRow F)) :
  (forall final_df,
      Combine.combine_predictions_files KENPOM_FILE TORVIK_FILE HASLAM_FILE
      = Combine.Returned final_df ->
      exists kenpom_df torvik_df haslam_df,
        KENPOM_FILE = Frame kenpom_df /\ TORVIK_FILE = Frame torvik_df
        /\ HASLAM_FILE = Frame haslam_df
        /\ (forall home away,
               (exists r, In r final_df
                          /\ Combine.Home_Team r = home
                          /\ Combine.Away_Team r = away)
               <-> (exists k, In k kenpom_df
                              /\ Torvik.Home_Team k = home
                              /\ Torvik.Away_Team k = away))
        /\ (NoDup (map Combine.source_game_of torvik_df) ->
            NoDup (map Combine.source_game_of haslam_df) ->
            map Combine.game_of final_df
            = map Combine.source_game_of kenpom_df))
  /\ (forall kenpom_df torvik_df haslam_df,
         KENPOM_FILE = Frame kenpom_df -> TORVIK_FILE = Frame torvik_df ->
         HASLAM_FILE = Frame haslam_df ->
         exists final_df,
           Combine.combine_predictions_files KENPOM_FILE TORVIK_FILE
             HASLAM_FILE
           = Combine.Returned final_df)
  /\ (Combine.combine_predictions_files KENPOM_FILE TORVIK_FILE HASLAM_FILE
      = Combine.ReturnedNone
      <-> KENPOM_FILE = NoFile
          \/ (exists kenpom_df, KENPOM_FILE = Frame kenpom_df)
             /\ (TORVIK_FILE = NoFile
                 \/ (exists torvik_df, TORVIK_FILE = Frame torvik_df)
                    /\ HASLAM_FILE = NoFile))
  /\ (Combine.combine_predictions_files KENPOM_FILE TORVIK_FILE HASLAM_FILE
      = Combine.Raised Combine.EmptyDataError
      <-> KENPOM_FILE = NoColumns
          \/ (exists kenpom_df, KENPOM_FILE = Frame kenpom_df)
             /\ (TORVIK_FILE = NoColumns
                 \/ (exists torvik_df, TORVIK_FILE = Frame torvik_df)
                    /\ HASLAM_FILE = NoColumns)).
Proof.
  split; [|split; [|split]].
  - intros final_df R.
    apply combine_files_returned in R
      as (kenpom_df & torvik_df & haslam_df & -> & -> & -> & ->).
    exists kenpom_df, torvik_df, haslam_df. repeat split; auto.
    + apply combined_games_are_kenpom_games.
    + apply combined_games_are_kenpom_games.
    + intros NT NH. apply combined_games_one_per_kenpom_row;
        now apply NoDup_unique_games.
  - intros kenpom_df torvik_df haslam_df -> -> ->. eexists. reflexivity.
  - unfold Combine.combine_predictions_files, Combine.read_csv.
    destruct KENPOM_FILE as [| |kenpom_df];
      [ | | destruct TORVIK_FILE as [| |torvik_df];
              [ | | destruct HASLAM_FILE as [| |haslam_df]]];
      (split;
       [ intros R; try discriminate R;
         first [ left; reflexivity
               | right; split; [eexists; reflexivity|];
                 first [ left; reflexivity
                       | right; split; [eexists; reflexivity | reflexivity] ] ]
       | intros D;
         repeat match goal with
                | H : _ \/ _ |- _ => destruct H
                | H : _ /\ _ |- _ => destruct H
                | H : exists _, _ |- _ => destruct H
                end;
         try reflexivity; discriminate ]).
  - unfold Combine.combine_predictions_files, Combine.read_csv.
    destruct KENPOM_FILE as [| |kenpom_df];
      [ | | destruct TORVIK_FILE as [| |torvik_df];
              [ | | destruct HASLAM_FILE as [| |haslam_df]]];
      (split;
       [ intros R; try discriminate R;
         first [ left; reflexivity
               | right; split; [eexists; reflexivity|];
                 first [ left; reflexivity
                       | right; split; [eexists; reflexivity | reflexivity] ] ]
       | intros D;
         repeat match goal with
                | H : _ \/ _ |- _ => destruct H
                | H : _ /\ _ |- _ => destruct H
                | H : exists _, _ |- _ => destruct H
                end;
         try reflexivity; discriminate ]).
Qed.

Lemma combined_output_follows_kenpom_witness :
  map Combine.game_of
      [Combine.mkFinalRow "Duke" "UNC" (Some (inject_Z 74))
         (Some (inject_Z 69));
       Combine.mkFinalRow "Kansas" "Baylor" (Some (inject_Z 71))
         (Some (inject_Z 66))]
  = map Combine.source_game_of (kenpom_sample Q ++ other_game Q).
Proof.
  assert (R : Combine.combine_predictions_files
                (Frame (kenpom_sample Q ++ other_game Q))
                (Frame (torvik_sample Q)) (Frame (haslam_sample Q))
              = Combine.Returned
                  [Combine.mkFinalRow "Duke" "UNC" (Some (inject_Z 74))
                     (Some (inject_Z 69));
                   Combine.mkFinalRow "Kansas" "Baylor" (Some (inject_Z 71))
                     (Some (inject_Z 66))])
    by (vm_compute; reflexivity).
  destruct (proj1 (combined_output_follows_kenpom Q Number_Q
                     (Frame (kenpom_sample Q ++ other_game Q))
                     (Frame (torvik_sample Q))
                     (Frame (haslam_sample Q))) _ R)
    as (kenpom_df & torvik_df & haslam_df & Ek & Et & Eh & _ & One).
  injection Ek as <-. injection Et as <-. injection Eh as <-.
  apply One; apply one_game_NoDup.
Defined.

(** C3 as stated fails: the three files load, Torvik and Haslametrics both
    predict Duke against UNC, Kenpom has a row for Kansas against Baylor
    only, and the combined output holds the Kansas game alone. *)
Lemma torvik_only_game_is_dropped :
  In (Torvik.mkPrediction "Duke" "UNC" (fromZ 73) (fromZ 68)) (torvik_sample Q)
  /\ In (Torvik.mkPrediction "Duke" "UNC" (fromZ 74) (fromZ 69)) (haslam_sample Q)
  /\ Combine.combine_predictions_files
       (Frame (other_game Q)) (Frame (torvik_sample Q))
       (Frame (haslam_sample Q))
     = Combine.Returned
         [Combine.mkFinalRow "Kansas" "Baylor" (Some (fromZ 71))
            (Some (fromZ 66))].
Proof.
  split; [now left|]. split; [now left|]. vm_compute. reflexivity.
Qed.






(** ** The game card *)

(** C5, as the code has it: the home score is drawn as the winner exactly
    when [home_score > away_score], and the away score is drawn as the winner
    in every other case, equal scores included; the card has no tie state. *)
Theorem card_marks_one_winner :
  (forall (F : Type) (NF : Number F) (home_team away_team : string)
          (home_score away_score : F) (venue : string) (neutral_site : bool),
      let card := GameCard.create_game_card home_team away_team
                    home_score away_score venue neutral_site in
      GameCard.home_marked_winner card = gtb home_score away_score
      /\ GameCard.away_marked_winner card = negb (gtb home_score away_score))
  /\ (forall (home_team away_team : string) (home_score away_score : Q)
             (venue : string) (neutral_site : bool),
         let card := GameCard.create_game_card home_team away_team
                       home_score away_score venue neutral_site in
         (GameCard.home_marked_winner card = true <-> away_score < home_score)
         /\ (GameCard.away_marked_winner card = true
             <-> home_score <= away_score)).
Proof.
  assert (G : forall (F : Type) (NF : Number F) (home_team away_team : string)
          (home_score away_score : F) (venue : string) (neutral_site : bool),
      GameCard.home_marked_winner
        (GameCard.create_game_card home_team away_team
           home_score away_score venue neutral_site)
      = gtb home_score away_score
      /\ GameCard.away_marked_winner
           (GameCard.create_game_card home_team away_team
              home_score away_score venue neutral_site)
         = negb (gtb home_score away_score)).
  { intros F NF home_team away_team home_score away_score venue neutral_site.
    unfold GameCard.create_game_card, GameCard.home_marked_winner,
      GameCard.away_marked_winner. cbn [GameCard.home_color GameCard.away_color].
    destruct (gtb home_score away_score); split; reflexivity. }
  split; [exact G|].
  intros home_team away_team home_score away_score venue neutral_site card.
  subst card.
  destruct (G Q Number_Q home_team away_team home_score away_score venue
              neutral_site) as [-> ->].
  cbn [gtb Number_Q]. rewrite negb_involutive, negb_true_iff.
  rewrite <- (Qle_bool_iff home_score away_score).
  split.
  - split.
    + intros E. apply Qnot_le_lt. intros L.
      apply Qle_bool_iff in L. congruence.
    + intros L. destruct (Qle_bool home_score away_score) eqn:E; auto.
      apply Qle_bool_iff in E. now apply Qlt_not_le in L.
  - reflexivity.
Qed.

(** C5 as stated fails: with both consensus scores at 70 the away score is
    drawn in the winner's red, in exact arithmetic and in binary64. *)
Lemma tie_is_drawn_as_away_win :
  GameCard.away_marked_winner
    (GameCard.create_game_card (F:=Q) "Duke" "UNC" (fromZ 70) (fromZ 70)
                               "Cameron Indoor Stadium" false) = true
  /\ GameCard.home_marked_winner
       (GameCard.create_game_card (F:=Q) "Duke" "UNC" (fromZ 70) (fromZ 70)
                                  "Cameron Indoor Stadium" false) = false
  /\ GameCard.away_marked_winner
       (GameCard.create_game_card (F:=float) "Duke" "UNC" (fromZ 70) (fromZ 70)
                                  "Cameron Indoor Stadium" false) = true.
Proof. repeat split; vm_compute; reflexivity. Qed.

(** ** Team names *)

Section NameFacts.
Variable get_canonical_name : string -> option string.

Lemma mem_In (x : string) (l : list string) : Py.mem x l = true <-> In x l.
Proof.
  unfold Py.mem. rewrite existsb_exists. split.
  - intros (y & Hy & E). apply String.eqb_eq in E. now subst.
  - intros Hx. exists x. split; auto. apply String.eqb_refl.
Qed.

Lemma note_unmapped_In (x name : string) (l : list string) :
  In x (Py.note_unmapped name l) <-> In x l \/ x = name.
Proof.
  unfold Py.note_unmapped. destruct (Py.mem name l) eqn:M.
  - apply mem_In in M. split; [auto | intros [Hx | ->]; auto].
  - rewrite in_app_iff. simpl. intuition auto.
Qed.

Lemma resolve_key (name : string) (l : list string) :
  fst (Py.resolve get_canonical_name name l) = Py.key_of get_canonical_name name.
Proof.
  unfold Py.key_of, Py.resolve.
  destruct (Py.truthy (get_canonical_name name)); reflexivity.
Qed.

Lemma key_of_unmapped (name : string) :
  Py.unmapped get_canonical_name name = true ->
  Py.key_of get_canonical_name name = name.
Proof.
  unfold Py.unmapped, Py.key_of, Py.resolve. intros U.
  apply negb_true_iff in U. now rewrite U.
Qed.

Lemma absent_is_unmapped (name : string) :
  get_canonical_name name = None -> Py.unmapped get_canonical_name name = true.
Proof. unfold Py.unmapped. now intros ->. Qed.

Lemma resolve_In (x name : string) (l : list string) :
  In x (snd (Py.resolve get_canonical_name name l)) <->
  In x l \/ (x = name /\ Py.unmapped get_canonical_name name = true).
Proof.
  unfold Py.resolve, Py.unmapped.
  destruct (Py.truthy (get_canonical_name name)); simpl.
  - intuition discriminate.
  - rewrite note_unmapped_In. intuition auto.
Qed.

(** *** [sorted(set(..))] lists each name once *)

Lemma insert_perm (x : string) (l : list string) :
  Permutation (Py.insert x l) (x :: l).
Proof.
  induction l as [|y l IH]; simpl; auto.
  destruct (String.leb x y); auto.
  rewrite IH. apply perm_swap.
Qed.

Lemma sorted_perm (l : list string) : Permutation (Py.sorted l) l.
Proof.
  induction l as [|x l IH]; simpl; auto.
  rewrite insert_perm. now constructor.
Qed.

Lemma report_lists_once (x : string) (l : list string) :
  count_occ string_dec (Py.unmapped_report l) x = 1%nat <-> In x l.
Proof.
  unfold Py.unmapped_report, Py.set.
  rewrite (proj1 (Permutation_count_occ string_dec _ _)
                 (sorted_perm (nodup string_dec l)) x).
  rewrite <- (nodup_In string_dec l x).
  pose proof (NoDup_nodup string_dec l) as N.
  rewrite (NoDup_count_occ string_dec) in N. specialize (N x).
  rewrite (count_occ_In string_dec). lia.
Qed.

End NameFacts.

Section FetchDailyGamesFacts.
Variable get_canonical_name : string -> option string.
Variable Other : Type.
Import FetchDailyGames.

#[local] Abbreviation key_of := (Py.key_of get_canonical_name).
#[local] Abbreviation is_unmapped := (Py.unmapped get_canonical_name).

Lemma espn_row_resolves (l : list string) (row : Row Other) :
  normalize_row get_canonical_name l row
  = (mkRow (key_of (home_team row)) (key_of (away_team row)) (other row),
     snd (Py.resolve get_canonical_name (away_team row)
            (snd (Py.resolve get_canonical_name (home_team row) l)))).
Proof.
  unfold normalize_row, Py.key_of, Py.resolve.
  destruct (Py.truthy (get_canonical_name (home_team row)));
    destruct (Py.truthy (get_canonical_name (away_team row))); reflexivity.
Qed.

Lemma espn_loop_rows (df : list (Row Other)) :
  forall l,
    fst (normalize_loop get_canonical_name l df)
    = map (fun row => mkRow (key_of (home_team row)) (key_of (away_team row))
                            (other row)) df.
Proof.
  induction df as [|row df IH]; intros l; cbn [normalize_loop map].
  - reflexivity.
  - rewrite espn_row_resolves.
    specialize (IH (snd (Py.resolve get_canonical_name (away_team row)
              (snd (Py.resolve get_canonical_name (home_team row) l))))).
    destruct (normalize_loop _ _ df) as [rest' l']. simpl in *.
    now rewrite IH.
Qed.

Lemma espn_loop_unmapped (x : string) (df : list (Row Other)) :
  forall l,
    In x (snd (normalize_loop get_canonical_name l df)) <->
    In x l \/
    exists row, In row df /\ is_unmapped x = true
                /\ (home_team row = x \/ away_team row = x).
Proof.
  induction df as [|row df IH]; intros l; cbn [normalize_loop].
  - simpl. split; [auto | intros [Hx | (row & [] & _)]; auto].
  - rewrite espn_row_resolves.
    specialize (IH (snd (Py.resolve get_canonical_name (away_team row)
              (snd (Py.resolve get_canonical_name (home_team row) l))))).
    destruct (normalize_loop _ _ df) as [rest' l']. simpl snd in *.
    rewrite IH, !resolve_In. split.
    + intros [[[Hx | [-> U]] | [-> U]] | (r & Hr & U & Hn)]; auto.
      * right. exists row. split; [now left | auto].
      * right. exists row. split; [now left | auto].
      * right. exists r. split; [now right | auto].
    + intros [Hx | (r & [<- | Hr] & U & Hn)]; auto.
      * destruct Hn as [<- | <-]; auto.
      * right. exists r. auto.
Qed.

End FetchDailyGamesFacts.

Section HaslametricScrapeFacts.
Variable get_canonical_name : string -> option string.
Variable Other : Type.
Import HaslametricScrape.

#[local] Abbreviation key_of := (Py.key_of get_canonical_name).
#[local] Abbreviation is_unmapped := (Py.unmapped get_canonical_name).

Lemma haslam_row_resolves (l : list string) (row : Row Other) :
  normalize_row get_canonical_name l row
  = (mkRow (key_of (Py.clean (home_team row)))
           (key_of (Py.clean (away_team row))) (other row),
     snd (Py.resolve get_canonical_name (Py.clean (home_team row))
            (snd (Py.resolve get_canonical_name
                    (Py.clean (away_team row)) l)))).
Proof.
  unfold normalize_row, Py.key_of, Py.resolve.
  destruct (Py.truthy (get_canonical_name (Py.clean (home_team row))));
    destruct (Py.truthy (get_canonical_name (Py.clean (away_team row))));
    reflexivity.
Qed.

Lemma haslam_loop_rows (df : list (Row Other)) :
  forall l,
    fst (normalize_loop get_canonical_name l df)
    = map (fun row => mkRow (key_of (Py.clean (home_team row)))
                            (key_of (Py.clean (away_team row)))
                            (other row)) df.
Proof.
  induction df as [|row df IH]; intros l; cbn [normalize_loop map].
  - reflexivity.
  - rewrite haslam_row_resolves.
    specialize (IH (snd (Py.resolve get_canonical_name
                           (Py.clean (home_team row))
              (snd (Py.resolve get_canonical_name
                      (Py.clean (away_team row)) l))))).
    destruct (normalize_loop _ _ df) as [rest' l']. simpl in *.
    now rewrite IH.
Qed.

(** The loop reads the table at the cleaned names only. *)
Lemma haslam_loop_reads_clean_names
    (other_table : string -> option string) (df : list (Row Other)) :
  (forall row, In row df ->
     other_table (Py.clean (home_team row))
     = get_canonical_name (Py.clean (home_team row))
     /\ other_table (Py.clean (away_team row))
        = get_canonical_name (Py.clean (away_team row))) ->
  forall l,
    normalize_loop other_table l df = normalize_loop get_canonical_name l df.
Proof.
  induction df as [|row df IH]; intros Same l; [reflexivity|].
  cbn [normalize_loop].
  destruct (Same row (or_introl eq_refl)) as [Eh Ea].
  assert (R : normalize_row other_table l row
              = normalize_row get_canonical_name l row)
    by (unfold normalize_row; now rewrite Eh, Ea).
  rewrite R. destruct (normalize_row get_canonical_name l row) as [row' l'].
  rewrite IH by (intros x Hx; apply Same; now right). reflexivity.
Qed.

Lemma haslam_loop_unmapped (x : string) (df : list (Row Other)) :
  forall l,
    In x (snd (normalize_loop get_canonical_name l df)) <->
    In x l \/
    exists row, In row df /\ is_unmapped x = true
                /\ (Py.clean (home_team row) = x
                    \/ Py.clean (away_team row) = x).
Proof.
  induction df as [|row df IH]; intros l; cbn [normalize_loop].
  - simpl. split; [auto | intros [Hx | (row & [] & _)]; auto].
  - rewrite haslam_row_resolves.
    specialize (IH (snd (Py.resolve get_canonical_name
                           (Py.clean (home_team row))
              (snd (Py.resolve get_canonical_name
                      (Py.clean (away_team row)) l))))).
    destruct (normalize_loop _ _ df) as [rest' l']. simpl snd in *.
    rewrite IH, !resolve_In. split.
    + intros [[[Hx | [-> U]] | [-> U]] | (r & Hr & U & Hn)]; auto.
      * right. exists row. split; [now left | auto].
      * right. exists row. split; [now left | auto].
      * right. exists r. split; [now right | auto].
    + intros [Hx | (r & [<- | Hr] & U & Hn)]; auto.
      * destruct Hn as [<- | <-]; auto.
      * right. exists r. auto.
Qed.

End HaslametricScrapeFacts.

(** *** Stripping the rank token *)

Lemma space_not_digit (c : ascii) :
  Py.is_space c = true -> Py.is_digit c = false.
Proof.
  unfold Py.is_space, Py.is_digit. cbv zeta.
  rewrite !orb_true_iff, !andb_true_iff, andb_false_iff.
  rewrite !Nat.leb_le, !Nat.eqb_eq, !Nat.leb_gt. lia.
Qed.

Lemma digit_not_newline (c : ascii) :
  Py.is_digit c = true -> Ascii.eqb c Py.newline = false.
Proof.
  intros D.
  destruct (Ascii.eqb_spec c Py.newline) as [E | _]; [|reflexivity].
  subst c. discriminate D.
Qed.

Lemma drop_while_all (p : ascii -> bool) (l rest : list ascii) :
  forallb p l = true -> Py.drop_while p (l ++ rest) = Py.drop_while p rest.
Proof.
  induction l as [|c l IH]; simpl; auto.
  intros A. apply andb_true_iff in A as [-> A]. auto.
Qed.

Lemma drop_while_idem (p : ascii -> bool) (l : list ascii) :
  Py.drop_while p (Py.drop_while p l) = Py.drop_while p l.
Proof.
  induction l as [|c l IH]; simpl; auto.
  destruct (p c) eqn:P; auto. simpl. now rewrite P.
Qed.

Lemma forallb_rev (p : ascii -> bool) (l : list ascii) :
  forallb p l = true -> forallb p (rev l) = true.
Proof.
  rewrite !forallb_forall. intros A x Hx. apply A. now apply in_rev.
Qed.

Lemma rev_not_nil (l : list ascii) : l <> [] -> rev l <> [].
Proof.
  intros N E. apply N. rewrite <- (rev_involutive l), E. reflexivity.
Qed.

(** On a name that ends in whitespace and digits the substitution removes
    both, and the whitespace before them. *)
Lemma re_sub_rank_token (base w d : list ascii) :
  w <> [] -> forallb Py.is_space w = true ->
  d <> [] -> forallb Py.is_digit d = true ->
  Py.re_sub_rank (base ++ w ++ d)
  = rev (Py.drop_while Py.is_space (rev base)).
Proof.
  intros Nw Sw Nd Dd.
  assert (R : rev (base ++ w ++ d) = rev d ++ rev w ++ rev base)
    by now rewrite !rev_app_distr, app_assoc.
  apply forallb_rev in Sw, Dd. apply rev_not_nil in Nw, Nd.
  destruct (rev d) as [|c rd] eqn:Ed; [now destruct Nd|].
  destruct (rev w) as [|s rw] eqn:Ew; [now destruct Nw|].
  simpl in Dd, Sw.
  apply andb_true_iff in Dd as [Dc Dd]. apply andb_true_iff in Sw as [Ss Sw].
  unfold Py.re_sub_rank. rewrite R. cbn [app].
  rewrite (digit_not_newline c Dc).
  unfold Py.drop_rank. rewrite R. cbn [app]. rewrite Dc.
  f_equal.
  change (c :: rd ++ s :: rw ++ rev base)
    with ((c :: rd) ++ (s :: rw) ++ rev base).
  rewrite drop_while_all by (simpl; now rewrite Dc).
  cbn [app Py.drop_while]. rewrite (space_not_digit s Ss).
  cbn [Py.drop_while]. rewrite Ss.
  now apply drop_while_all.
Qed.

Lemma clean_rank_token (base w d : list ascii) :
  w <> [] -> forallb Py.is_space w = true ->
  d <> [] -> forallb Py.is_digit d = true ->
  Py.clean (string_of_list_ascii (base ++ w ++ d))
  = string_of_list_ascii (Py.strip base).
Proof.
  intros Nw Sw Nd Dd. unfold Py.clean.
  rewrite list_ascii_of_string_of_list_ascii.
  rewrite (re_sub_rank_token base w d Nw Sw Nd Dd).
  unfold Py.strip. now rewrite rev_involutive, drop_while_idem.
Qed.

Example clean_samples :
  map Py.clean
      [ "Duke 12"; "  Duke  7 "; "Duke"; "Duke12"; "12"; "Texas A&M 1 2";
        "St. John's"; "" ]%string
  = [ "Duke"; "Duke  7"; "Duke"; "Duke"; ""; "Texas A&M 1";
      "St. John's"; "" ]%string.
Proof. vm_compute. reflexivity. Qed.

(** *** Main results on [normalize_team_names] *)

(** C8, as the code has it: a name the mapping table does not have is its
    own key -- in [fetch_daily_games] the raw name, in [haslametric_scrape]
    the name after the rank token and the surrounding whitespace are
    removed; no row is dropped; and a name is printed exactly once in the
    unmapped report exactly when it is unmapped and some row refers to it,
    however many rows do. *)
Theorem unmapped_names_keep_their_key
    (get_canonical_name : string -> option string) (Other : Type) :
  (forall name, get_canonical_name name = None ->
      Py.unmapped get_canonical_name name = true
      /\ Py.key_of get_canonical_name name = name)
  /\ (forall df : list (FetchDailyGames.Row Other),
        fst (FetchDailyGames.normalize_team_names get_canonical_name df)
        = map (fun row =>
                 FetchDailyGames.mkRow
                   (Py.key_of get_canonical_name (FetchDailyGames.home_team row))
                   (Py.key_of get_canonical_name (FetchDailyGames.away_team row))
                   (FetchDailyGames.other row)) df
        /\ forall name,
            count_occ string_dec
              (snd (FetchDailyGames.normalize_team_names get_canonical_name df))
              name = 1%nat
            <-> exists row,
                In row df /\ Py.unmapped get_canonical_name name = true
                /\ (FetchDailyGames.home_team row = name
                    \/ FetchDailyGames.away_team row = name))
  /\ (forall df : list (HaslametricScrape.Row Other),
        fst (HaslametricScrape.normalize_team_names get_canonical_name df)
        = map (fun row =>
                 HaslametricScrape.mkRow
                   (Py.key_of get_canonical_name
                      (Py.clean (HaslametricScrape.home_team row)))
                   (Py.key_of get_canonical_name
                      (Py.clean (HaslametricScrape.away_team row)))
                   (HaslametricScrape.other row)) df
        /\ forall name,
            count_occ string_dec
              (snd (HaslametricScrape.normalize_team_names get_canonical_name df))
              name = 1%nat
            <-> exists row,
                In row df /\ Py.unmapped get_canonical_name name = true
                /\ (Py.clean (HaslametricScrape.home_team row) = name
                    \/ Py.clean (HaslametricScrape.away_team row) = name)).
Proof.
  split; [|split].
  - intros name A. pose proof (absent_is_unmapped _ _ A) as U.
    split; [exact U | now apply key_of_unmapped].
  - intros df.
    pose proof (espn_loop_rows get_canonical_name Other df []) as Rows.
    pose proof (fun x => espn_loop_unmapped get_canonical_name Other x df [])
      as Names.
    unfold FetchDailyGames.normalize_team_names.
    destruct (FetchDailyGames.normalize_loop _ [] df) as [df' l].
    cbn [fst snd] in *. split; [exact Rows|].
    intros name. rewrite report_lists_once, Names. simpl. tauto.
  - intros df.
    pose proof (haslam_loop_rows get_canonical_name Other df []) as Rows.
    pose proof (fun x => haslam_loop_unmapped get_canonical_name Other x df [])
      as Names.
    unfold HaslametricScrape.normalize_team_names.
    destruct (HaslametricScrape.normalize_loop _ [] df) as [df' l].
    cbn [fst snd] in *. split; [exact Rows|].
    intros name. rewrite report_lists_once, Names. simpl. tauto.
Qed.

Lemma unmapped_names_keep_their_key_witness :
  (Py.unmapped one_entry_mapping "Chaminade" = true
   /\ Py.key_of one_entry_mapping "Chaminade" = "Chaminade"%string)
  /\ count_occ string_dec
       (snd (FetchDailyGames.normalize_team_names one_entry_mapping espn_slate))
       "Chaminade"%string = 1%nat.
Proof.
  split.
  - exact (proj1 (unmapped_names_keep_their_key one_entry_mapping unit)
                 "Chaminade"%string eq_refl).
  - apply (proj2 (proj1 (proj2 (unmapped_names_keep_their_key
                                  one_entry_mapping unit)) espn_slate)
                 "Chaminade"%string).
    exists (FetchDailyGames.mkRow "Duke" "Chaminade" tt).
    split; [left; reflexivity | split; [reflexivity | right; reflexivity]].
Defined.

(** C8 as stated fails in [haslametric_scrape]: "UNC 3" is not in the
    mapping table, yet the key written back is "UNC", and it is "UNC" that
    the report lists; "UNC 3" is not in the report. *)
Lemma ranked_raw_name_is_not_the_key :
  one_entry_mapping "UNC 3" = None
  /\ HaslametricScrape.normalize_team_names one_entry_mapping haslam_slate
     = ([ HaslametricScrape.mkRow "Duke Blue Devils" "UNC" tt;
          HaslametricScrape.mkRow "Kansas" "UNC" tt ],
        [ "Kansas"%string; "UNC"%string ])
  /\ count_occ string_dec
       (snd (HaslametricScrape.normalize_team_names one_entry_mapping
               haslam_slate))
       "UNC 3"%string = 0%nat.
Proof. repeat split; vm_compute; reflexivity. Qed.

(** C9, as the code has it: [haslametric_scrape.normalize_team_names]
    looks every name up after [re.sub(r'\s*\d+$', '', name).strip()], which
    on a name ending in whitespace followed by digits leaves the part before
    them, trimmed (second part).  The key written back is the table's answer
    for that stripped name, and the stripped name itself when the table has
    no answer for it (first part): the fallback is the stripped name, and the
    raw name is never looked up -- the loop reads the table at the stripped
    names only (third part). *)
Theorem rank_token_stripped_before_lookup
    (get_canonical_name : string -> option string) (Other : Type)
    (df : list (HaslametricScrape.Row Other)) :
  Forall2
    (fun row new_row =>
       let home := Py.clean (HaslametricScrape.home_team row) in
       let away := Py.clean (HaslametricScrape.away_team row) in
       HaslametricScrape.other new_row = HaslametricScrape.other row
       /\ (forall canonical,
             get_canonical_name home = Some canonical ->
             canonical <> ""%string ->
             HaslametricScrape.home_team new_row = canonical)
       /\ (get_canonical_name home = None
           \/ get_canonical_name home = Some ""%string ->
           HaslametricScrape.home_team new_row = home)
       /\ (forall canonical,
             get_canonical_name away = Some canonical ->
             canonical <> ""%string ->
             HaslametricScrape.away_team new_row = canonical)
       /\ (get_canonical_name away = None
           \/ get_canonical_name away = Some ""%string ->
           HaslametricScrape.away_team new_row = away))
    df (fst (HaslametricScrape.normalize_team_names get_canonical_name df))
  /\ (forall base w d : list ascii,
         w <> [] -> forallb Py.is_space w = true ->
         d <> [] -> forallb Py.is_digit d = true ->
         Py.clean (string_of_list_ascii (base ++ w ++ d))
         = string_of_list_ascii (Py.strip base))
  /\ (forall other_table : string -> option string,
         (forall row, In row df ->
            other_table (Py.clean (HaslametricScrape.home_team row))
            = get_canonical_name (Py.clean (HaslametricScrape.home_team row))
            /\ other_table (Py.clean (HaslametricScrape.away_team row))
               = get_canonical_name
                   (Py.clean (HaslametricScrape.away_team row))) ->
         HaslametricScrape.normalize_team_names other_table df
         = HaslametricScrape.normalize_team_names get_canonical_name df).
Proof.
  split; [|split].
  - pose proof (haslam_loop_rows get_canonical_name Other df []) as Rows.
    unfold HaslametricScrape.normalize_team_names.
    destruct (HaslametricScrape.normalize_loop _ [] df) as [df' l].
    cbn [fst] in *. subst df'. clear l.
    induction df as [|row df IH]; cbn [map]; constructor; [|exact IH].
    cbv zeta. cbn [HaslametricScrape.home_team HaslametricScrape.away_team
                   HaslametricScrape.other].
    split; [reflexivity|].
    unfold Py.key_of, Py.resolve, Py.truthy, Py.value.
    repeat split.
    + intros canonical E N. rewrite E. apply String.eqb_neq in N.
      now rewrite N.
    + intros [E | E]; now rewrite E.
    + intros canonical E N. rewrite E. apply String.eqb_neq in N.
      now rewrite N.
    + intros [E | E]; now rewrite E.
  - apply clean_rank_token.
  - intros other_table Same.
    unfold HaslametricScrape.normalize_team_names.
    now rewrite (haslam_loop_reads_clean_names get_canonical_name Other
                   other_table df Same []).
Qed.

Lemma rank_token_stripped_before_lookup_witness :
  Py.clean "Duke 12" = "Duke"%string
  /\ HaslametricScrape.normalize_team_names one_entry_mapping haslam_slate
     = ([ HaslametricScrape.mkRow "Duke Blue Devils" "UNC" tt;
          HaslametricScrape.mkRow "Kansas" "UNC" tt ],
        [ "Kansas"%string; "UNC"%string ])
  /\ HaslametricScrape.normalize_team_names ranked_only_mapping haslam_slate
     = HaslametricScrape.normalize_team_names (fun _ => None) haslam_slate
  /\ exists new_row rest,
       fst (HaslametricScrape.normalize_team_names one_entry_mapping
              haslam_slate)
       = new_row :: rest
       /\ HaslametricScrape.home_team new_row = "Duke Blue Devils"%string
       /\ HaslametricScrape.away_team new_row = "UNC"%string.
Proof.
  pose proof (rank_token_stripped_before_lookup one_entry_mapping unit
                haslam_slate) as (Keys & Clean & _).
  pose proof (rank_token_stripped_before_lookup (fun _ => None) unit
                haslam_slate) as (_ & _ & Reads).
  split; [|split; [vm_compute; reflexivity | split]].
  - apply (Clean (list_ascii_of_string "Duke") (list_ascii_of_string " ")
                 (list_ascii_of_string "12"));
      [discriminate | reflexivity | discriminate | reflexivity].
  - apply Reads. intros row [<- | [<- | []]]; split; reflexivity.
  - remember (fst (HaslametricScrape.normalize_team_names one_entry_mapping
                     haslam_slate)) as out eqn:E.
    clear E. unfold haslam_slate in Keys.
    inversion Keys as [|row new_row df rest P Rest E1 E2]. subst.
    destruct P as (_ & Home & _ & _ & Away).
    exists new_row, rest. split; [reflexivity|]. split.
    + apply (Home "Duke Blue Devils"%string); [reflexivity | discriminate].
    + apply Away. left. reflexivity.
Defined.

(** C9 as stated fails: there is no fallback to the raw name.  The table has
    the raw spelling "UNC 3" and no other; the loop looks "UNC" up, finds
    nothing, and writes and reports "UNC": "UNC 3" is neither looked up nor
    used as the key. *)
Lemma raw_name_is_never_looked_up :
  ranked_only_mapping "UNC 3" = Some "North Carolina"%string
  /\ HaslametricScrape.normalize_team_names ranked_only_mapping
       [HaslametricScrape.mkRow "UNC 3" "Duke 12" tt]
     = ([HaslametricScrape.mkRow "UNC" "Duke" tt],
        ["Duke"%string; "UNC"%string]).
Proof. split; vm_compute; reflexivity. Qed.

(* ================================================================= *)
(** * Further properties *)

(** ** [predict_games] on a whole slate *)

Section SlateFacts.
Context {F : Type} `{Number F}.
Import Torvik.

Lemma rated_true (df : DataFrame F) (g : Game) :
  rated df g = true ->
  exists home away,
    get_team_data df (home_team g) = Some home
    /\ get_team_data df (away_team g) = Some away.
Proof.
  unfold rated.
  destruct (get_team_data df (home_team g)) as [home|];
    destruct (get_team_data df (away_team g)) as [away|];
    simpl; try discriminate.
  intros _. exists home, away. auto.
Qed.

Lemma rated_false (df : DataFrame F) (g : Game) :
  rated df g = false ->
  get_team_data df (home_team g) = None
  \/ get_team_data df (away_team g) = None.
Proof.
  unfold rated.
  destruct (get_team_data df (home_team g));
    destruct (get_team_data df (away_team g)); simpl; auto; discriminate.
Qed.

Lemma predictable_true (df : DataFrame F) (g : Game) :
  predictable df g = true ->
  exists home away,
    get_team_data df (home_team g) = Some home
    /\ get_team_data df (away_team g) = Some away
    /\ (neutral_site g = true \/ hca_of home <> None).
Proof.
  unfold predictable. intros P. apply andb_true_iff in P as [R C].
  destruct (rated_true df g R) as (home & away & Hh & Ha).
  exists home, away. repeat split; auto.
  unfold converts in C. rewrite Hh in C.
  destruct (neutral_site g); [now left | right].
  cbn [orb] in C. destruct (hca_of home); [discriminate | discriminate C].
Qed.

(** What one game adds to the two lists. *)
Lemma game_outcome (df : DataFrame F) (g : Game) :
  map prediction_names (predicted df g)
  = (if predictable df g then [game_names g] else [])
  /\ skipped_of df g
     = (if predictable df g then [] else [skipped_entry df g]).
Proof.
  destruct (rated df g) eqn:R.
  - destruct (rated_true df g R) as (home & away & Hh & Ha).
    destruct (rated_teams_processed df g home away Hh Ha) as (aws & _ & P).
    unfold predictable, converts, skipped_entry. rewrite R, Hh. cbn [andb].
    destruct (calculate_scores_found df (home_team g) (away_team g) home away
                Hh Ha) as (_ & En & Eh & _).
    destruct (neutral_site g); cbn [orb].
    + rewrite En in P. destruct P as [-> ->]. split; reflexivity.
    + rewrite Eh in P. destruct (hca_of home) as [hca|];
        cbn [option_map is_None negb] in *.
      * destruct P as [-> ->]. split; reflexivity.
      * destruct P as (_ & _ & -> & ->). split; reflexivity.
  - destruct (missing_team_skipped df g (rated_false df g R)) as [-> ->].
    unfold predictable, skipped_entry. rewrite R. split; reflexivity.
Qed.

(** X1: processing a slate made of two parts gives the predictions of the
    first part followed by those of the second, and likewise for the skipped
    list: the loop carries nothing from one game to the next. *)
Theorem predict_games_app (df : DataFrame F) (games1 games2 : list Game) :
  predict_games df (games1 ++ games2)
  = (fst (predict_games df games1) ++ fst (predict_games df games2),
     snd (predict_games df games1) ++ snd (predict_games df games2)).
Proof.
  rewrite !predict_games_flat. cbn [fst snd].
  now rewrite !flat_map_app.
Qed.

(** X2: the predictions are, in schedule order, one row for each game whose
    two teams are rated and whose HCA cell, if it is read, converts, under
    the names the schedule uses; the skipped list is, in schedule order, one
    entry for each other game: without error text when a team has no rating
    row, with the text of the exception when [float] raised on the home
    row's HCA cell. *)
Theorem predict_games_partitions_slate (df : DataFrame F) (games : list Game) :
  map prediction_names (fst (predict_games df games))
  = map game_names (filter (predictable df) games)
  /\ snd (predict_games df games)
     = map (skipped_entry df)
           (filter (fun g => negb (predictable df g)) games).
Proof.
  rewrite predict_games_flat. cbn [fst snd].
  induction games as [|g games IH]; [split; reflexivity|].
  destruct IH as [IHp IHs].
  cbn [flat_map filter]. rewrite map_app.
  destruct (game_outcome df g) as [-> ->].
  rewrite IHp, IHs.
  destruct (predictable df g); split; reflexivity.
Qed.

(** X3: with an empty ratings table nothing is predicted and every game of
    the slate is skipped. *)
Theorem predict_games_without_ratings (games : list Game) :
  predict_games (F:=F) [] games = ([], map skip_entry games).
Proof.
  rewrite predict_games_flat.
  assert (P : flat_map (predicted (F:=F) []) games = []).
  { induction games as [|g games IH]; [reflexivity|].
    cbn [flat_map]. rewrite IH. reflexivity. }
  assert (S : flat_map (skipped_of (F:=F) []) games = map skip_entry games).
  { clear P. induction games as [|g games IH]; [reflexivity|].
    cbn [flat_map map]. rewrite IH. reflexivity. }
  now rewrite P, S.
Qed.

Lemma get_team_data_app (df extra : DataFrame F) (team : string) :
  (forall x, In x extra -> exists r, In r df /\ Team r = Team x) ->
  get_team_data (df ++ extra) team = get_team_data df team.
Proof.
  intros Hextra. unfold get_team_data. rewrite filter_app.
  destruct (filter (fun r => String.eqb (Team r) team) df) as [|r rs] eqn:E;
    [|reflexivity].
  destruct (filter (fun r => String.eqb (Team r) team) extra) as [|x xs] eqn:X;
    [reflexivity|].
  assert (Hx : In x (filter (fun r => String.eqb (Team r) team) extra))
    by (rewrite X; now left).
  apply filter_In in Hx as [Hx Tx]. apply String.eqb_eq in Tx.
  destruct (Hextra x Hx) as (r & Hr & Tr).
  assert (Hin : In r (filter (fun r => String.eqb (Team r) team) df)).
  { apply filter_In. split; auto. apply String.eqb_eq. congruence. }
  rewrite E in Hin. destruct Hin.
Qed.

(** X4: rows appended to the ratings table for teams it already lists change
    nothing: every lookup still finds the first row of a team, so the whole
    slate is predicted as before. *)
Theorem later_duplicate_ratings_ignored (df extra : DataFrame F)
    (games : list Game) :
  (forall x, In x extra -> exists r, In r df /\ Team r = Team x) ->
  predict_games (df ++ extra) games = predict_games df games.
Proof.
  intros Hextra.
  assert (G : forall team,
             get_team_data (df ++ extra) team = get_team_data df team)
    by (intros team; now apply get_team_data_app).
  unfold predict_games.
  generalize (@nil (Prediction F), @nil Skipped).
  induction games as [|g games IH]; intros acc; [reflexivity|].
  cbn [fold_left]. rewrite <- IH. f_equal.
  unfold predict_step, calculate_home_score, calculate_away_score,
    calculate_tempo.
  destruct acc as [predictions skipped]. now rewrite !G.
Qed.

End SlateFacts.

Lemma later_duplicate_ratings_ignored_witness :
  Torvik.predict_games (twin_ratings Q ++ [later_duke_row]) sample_games
  = Torvik.predict_games (twin_ratings Q) sample_games.
Proof.
  apply (later_duplicate_ratings_ignored (twin_ratings Q) [later_duke_row]
           sample_games).
  intros x [<- | []].
  exists (Torvik.mkTeamRow "Duke" (fromZ 110) (fromZ 100) (fromZ 70)
                           (Some (Torvik.Num (decimal 32 10)))).
  split; [left; reflexivity | reflexivity].
Defined.

(** ** The score model on a neutral site *)

(** X5: in exact arithmetic, on a neutral site the projection does not
    depend on which team is listed as home: the points of a team listed as
    home are the points it gets when the same game is entered with the two
    teams swapped, and likewise for the team listed as away. *)
Theorem neutral_site_is_symmetric (torvik_data : Torvik.DataFrame Q)
    (team_a team_b : string) (a b : Torvik.TeamRow Q) :
  Torvik.get_team_data torvik_data team_a = Some a ->
  Torvik.get_team_data torvik_data team_b = Some b ->
  exists a_as_home a_as_away b_as_home b_as_away,
    Torvik.calculate_home_score torvik_data team_a team_b true = Some a_as_home
    /\ Torvik.calculate_away_score torvik_data team_a team_b = Some a_as_away
    /\ Torvik.calculate_home_score torvik_data team_b team_a true = Some b_as_home
    /\ Torvik.calculate_away_score torvik_data team_b team_a = Some b_as_away
    /\ a_as_home == a_as_away
    /\ b_as_home == b_as_away.
Proof.
  intros Ha Hb.
  unfold Torvik.calculate_home_score, Torvik.calculate_away_score,
    Torvik.calculate_tempo.
  rewrite Ha, Hb. cbn [negb].
  do 4 eexists. repeat split; try reflexivity.
  - cbn [mul div Number_Q].
    now rewrite (Qmult_comm (Torvik.AdjT a) (Torvik.AdjT b)).
  - cbn [mul div Number_Q].
    now rewrite (Qmult_comm (Torvik.AdjT b) (Torvik.AdjT a)).
Qed.

Lemma neutral_site_is_symmetric_witness :
  exists a_as_home a_as_away b_as_home b_as_away,
    Torvik.calculate_home_score two_team_ratings "Duke" "UNC" true
    = Some a_as_home
    /\ Torvik.calculate_away_score two_team_ratings "Duke" "UNC"
       = Some a_as_away
    /\ Torvik.calculate_home_score two_team_ratings "UNC" "Duke" true
       = Some b_as_home
    /\ Torvik.calculate_away_score two_team_ratings "UNC" "Duke"
       = Some b_as_away
    /\ a_as_home == a_as_away
    /\ b_as_home == b_as_away.
Proof.
  exact (neutral_site_is_symmetric two_team_ratings "Duke" "UNC"
           (Torvik.mkTeamRow "Duke" (decimal 1215 10) (decimal 932 10)
                             (decimal 664 10)
                             (Some (Torvik.Num (decimal 41 10))))
           (Torvik.mkTeamRow "UNC" (decimal 1148 10) (decimal 978 10)
                             (decimal 713 10)
                             (Some (Torvik.Num (decimal 36 10))))
           eq_refl eq_refl).
Defined.

(** ** Rounding and means in exact arithmetic *)

Lemma Qrint_Z_between (x : Q) :
  (Qfloor x <= Qrint_Z x <= Qfloor x + 1)%Z.
Proof.
  unfold Qrint_Z.
  destruct (Qcompare (x - inject_Z (Qfloor x)) (1 # 2));
    [destruct (Z.even (Qfloor x))| |]; lia.
Qed.

Lemma Qrint_Z_le (x y : Q) : x <= y -> (Qrint_Z x <= Qrint_Z y)%Z.
Proof.
  intros L.
  pose proof (Qfloor_resp_le x y L) as FL.
  pose proof (Qrint_Z_between x) as Bx.
  pose proof (Qrint_Z_between y) as By.
  destruct (Z.eq_dec (Qfloor x) (Qfloor y)) as [E | N]; [|lia].
  unfold Qrint_Z. rewrite <- E.
  destruct (Qcompare (x - inject_Z (Qfloor x)) (1 # 2)) eqn:Cx;
    destruct (Qcompare (y - inject_Z (Qfloor x)) (1 # 2)) eqn:Cy;
    try (destruct (Z.even (Qfloor x))); try lia;
    repeat match goal with
           | C : Qcompare _ _ = Eq |- _ => apply Qeq_alt in C
           | C : Qcompare _ _ = Lt |- _ => apply Qlt_alt in C
           | C : Qcompare _ _ = Gt |- _ => apply Qgt_alt in C
           end; exfalso; lra.
Qed.

Lemma fold_Qplus_bounds (xs : list Q) (lo hi : Q) :
  (forall x, In x xs -> lo <= x <= hi) ->
  forall acc,
    acc + inject_Z (Z.of_nat (List.length xs)) * lo
    <= fold_left Qplus xs acc
    <= acc + inject_Z (Z.of_nat (List.length xs)) * hi.
Proof.
  induction xs as [|x xs IH]; intros B acc.
  - cbn [fold_left List.length Z.of_nat]. change (inject_Z 0) with 0.
    split; lra.
  - cbn [fold_left List.length].
    rewrite Nat2Z.inj_succ, <- Z.add_1_r, inject_Z_plus.
    change (inject_Z 1) with 1.
    destruct (B x (or_introl eq_refl)) as [Lx Hx].
    destruct (IH (fun y Hy => B y (or_intror Hy)) (acc + x)) as [L U].
    split; nra.
Qed.

Lemma mean_of_bounds (xs : list Q) (lo hi : Q) :
  xs <> [] ->
  (forall x, In x xs -> lo <= x <= hi) ->
  exists m, Combine.mean_of xs = Some m /\ lo <= m <= hi.
Proof.
  intros N B. destruct xs as [|x xs]; [now destruct N|].
  eexists. split; [reflexivity|].
  pose proof (fold_Qplus_bounds (x :: xs) lo hi B 0) as [L U].
  cbn [add div fromZ Number_Q].
  set (n := inject_Z (Z.of_nat (List.length (x :: xs)))) in *.
  assert (P : 0 < n).
  { unfold n. change 0 with (inject_Z 0). rewrite <- Zlt_Qlt.
    cbn [List.length]. lia. }
  change (inject_Z 0) with 0.
  split.
  - apply Qle_shift_div_l; [exact P|]. lra.
  - apply Qle_shift_div_r; [exact P|]. lra.
Qed.

(** ** More on the aggregator *)

Section MergeCounting.
Context {F : Type} `{Number F}.
Import Combine.

Lemma map_const_repeat {A B : Type} (c : B) (l : list A) :
  map (fun _ => c) l = repeat c (List.length l).
Proof. induction l as [|x l IH]; simpl; [reflexivity | now rewrite IH]. Qed.

Lemma merge_left_multiplicity {L : Type} (home_of away_of : L -> string)
    (left : list L) (right : list (SourceRow F)) :
  map fst (merge_left home_of away_of left right)
  = flat_map
      (fun l => repeat l
         (Nat.max 1 (List.length
                       (filter (same_game (home_of l) (away_of l)) right))))
      left.
Proof.
  unfold merge_left.
  induction left as [|l left IH]; [reflexivity|].
  cbn [flat_map]. rewrite map_app, IH. f_equal.
  destruct (filter (same_game (home_of l) (away_of l)) right) as [|r rs];
    [reflexivity|].
  rewrite map_map. cbn [fst].
  now rewrite (map_const_repeat l (r :: rs)).
Qed.

Lemma flat_map_repeat_fst {A B : Type} (n : A -> nat) (l : list (A * B)) :
  map fst (flat_map (fun x => repeat x (n (fst x))) l)
  = flat_map (fun a => repeat a (n a)) (map fst l).
Proof.
  induction l as [|x l IH]; [reflexivity|].
  cbn [flat_map map]. now rewrite map_app, map_repeat, IH.
Qed.

Lemma flat_map_repeat_twice {A : Type} (m n : A -> nat) (l : list A) :
  flat_map (fun a => repeat a (n a)) (flat_map (fun a => repeat a (m a)) l)
  = flat_map (fun a => repeat a (m a * n a)) l.
Proof.
  induction l as [|a l IH]; [reflexivity|].
  cbn [flat_map]. rewrite flat_map_app, IH. f_equal.
  induction (m a) as [|k IHk]; [reflexivity|].
  cbn [repeat flat_map Nat.mul]. now rewrite IHk, repeat_app.
Qed.

Lemma map_flat_map_repeat {A B : Type} (f : A -> B) (n : A -> nat)
    (l : list A) :
  map f (flat_map (fun a => repeat a (n a)) l)
  = flat_map (fun a => repeat (f a) (n a)) l.
Proof.
  induction l as [|a l IH]; [reflexivity|].
  cbn [flat_map]. now rewrite map_app, map_repeat, IH.
Qed.

(** X6: every Kenpom row gives [max(1, t) * max(1, h)] rows of the combined
    output, next to each other and in Kenpom's order, where [t] and [h] are
    the numbers of Torvik and Haslametrics rows for its game: a game listed
    twice by a source is emitted twice, and no Kenpom game is ever lost. *)
Theorem combined_rows_per_kenpom_row
    (kenpom_df torvik_df haslam_df : list (SourceRow F)) :
  map game_of (combine_predictions kenpom_df torvik_df haslam_df)
  = flat_map
      (fun k => repeat (source_game_of k)
         (Nat.max 1 (rows_for torvik_df k) * Nat.max 1 (rows_for haslam_df k)))
      kenpom_df.
Proof.
  unfold combine_predictions, merge_all. rewrite !map_map.
  change (fun x => game_of (final_row
            (mkMergedRow (fst (fst x)) (snd (fst x)) (snd x))))
    with (fun x : SourceRow F * option (SourceRow F) * option (SourceRow F) =>
            source_game_of (fst (fst x))).
  rewrite <- (map_map (fun x => fst (fst x)) source_game_of).
  rewrite <- (map_map fst fst).
  rewrite merge_left_multiplicity.
  rewrite (flat_map_repeat_fst
             (fun k => Nat.max 1 (List.length
                (filter (same_game (Torvik.Home_Team k) (Torvik.Away_Team k))
                        haslam_df)))).
  rewrite merge_left_multiplicity, flat_map_repeat_twice.
  apply map_flat_map_repeat.
Qed.

End MergeCounting.

(** X7: in exact arithmetic, when every home score of the three files lies
    between [lo] and [hi], every consensus home score is a whole number
    between [lo] and [hi] rounded; the same holds for the away scores.  In
    particular the consensus is never missing and never leaves the range of
    the rounded source scores. *)
Theorem consensus_within_source_range
    (kenpom_df torvik_df haslam_df : list (Combine.SourceRow Q)) (lo hi : Q) :
  ((forall s, In s (kenpom_df ++ torvik_df ++ haslam_df) ->
              lo <= Torvik.Home_Score s <= hi) ->
   forall r, In r (Combine.combine_predictions kenpom_df torvik_df haslam_df) ->
     exists c, Combine.Home_Score r = Some (inject_Z c)
               /\ (Qrint_Z lo <= c <= Qrint_Z hi)%Z)
  /\
  ((forall s, In s (kenpom_df ++ torvik_df ++ haslam_df) ->
              lo <= Torvik.Away_Score s <= hi) ->
   forall r, In r (Combine.combine_predictions kenpom_df torvik_df haslam_df) ->
     exists c, Combine.Away_Score r = Some (inject_Z c)
               /\ (Qrint_Z lo <= c <= Qrint_Z hi)%Z).
Proof.
  assert (G : forall (score_of : Combine.SourceRow Q -> Q) k t h,
             In k kenpom_df ->
             Combine.cell_for torvik_df (Torvik.Home_Team k)
               (Torvik.Away_Team k) t ->
             Combine.cell_for haslam_df (Torvik.Home_Team k)
               (Torvik.Away_Team k) h ->
             (forall s, In s (kenpom_df ++ torvik_df ++ haslam_df) ->
                        lo <= score_of s <= hi) ->
             exists c,
               option_map rint
                 (Combine.mean_of
                    (filter (fun x => negb (isnan x))
                       (map score_of
                          ([k] ++ Combine.cells_of t ++ Combine.cells_of h))))
               = Some (inject_Z c)
               /\ (Qrint_Z lo <= c <= Qrint_Z hi)%Z).
  { intros score_of k t h Hk Ht Hh B.
    cbn [isnan Number_Q negb]. rewrite filter_all_kept.
    destruct (mean_of_bounds
                (map score_of ([k] ++ Combine.cells_of t ++ Combine.cells_of h))
                lo hi) as (m & -> & Lm & Um).
    - discriminate.
    - intros x Hx. apply in_map_iff in Hx as (s & <- & Hs). apply B.
      rewrite !in_app_iff. rewrite !in_app_iff in Hs.
      destruct Hs as [[<- | []] | [Hs | Hs]]; auto.
      + right; left. destruct t as [t|]; [|destruct Hs].
        destruct Hs as [<- | []]. apply Ht.
      + right; right. destruct h as [h|]; [|destruct Hs].
        destruct Hs as [<- | []]. apply Hh.
    - exists (Qrint_Z m). split; [reflexivity|].
      split; now apply Qrint_Z_le. }
  split; intros B r Hr;
    destruct (consensus_of_merged_row kenpom_df torvik_df haslam_df r Hr)
      as (k & t & h & Hk & Ht & Hh & _ & _ & Eh & Ea).
  - rewrite Eh. now apply G.
  - rewrite Ea. now apply G.
Qed.

Lemma consensus_within_source_range_witness :
  Forall (fun r => exists c, Combine.Home_Score r = Some (inject_Z c)
                             /\ (Qrint_Z 73 <= c <= Qrint_Z 75)%Z)
    (Combine.combine_predictions
       (kenpom_sample Q) (torvik_sample Q) (haslam_sample Q)).
Proof.
  apply Forall_forall.
  apply (proj1 (consensus_within_source_range
                  (kenpom_sample Q) (torvik_sample Q) (haslam_sample Q)
                  73 75)).
  intros s [<- | [<- | [<- | []]]]; split; vm_compute; discriminate.
Defined.

Lemma nothing_predictable {F : Type} `{Number F} (df : Torvik.DataFrame F)
    (games : list Torvik.Game) :
  (forall g, In g games -> predictable df g = false) ->
  fst (Torvik.predict_games df games) = [].
Proof.
  rewrite predict_games_flat. cbn [fst].
  induction games as [|g games IH]; intros N; [reflexivity|].
  cbn [flat_map]. rewrite IH by (intros x Hx; apply N; now right).
  destruct (game_outcome df g) as [P _].
  rewrite (N g (or_introl eq_refl)) in P.
  apply map_eq_nil in P. now rewrite P.
Qed.

(** X8: when Torvik can predict none of the day's games, the file it writes
    has no header line, and the aggregator, which catches
    [FileNotFoundError] only, raises on reading it: there is no combined
    output, whatever Kenpom and Haslametrics predicted. *)
Theorem no_torvik_prediction_stops_the_aggregator (F : Type) (NF : Number F)
    (df : Torvik.DataFrame F) (games : list Torvik.Game)
    (kenpom_df : list (Combine.SourceRow F))
    (HASLAM_FILE : CsvFile (Combine.SourceRow F)) :
  (forall g, In g games -> predictable df g = false) ->
  Torvik.to_csv (fst (Torvik.predict_games df games)) = NoColumns
  /\ Combine.combine_predictions_files (Frame kenpom_df)
       (Torvik.to_csv (fst (Torvik.predict_games df games))) HASLAM_FILE
     = Combine.Raised Combine.EmptyDataError.
Proof.
  intros N. rewrite (nothing_predictable df games N). split; reflexivity.
Qed.

Lemma no_torvik_prediction_stops_the_aggregator_witness :
  Combine.combine_predictions_files (Frame (kenpom_sample Q))
    (Torvik.to_csv
       (fst (Torvik.predict_games (twin_ratings Q)
               [Torvik.mkGame "Duke" "Gonzaga" false "2026-02-04 09:00 PM"])))
    (Frame (haslam_sample Q))
  = Combine.Raised Combine.EmptyDataError.
Proof.
  apply (no_torvik_prediction_stops_the_aggregator Q Number_Q (twin_ratings Q)
           [Torvik.mkGame "Duke" "Gonzaga" false "2026-02-04 09:00 PM"]
           (kenpom_sample Q) (Frame (haslam_sample Q))).
  intros g [<- | []]. reflexivity.
Defined.

Lemma merge_left_no_match {L : Type} (home_of away_of : L -> string)
    (left : list L) (right : list (Combine.SourceRow Q)) :
  (forall l, In l left ->
             filter (Combine.same_game (home_of l) (away_of l)) right = []) ->
  Combine.merge_left home_of away_of left right
  = map (fun l => (l, None)) left.
Proof.
  unfold Combine.merge_left.
  induction left as [|l left IH]; intros N; [reflexivity|].
  cbn [flat_map]. rewrite (N l (or_introl eq_refl)), map_cons.
  rewrite IH; [reflexivity|]. intros x Hx. apply N. now right.
Qed.

(** X9: in exact arithmetic, when the three files load and neither Torvik
    nor Haslametrics has a row for any Kenpom game, the combined output is
    the Kenpom file with each score rounded to the nearest whole number: the
    absent sources count neither as zeros nor in the divisor. *)
Theorem kenpom_alone_is_rounded
    (kenpom_df torvik_df haslam_df : list (Combine.SourceRow Q)) :
  (forall k, In k kenpom_df ->
             rows_for torvik_df k = 0%nat /\ rows_for haslam_df k = 0%nat) ->
  Combine.combine_predictions_files
    (Frame kenpom_df) (Frame torvik_df) (Frame haslam_df)
  = Combine.Returned
      (map (fun k =>
              Combine.mkFinalRow (Torvik.Home_Team k) (Torvik.Away_Team k)
                (Some (rint (Torvik.Home_Score k)))
                (Some (rint (Torvik.Away_Score k))))
           kenpom_df).
Proof.
  intros N. unfold Combine.combine_predictions_files, Combine.read_csv.
  f_equal. unfold Combine.combine_predictions, Combine.merge_all.
  rewrite (merge_left_no_match _ _ kenpom_df torvik_df).
  2: { intros k Hk. apply length_zero_iff_nil. apply (N k Hk). }
  rewrite (merge_left_no_match _ _ _ haslam_df).
  2: { intros kt Hkt. apply in_map_iff in Hkt as (k & <- & Hk).
       apply length_zero_iff_nil. apply (N k Hk). }
  rewrite !map_map. apply map_ext. intros k.
  unfold Combine.final_row, Combine.home_scores, Combine.away_scores,
    Combine.round, Combine.mean_skipna, Combine.sum. cbn.
  f_equal; do 2 f_equal; apply Qrint_Z_comp;
    unfold Qdiv; change (/ inject_Z 1) with 1; ring.
Qed.

Lemma kenpom_alone_is_rounded_witness :
  Combine.combine_predictions_files
    (Frame (kenpom_sample Q)) (Frame (other_game Q)) (Frame (other_game Q))
  = Combine.Returned
      (map (fun k =>
              Combine.mkFinalRow (Torvik.Home_Team k) (Torvik.Away_Team k)
                (Some (rint (Torvik.Home_Score k)))
                (Some (rint (Torvik.Away_Score k))))
           (kenpom_sample Q)).
Proof.
  apply (kenpom_alone_is_rounded (kenpom_sample Q) (other_game Q)
           (other_game Q)).
  intros k [<- | []]. split; reflexivity.
Defined.

(** ** Logos and file names of the game cards *)

Section LogoFacts.
Import GameCardFiles.

Lemma find_key_unique (logo_data : LogoData) (key : string) (v : LogoEntry) :
  NoDup (map fst logo_data) -> In (key, v) logo_data ->
  find (fun kv => String.eqb (fst kv) key) logo_data = Some (key, v).
Proof.
  induction logo_data as [|[k w] d IH]; intros N Hin; [destruct Hin|].
  cbn [map fst] in N. apply NoDup_cons_iff in N as [Nk N].
  cbn [find fst]. destruct (String.eqb_spec k key) as [-> | Hne].
  - destruct Hin as [E | Hin]; [now rewrite E|].
    destruct Nk. apply in_map_iff. exists (key, v). auto.
  - destruct Hin as [E | Hin]; [injection E as -> _; now destruct Hne|].
    now apply IH.
Qed.

(** X10: a name that is a key of the logo file gets the URL stored under
    exactly that key, even when an earlier key differs from it in letter case
    only: the case-insensitive search is used for names that are not keys. *)
Theorem exact_logo_key_wins (team_name : string) (logo_data : LogoData)
    (entry : LogoEntry) :
  NoDup (map fst logo_data) ->
  In (team_name, entry) logo_data ->
  get_logo_url team_name logo_data = logo_url entry.
Proof.
  intros N Hin. unfold get_logo_url, dict_get.
  now rewrite (find_key_unique logo_data team_name entry N Hin).
Qed.

(** X11: a URL that [get_logo_url] returns is stored under a key equal to
    the name up to letter case; and when no key equals the name up to letter
    case the result is [None].  If every entry has a URL, a logo is found
    exactly when some key equals the name up to letter case. *)
Theorem logo_found_up_to_case (team_name : string) (logo_data : LogoData) :
  (forall url, get_logo_url team_name logo_data = Some url ->
     exists key entry,
       In (key, entry) logo_data /\ lower key = lower team_name
       /\ logo_url entry = Some url)
  /\ ((forall key entry, In (key, entry) logo_data ->
                         lower key <> lower team_name) ->
      get_logo_url team_name logo_data = None)
  /\ ((forall key entry, In (key, entry) logo_data -> logo_url entry <> None) ->
      ((exists url, get_logo_url team_name logo_data = Some url)
       <-> exists key entry,
             In (key, entry) logo_data /\ lower key = lower team_name)).
Proof.
  assert (Sound : forall url, get_logo_url team_name logo_data = Some url ->
     exists key entry,
       In (key, entry) logo_data /\ lower key = lower team_name
       /\ logo_url entry = Some url).
  { intros url. unfold get_logo_url, dict_get.
    destruct (find (fun kv => String.eqb (fst kv) team_name) logo_data)
      as [[k v]|] eqn:E.
    - apply find_some in E as [Hin Hk]. cbn [fst] in Hk.
      apply String.eqb_eq in Hk. subst k. cbn [snd]. intros U.
      exists team_name, v. auto.
    - destruct (find (fun kv => String.eqb (lower (fst kv)) (lower team_name))
                     logo_data) as [[k v]|] eqn:E2; [|discriminate].
      apply find_some in E2 as [Hin Hk]. cbn [fst] in Hk.
      apply String.eqb_eq in Hk. cbn [snd]. intros U. exists k, v. auto. }
  assert (Found : forall key entry,
             In (key, entry) logo_data -> lower key = lower team_name ->
             exists k v, In (k, v) logo_data
                         /\ get_logo_url team_name logo_data = logo_url v).
  { intros key entry Hin Hl. unfold get_logo_url, dict_get.
    destruct (find (fun kv => String.eqb (fst kv) team_name) logo_data)
      as [[k v]|] eqn:E.
    - apply find_some in E as [Hk _]. exists k, v. auto.
    - destruct (find (fun kv => String.eqb (lower (fst kv)) (lower team_name))
                     logo_data) as [[k v]|] eqn:E2.
      + apply find_some in E2 as [Hk _]. exists k, v. auto.
      + pose proof (find_none _ _ E2 (key, entry) Hin) as C.
        cbn [fst] in C. rewrite Hl, String.eqb_refl in C. discriminate. }
  split; [exact Sound|]. split.
  - intros None_matches.
    destruct (get_logo_url team_name logo_data) as [url|] eqn:G; auto.
    destruct (Sound url eq_refl) as (k & v & Hin & Hl & _).
    now destruct (None_matches k v Hin).
  - intros All_urls. split.
    + intros (url & G). destruct (Sound url G) as (k & v & Hin & Hl & _).
      exists k, v. auto.
    + intros (key & entry & Hin & Hl).
      destruct (Found key entry Hin Hl) as (k & v & Hk & ->).
      destruct (logo_url v) as [url|] eqn:U; [now exists url|].
      now destruct (All_urls k v Hk).
Qed.

Lemma replace_char_chars (old new : ascii) (s : string) (c : ascii) :
  old <> new ->
  In c (list_ascii_of_string (replace_char old new s)) -> c <> old.
Proof.
  intros Hne. unfold replace_char.
  rewrite list_ascii_of_string_of_list_ascii. intros Hc.
  apply in_map_iff in Hc as (x & <- & _).
  destruct (Ascii.eqb_spec x old); auto.
Qed.

Lemma replace_char_keeps_absent (old new avoid : ascii) (s : string)
    (c : ascii) :
  new <> avoid ->
  (forall x, In x (list_ascii_of_string s) -> x <> avoid) ->
  In c (list_ascii_of_string (replace_char old new s)) -> c <> avoid.
Proof.
  intros Hne Hs. unfold replace_char.
  rewrite list_ascii_of_string_of_list_ascii. intros Hc.
  apply in_map_iff in Hc as (x & <- & Hx).
  destruct (Ascii.eqb x old); auto.
Qed.

Lemma list_ascii_of_string_app (s t : string) :
  list_ascii_of_string (s ++ t)
  = list_ascii_of_string s ++ list_ascii_of_string t.
Proof.
  induction s as [|c s IH]; [reflexivity|].
  cbn. now rewrite IH.
Qed.

Lemma safe_name_chars (team : string) (c : ascii) :
  In c (list_ascii_of_string (safe_name team)) ->
  c <> " "%char /\ c <> "/"%char.
Proof.
  unfold safe_name. intros Hc. split.
  - revert Hc. apply replace_char_keeps_absent; [discriminate|].
    intros x. apply replace_char_chars. discriminate.
  - revert Hc. apply replace_char_chars. discriminate.
Qed.

(** X12: the file name of a game card contains neither a space nor a
    slash, whatever the two team names are. *)
Theorem card_filename_has_no_separator (home_team away_team : string)
    (c : ascii) :
  In c (list_ascii_of_string (card_filename home_team away_team)) ->
  c <> " "%char /\ c <> "/"%char.
Proof.
  unfold card_filename. rewrite !list_ascii_of_string_app, !in_app_iff.
  intros [Hc | [Hc | [Hc | Hc]]].
  - now apply (safe_name_chars home_team).
  - cbn in Hc. split; intros ->; intuition discriminate.
  - now apply (safe_name_chars away_team).
  - cbn in Hc. split; intros ->; intuition discriminate.
Qed.

End LogoFacts.

Lemma card_filename_has_no_separator_witness :
  GameCardFiles.card_filename "Texas A&M" "Miami (FL/OH)"
  = "Texas_A&M_vs_Miami_(FL-OH).png"%string
  /\ "_"%char <> " "%char /\ "_"%char <> "/"%char.
Proof.
  split; [reflexivity|].
  apply (card_filename_has_no_separator "Texas A&M" "Miami (FL/OH)").
  vm_compute. tauto.
Defined.

Lemma exact_logo_key_wins_witness :
  GameCardFiles.get_logo_url "UConn" sample_logos
  = Some "https://a.espncdn.com/42.png"%string.
Proof.
  apply (exact_logo_key_wins "UConn" sample_logos
           (GameCardFiles.mkLogoEntry
              (Some "https://a.espncdn.com/42.png"%string))).
  - repeat constructor; cbn; intuition discriminate.
  - right. left. reflexivity.
Defined.

Lemma logo_found_up_to_case_witness :
  GameCardFiles.get_logo_url "uconn" sample_logos
  = Some "https://a.espncdn.com/41.png"%string
  /\ exists key entry,
       In (key, entry) sample_logos
       /\ GameCardFiles.lower key = GameCardFiles.lower "uconn"
       /\ GameCardFiles.logo_url entry
          = Some "https://a.espncdn.com/41.png"%string.
Proof.
  split; [reflexivity|].
  apply (proj1 (logo_found_up_to_case "uconn" sample_logos)).
  reflexivity.
Defined.

(** ** More on the team names *)

Lemma insert_HdRel (a x : string) (l : list string) :
  leb_rel a x -> HdRel leb_rel a l -> HdRel leb_rel a (Py.insert x l).
Proof.
  intros Hax Hal. destruct l as [|y l]; simpl.
  - now constructor.
  - destruct (String.leb x y); constructor; auto.
    now inversion Hal.
Qed.

Lemma insert_Sorted (x : string) (l : list string) :
  Sorted leb_rel l -> Sorted leb_rel (Py.insert x l).
Proof.
  induction l as [|y l IH]; intros S; simpl.
  - repeat constructor.
  - destruct (String.leb x y) eqn:L.
    + constructor; [exact S | now constructor].
    + apply Sorted_inv in S as [S Hd]. constructor; [now apply IH|].
      apply insert_HdRel; [|exact Hd].
      destruct (String.leb_total x y) as [C | C]; [congruence | exact C].
Qed.

Lemma sorted_Sorted (l : list string) : Sorted leb_rel (Py.sorted l).
Proof.
  induction l as [|x l IH]; simpl; [constructor | now apply insert_Sorted].
Qed.

Lemma leb_neq_ltb (a b : string) : leb_rel a b -> a <> b -> ltb_rel a b.
Proof.
  unfold leb_rel, ltb_rel, String.leb, String.ltb. intros L N.
  destruct (String.compare a b) eqn:C; auto.
  apply String.compare_eq_iff in C. contradiction.
Qed.

Lemma Sorted_strict (l : list string) :
  Sorted leb_rel l -> NoDup l -> Sorted ltb_rel l.
Proof.
  induction l as [|x l IH]; intros S N; [constructor|].
  apply Sorted_inv in S as [S Hd]. apply NoDup_cons_iff in N as [Nx N].
  constructor; [now apply IH|].
  destruct l as [|y l]; constructor.
  apply leb_neq_ltb; [now inversion Hd|].
  intros ->. apply Nx. now left.
Qed.

Lemma unmapped_report_Sorted (l : list string) :
  Sorted ltb_rel (Py.unmapped_report l).
Proof.
  unfold Py.unmapped_report, Py.set. apply Sorted_strict.
  - apply sorted_Sorted.
  - apply (Permutation_NoDup (l := nodup string_dec l)).
    + symmetry. apply sorted_perm.
    + apply NoDup_nodup.
Qed.

(** X13: the unmapped names that either [normalize_team_names] prints are
    in strictly ascending code-point order: every name comes before the next
    one, so none is printed twice. *)
Theorem unmapped_report_is_ascending
    (get_canonical_name : string -> option string) (Other : Type)
    (espn_df : list (FetchDailyGames.Row Other))
    (haslam_df : list (HaslametricScrape.Row Other)) :
  Sorted ltb_rel
    (snd (FetchDailyGames.normalize_team_names get_canonical_name espn_df))
  /\ Sorted ltb_rel
       (snd (HaslametricScrape.normalize_team_names get_canonical_name
               haslam_df)).
Proof.
  split.
  - unfold FetchDailyGames.normalize_team_names.
    destruct (FetchDailyGames.normalize_loop _ [] espn_df) as [df' l].
    apply unmapped_report_Sorted.
  - unfold HaslametricScrape.normalize_team_names.
    destruct (HaslametricScrape.normalize_loop _ [] haslam_df) as [df' l].
    apply unmapped_report_Sorted.
Qed.

Lemma drop_while_head (p : ascii -> bool) (l : list ascii) (c : ascii)
    (rest : list ascii) :
  Py.drop_while p l = c :: rest -> p c = false.
Proof.
  induction l as [|x l IH]; simpl; [discriminate|].
  destruct (p x) eqn:P; auto. intros E. injection E as <- _. exact P.
Qed.

Lemma drop_while_suffix (p : ascii -> bool) (l : list ascii) :
  exists pre, l = pre ++ Py.drop_while p l.
Proof.
  induction l as [|x l [pre IH]]; simpl.
  - now exists [].
  - destruct (p x).
    + exists (x :: pre). simpl. now rewrite <- IH.
    + now exists [].
Qed.

Lemma rev_head_last (l : list ascii) (c d : ascii) (r : list ascii) :
  rev l = c :: r -> last l d = c.
Proof.
  intros E. rewrite <- (rev_involutive l), E. cbn [rev].
  apply last_last.
Qed.

Lemma strip_ends (s : list ascii) :
  match Py.strip s with
  | [] => True
  | first :: rest =>
      Py.is_space first = false
      /\ Py.is_space (last (first :: rest) first) = false
  end.
Proof.
  unfold Py.strip.
  destruct (Py.drop_while Py.is_space (rev (Py.drop_while Py.is_space (rev s))))
    as [|first rest] eqn:E; [exact I|].
  split; [now apply (drop_while_head _ _ _ _ E)|].
  destruct (drop_while_suffix Py.is_space
              (rev (Py.drop_while Py.is_space (rev s)))) as [pre P].
  rewrite E in P.
  assert (R : Py.drop_while Py.is_space (rev s)
              = rev (first :: rest) ++ rev pre).
  { rewrite <- rev_app_distr, <- P. now rewrite rev_involutive. }
  destruct (rev (first :: rest)) as [|c r] eqn:V.
  - apply (f_equal (@List.length ascii)) in V.
    rewrite length_rev in V. discriminate.
  - rewrite (rev_head_last (first :: rest) c first r V).
    cbn [app] in R. now apply (drop_while_head _ _ _ _ R).
Qed.

(** X14: a cleaned Haslametrics name never begins or ends with
    whitespace. *)
Theorem clean_has_no_outer_whitespace (name : string) :
  match list_ascii_of_string (Py.clean name) with
  | [] => True
  | first :: rest =>
      Py.is_space first = false
      /\ Py.is_space (last (first :: rest) first) = false
  end.
Proof.
  unfold Py.clean. rewrite list_ascii_of_string_of_list_ascii.
  apply strip_ends.
Qed.

Lemma not_space_not_newline (c : ascii) :
  Py.is_space c = false -> Ascii.eqb c Py.newline = false.
Proof.
  intros S. destruct (Ascii.eqb_spec c Py.newline) as [E | _]; [|reflexivity].
  subst c. discriminate S.
Qed.

(** X15: a name with no whitespace at either end and no digit at its end
    is left as it is by the cleaning, so that canonical names are looked up
    unchanged. *)
Theorem tidy_names_are_unchanged (name : string) :
  tidy (list_ascii_of_string name) = true -> Py.clean name = name.
Proof.
  unfold tidy, Py.clean. intros T.
  rewrite <- (string_of_list_ascii_of_string name) at 2. f_equal.
  destruct (list_ascii_of_string name) as [|first rest] eqn:L; [reflexivity|].
  destruct (rev (first :: rest)) as [|c r] eqn:R.
  - apply (f_equal (@List.length ascii)) in R.
    rewrite length_rev in R. discriminate.
  - apply andb_true_iff in T as [T Dl]. apply andb_true_iff in T as [Sf Sl].
    apply negb_true_iff in Dl, Sf, Sl.
    assert (E : Py.re_sub_rank (first :: rest) = first :: rest).
    { unfold Py.re_sub_rank. rewrite R, (not_space_not_newline c Sl).
      unfold Py.drop_rank. now rewrite R, Dl. }
    rewrite E. unfold Py.strip. rewrite R. cbn [Py.drop_while]. rewrite Sl.
    rewrite <- R, rev_involutive. cbn [Py.drop_while]. now rewrite Sf.
Qed.

Lemma tidy_names_are_unchanged_witness :
  Py.clean "St. John's" = "St. John's"%string.
Proof.
  apply (tidy_names_are_unchanged "St. John's"). reflexivity.
Defined.

(** ** The team names of the rating tables *)

(** X16: [torvik_scrape] writes, for every spelling, the name that
    [fetch_daily_games] writes for that spelling in the schedule (the
    canonical name, or the spelling itself when the table does not have it);
    and a rating row is kept exactly when that name is one of the teams
    playing. *)
Theorem torvik_names_match_schedule
    (get_canonical_name : string -> option string) (Ratings Columns : Type) :
  (forall (name away : string) (ratings : Ratings) (columns : Columns)
          (unmapped_teams : list string),
      TorvikScrape.Team
        (TorvikScrape.normalize_row get_canonical_name
           (TorvikScrape.mkRow name ratings))
      = FetchDailyGames.home_team
          (fst (FetchDailyGames.normalize_row get_canonical_name
                  unmapped_teams (FetchDailyGames.mkRow name away columns))))
  /\ (forall (teams_playing : list string)
             (df : list (TorvikScrape.Row Ratings))
             (kept : TorvikScrape.Row Ratings),
         In kept (TorvikScrape.teams_kept get_canonical_name teams_playing df)
         <-> exists row,
               In row df
               /\ kept = TorvikScrape.mkRow
                           (Py.key_of get_canonical_name (TorvikScrape.Team row))
                           (TorvikScrape.other row)
               /\ In (Py.key_of get_canonical_name (TorvikScrape.Team row))
                     teams_playing).
Proof.
  assert (K : forall row : TorvikScrape.Row Ratings,
             TorvikScrape.normalize_row get_canonical_name row
             = TorvikScrape.mkRow
                 (Py.key_of get_canonical_name (TorvikScrape.Team row))
                 (TorvikScrape.other row)).
  { intros [name ratings].
    unfold TorvikScrape.normalize_row, Py.key_of, Py.resolve.
    cbn [TorvikScrape.Team TorvikScrape.other].
    destruct (Py.truthy (get_canonical_name name)); [|reflexivity].
    cbn [andb fst].
    destruct (String.eqb_spec (Py.value (get_canonical_name name)) name)
      as [-> | _]; reflexivity. }
  split.
  - intros name away ratings columns unmapped_teams.
    rewrite K, espn_row_resolves. reflexivity.
  - intros teams_playing df kept. unfold TorvikScrape.teams_kept.
    rewrite filter_In, in_map_iff, mem_In. split.
    + intros [(row & <- & Hrow) Hin]. rewrite K in Hin |- *.
      exists row. auto.
    + intros (row & Hrow & -> & Hin). split.
      * exists row. split; [apply K | exact Hrow].
      * exact Hin.
Qed.

(** X17: [kenpom_fetch] stores in the team cell whatever
    [get_canonical_name] returns, so a rating row is kept exactly when the
    table has its name and the canonical name is one of the teams playing; a
    row whose name the table does not have is never kept, even if that very
    name is a team playing. *)
Theorem kenpom_keeps_mapped_teams_only
    (get_canonical_name : string -> option string) (Ratings : Type)
    (teams_playing : list string) (df : list (KenpomFetch.Row Ratings)) :
  (forall row : KenpomFetch.Row Ratings,
      KenpomFetch.normalize_row get_canonical_name row
      = KenpomFetch.mkNormalizedRow (get_canonical_name (KenpomFetch.Team row))
                                    (KenpomFetch.other row))
  /\ (forall kept,
         In kept (KenpomFetch.teams_kept get_canonical_name teams_playing df)
         <-> exists row name,
               In row df
               /\ get_canonical_name (KenpomFetch.Team row) = Some name
               /\ In name teams_playing
               /\ kept = KenpomFetch.mkNormalizedRow (Some name)
                           (KenpomFetch.other row))
  /\ (forall row : KenpomFetch.Row Ratings,
         In row df -> get_canonical_name (KenpomFetch.Team row) = None ->
         ~ In (KenpomFetch.normalize_row get_canonical_name row)
              (KenpomFetch.teams_kept get_canonical_name teams_playing df)).
Proof.
  assert (K : forall row : KenpomFetch.Row Ratings,
      KenpomFetch.normalize_row get_canonical_name row
      = KenpomFetch.mkNormalizedRow (get_canonical_name (KenpomFetch.Team row))
                                    (KenpomFetch.other row)).
  { intros [name ratings]. unfold KenpomFetch.normalize_row, KenpomFetch.differs.
    cbn [KenpomFetch.Team KenpomFetch.other].
    destruct (get_canonical_name name) as [c|]; [|reflexivity].
    destruct (String.eqb_spec c name) as [-> | _]; reflexivity. }
  assert (M : forall kept,
         In kept (KenpomFetch.teams_kept get_canonical_name teams_playing df)
         <-> exists row name,
               In row df
               /\ get_canonical_name (KenpomFetch.Team row) = Some name
               /\ In name teams_playing
               /\ kept = KenpomFetch.mkNormalizedRow (Some name)
                           (KenpomFetch.other row)).
  { intros kept. unfold KenpomFetch.teams_kept.
    rewrite filter_In, in_map_iff. split.
    - intros [(row & <- & Hrow) Hin]. rewrite K in Hin |- *.
      cbn [KenpomFetch.Team'] in Hin. unfold KenpomFetch.isin in Hin.
      destruct (get_canonical_name (KenpomFetch.Team row)) as [name|] eqn:G;
        [|discriminate].
      apply mem_In in Hin. exists row, name. auto.
    - intros (row & name & Hrow & G & Hin & ->). split.
      + exists row. split; [now rewrite K, G | exact Hrow].
      + cbn. now apply mem_In. }
  split; [exact K|]. split; [exact M|].
  intros row Hrow G Hkept. rewrite K, G in Hkept.
  apply M in Hkept as (row' & name & _ & _ & _ & E). discriminate E.
Qed.

(** ** From scoreboard events to games *)

Section ScoreboardFacts.
Import Scoreboard.
Variable to_eastern : string -> option string.

Lemma truthy_value (o : option string) :
  Py.truthy o = true -> o = Some (Py.value o) /\ Py.value o <> ""%string.
Proof.
  destruct o as [s|]; [|discriminate]. cbn. intros T.
  apply negb_true_iff in T. split; [reflexivity|].
  now apply String.eqb_neq.
Qed.

(** X18: a game is made of an event only when the first competition of the
    event has exactly two competitors, exactly one of them labelled "home",
    both with a non-empty display name, and the date converts; the home team
    is then the competitor labelled "home" and the away team the other one,
    in whichever order ESPN lists them. *)
Theorem parsed_game_has_one_home_team (event : Event) (game : GameInfo) :
  parse_event to_eastern event = Some game ->
  exists competition others home_c away_c game_date,
    competitions event = competition :: others
    /\ (competitors competition = [home_c; away_c]
        \/ competitors competition = [away_c; home_c])
    /\ is_home home_c = true /\ is_home away_c = false
    /\ displayName home_c = Some (home_team game)
    /\ displayName away_c = Some (away_team game)
    /\ home_team game <> ""%string /\ away_team game <> ""%string
    /\ date event = Some game_date
    /\ to_eastern game_date = Some (game_time game).
Proof.
  unfold parse_event.
  destruct (competitions event) as [|competition others]; [discriminate|].
  destruct (competitors competition) as [|c1 [|c2 [|c3 cs]]] eqn:C;
    try discriminate.
  cbn [List.length Nat.eqb negb fold_left]. unfold assign. cbn [fst snd].
  destruct (is_home c1) eqn:H1; destruct (is_home c2) eqn:H2; cbn [fst snd];
    try (cbn [Py.truthy negb orb]; rewrite ?orb_true_r; discriminate).
  - destruct (Py.truthy (displayName c1)) eqn:T1; [|discriminate].
    destruct (Py.truthy (displayName c2)) eqn:T2; [|discriminate].
    cbn [negb orb].
    destruct (date event) as [game_date|]; [|discriminate].
    destruct (to_eastern game_date) as [time|] eqn:E; [|discriminate].
    intros G. injection G as <-. cbn [home_team away_team game_time].
    destruct (truthy_value _ T1) as [V1 N1].
    destruct (truthy_value _ T2) as [V2 N2].
    exists competition, others, c1, c2, game_date.
    repeat split; auto.
  - destruct (Py.truthy (displayName c2)) eqn:T2; [|discriminate].
    destruct (Py.truthy (displayName c1)) eqn:T1; [|discriminate].
    cbn [negb orb].
    destruct (date event) as [game_date|]; [|discriminate].
    destruct (to_eastern game_date) as [time|] eqn:E; [|discriminate].
    intros G. injection G as <-. cbn [home_team away_team game_time].
    destruct (truthy_value _ T1) as [V1 N1].
    destruct (truthy_value _ T2) as [V2 N2].
    exists competition, others, c2, c1, game_date.
    repeat split; auto.
Qed.

End ScoreboardFacts.

Lemma parsed_game_has_one_home_team_witness :
  exists competition others home_c away_c game_date,
    Scoreboard.competitions sample_event = competition :: others
    /\ (Scoreboard.competitors competition = [home_c; away_c]
        \/ Scoreboard.competitors competition = [away_c; home_c])
    /\ Scoreboard.is_home home_c = true /\ Scoreboard.is_home away_c = false
    /\ Scoreboard.displayName home_c = Some "Duke Blue Devils"%string
    /\ Scoreboard.displayName away_c = Some "North Carolina Tar Heels"%string
    /\ "Duke Blue Devils"%string <> ""%string
    /\ "North Carolina Tar Heels"%string <> ""%string
    /\ Scoreboard.date sample_event = Some game_date
    /\ keep_time game_date = Some "2026-02-05T00:00Z"%string.
Proof.
  exact (parsed_game_has_one_home_team keep_time sample_event
           (Scoreboard.mkGameInfo (Some "401700001"%string)
              "Duke Blue Devils" "North Carolina Tar Heels"
              "2026-02-05T00:00Z" "Cameron Indoor Stadium" false "Scheduled")
           eq_refl).
Defined.

(** ** The pipeline runner *)

Section RunAllFacts.
Import RunAll.
Variable run_script : Script -> bool.

Ltac run_cases :=
  unfold main, required, optional;
  destruct (run_script fetch_daily_games) eqn:E1;
  destruct (run_script kenpom_fetch) eqn:E2;
  destruct (run_script kenpom_game_output) eqn:E3;
  destruct (run_script torvik_scrape) eqn:E4;
  destruct (run_script torvik_game_output) eqn:E5;
  destruct (run_script haslametric_scrape) eqn:E6;
  destruct (run_script combine_predictions) eqn:E7;
  destruct (run_script game_card_generator) eqn:E8;
  cbn [app started steps_completed cleared complete filter List.length
       andb Nat.b2n Nat.add];
  rewrite ?E1, ?E2, ?E3, ?E4, ?E5, ?E6, ?E7, ?E8.

(** X19: the run reaches "PIPELINE COMPLETE" exactly when the five scripts
    whose failure stops it succeed (ESPN, the two Kenpom scripts, the
    combination and the cards); the Torvik and Haslametrics scripts may fail.
    A complete run started all eight scripts in order, and the count it
    prints is five plus the number of those three that succeeded. *)
Theorem complete_run_needs_five_scripts :
  complete (main run_script)
  = run_script fetch_daily_games && run_script kenpom_fetch
    && run_script kenpom_game_output && run_script combine_predictions
    && run_script game_card_generator
  /\ (complete (main run_script) = true ->
      started (main run_script) = all_scripts
      /\ steps_completed (main run_script)
         = (5 + Nat.b2n (run_script torvik_scrape)
            + Nat.b2n (run_script torvik_game_output)
            + Nat.b2n (run_script haslametric_scrape))%nat).
Proof.
  run_cases; split; try reflexivity; try discriminate;
    intros _; split; reflexivity.
Qed.

(** X20: in every run the scripts started are the first ones of the fixed
    list of eight, in that order, each once; the counter is the number of
    started scripts that succeeded; and the old predictions folder is
    cleared exactly when the combination step was reached and succeeded,
    before it is known whether the card generator will succeed. *)
Theorem run_follows_the_script_list :
  (exists rest, all_scripts = started (main run_script) ++ rest)
  /\ steps_completed (main run_script)
     = List.length (filter run_script (started (main run_script)))
  /\ cleared (main run_script)
     = run_script fetch_daily_games && run_script kenpom_fetch
       && run_script kenpom_game_output && run_script combine_predictions.
Proof.
  run_cases; (split; [eexists; reflexivity|]); split;
    cbn [filter]; rewrite ?E1, ?E2, ?E3, ?E4, ?E5, ?E6, ?E7, ?E8;
    reflexivity.
Qed.

End RunAllFacts.

(** ** From the Haslametrics cells to the games *)

Section CellFacts.
Import HaslamCells.
Variable Score : Type.

Lemma match_id_row (cell_id : string) (n : N) (row : nat) (sc : bool) :
  match_id cell_id = Some (n, row, sc) -> row = 1%nat \/ row = 2%nat.
Proof.
  unfold match_id.
  destruct (strip_prefix _ _) as [after|]; [|discriminate].
  destruct (take_digits after) as [[|d ds] [|u [|r rest]]]; try discriminate.
  destruct (Ascii.eqb u "_"); [|discriminate].
  destruct (Ascii.eqb r "1"); [intros E; injection E as _ <- _; now left|].
  destruct (Ascii.eqb r "2"); [intros E; injection E as _ <- _; now right|].
  discriminate.
Qed.

Lemma in_update (k : N) (f : Partial Score -> Partial Score)
    (d : GamesDict Score) (n : N) (e' : Partial Score) :
  In (n, e') (update k f d) ->
  In (n, e') d \/ (n = k /\ exists e, In (k, e) d /\ e' = f e).
Proof.
  induction d as [|[k0 e0] d IH]; simpl; [tauto|].
  destruct (N.eqb_spec k0 k) as [-> | Hne]; simpl.
  - intros [E | Hin]; [|auto]. injection E as <- <-.
    right. split; auto. exists e0. auto.
  - intros [E | Hin]; [auto|].
    destruct (IH Hin) as [Hd | (-> & e & He & ->)]; auto.
    right. split; auto. exists e. auto.
Qed.

Lemma in_add_key (k : N) (d : GamesDict Score) (n : N) (e : Partial Score) :
  In (n, e) (add_key k d) -> In (n, e) d \/ (n, e) = (k, empty).
Proof.
  unfold add_key. destruct (has_key k d); [auto|].
  rewrite in_app_iff. simpl. intuition auto.
Qed.

Lemma in_fold_step (all_cells : list (Cell Score))
    (P : N -> Partial Score -> Prop) :
  (forall n, P n empty) ->
  (forall d c, In c all_cells ->
      (forall n e, In (n, e) d -> P n e) ->
      forall n e, In (n, e) (step d c) -> P n e) ->
  forall n e, In (n, e) (group_cells all_cells) -> P n e.
Proof.
  intros Pempty Pstep. unfold group_cells.
  assert (G : forall cells d,
             (forall c, In c cells -> In c all_cells) ->
             (forall n e, In (n, e) d -> P n e) ->
             forall n e, In (n, e) (fold_left step cells d) -> P n e).
  { induction cells as [|c cells IH]; intros d Sub Pd; [exact Pd|].
    cbn [fold_left]. apply IH.
    - intros x Hx. apply Sub. now right.
    - apply Pstep; [apply Sub; now left | exact Pd]. }
  apply G; [auto | intros n e []].
Qed.

Lemma group_cells_justified (all_cells : list (Cell Score)) (n : N)
    (e : Partial Score) :
  In (n, e) (group_cells all_cells) -> justified all_cells n e.
Proof.
  apply in_fold_step.
  - intros k. repeat split; discriminate.
  - intros d c Hc Jd k e'. unfold step.
    destruct (match_id (cell_id c)) as [[[game_num row_num] is_score]|] eqn:M;
      [|apply Jd].
    assert (Ja : forall k e, In (k, e) (add_key game_num d) ->
                             justified all_cells k e).
    { intros k0 e0 H0. apply in_add_key in H0 as [H0 | E]; [now apply Jd|].
      injection E as -> ->. repeat split; discriminate. }
    destruct (match_id_row _ _ _ _ M) as [-> | ->];
      destruct is_score;
      [destruct (as_float c) as [score|] eqn:V
      |destruct (link_text c) as [name|] eqn:V
      |destruct (as_float c) as [score|] eqn:V
      |destruct (link_text c) as [name|] eqn:V];
      try apply Ja; cbn [Nat.eqb]; intros Hin;
      apply in_update in Hin as [Hin | (-> & e0 & He0 & ->)];
      try (now apply Ja);
      destruct (Ja _ _ He0) as (Jh & Jaw & Jhs & Jas);
      repeat split; cbn [home_team away_team home_score away_score];
      auto; intros v E; injection E as <-; exists c; auto.
Qed.

Lemma insert_item_perm (item : N * Partial Score) (l : GamesDict Score) :
  Permutation (insert_item item l) (item :: l).
Proof.
  induction l as [|other l IH]; simpl; auto.
  destruct (N.leb (fst item) (fst other)); auto.
  rewrite IH. apply perm_swap.
Qed.

Lemma sorted_items_perm (d : GamesDict Score) :
  Permutation (sorted_items d) d.
Proof.
  induction d as [|item d IH]; simpl; auto.
  rewrite insert_item_perm. now constructor.
Qed.

Lemma in_complete_items (items : GamesDict Score) (n : N)
    (row : GameRow Score) :
  In (n, row) (complete_items items) <->
  exists e, In (n, e) items /\ complete_row e = Some row.
Proof.
  induction items as [|[k e0] items IH]; simpl.
  - split; [intros [] | intros (e & [] & _)].
  - destruct (complete_row e0) as [row0|] eqn:C; simpl; rewrite IH; split.
    + intros [E | (e & He & Ce)].
      * injection E as <- <-. exists e0. auto.
      * exists e. auto.
    + intros (e & [E | He] & Ce).
      * injection E as <- <-. left. congruence.
      * right. exists e. auto.
    + intros (e & He & Ce). exists e. auto.
    + intros (e & [E | He] & Ce).
      * injection E as <- <-. congruence.
      * exists e. auto.
Qed.

(** X21: the four values of an emitted game all come from cells of one game
    number: the home team and score from its row-2 cells, the away team and
    score from its row-1 cells, the scores from the cells whose id ends the
    match with [_sc].  Two games are never mixed and home and away never
    swapped. *)
Theorem emitted_game_comes_from_one_game (all_cells : list (Cell Score))
    (row : GameRow Score) :
  In row (games_data all_cells) ->
  exists n,
    (exists c, In c all_cells
               /\ match_id (cell_id c) = Some (n, 2%nat, false)
               /\ link_text c = Some (row_home_team row))
    /\ (exists c, In c all_cells
                  /\ match_id (cell_id c) = Some (n, 1%nat, false)
                  /\ link_text c = Some (row_away_team row))
    /\ (exists c, In c all_cells
                  /\ match_id (cell_id c) = Some (n, 2%nat, true)
                  /\ as_float c = Some (row_home_score row))
    /\ (exists c, In c all_cells
                  /\ match_id (cell_id c) = Some (n, 1%nat, true)
                  /\ as_float c = Some (row_away_score row)).
Proof.
  unfold games_data, numbered_games. intros Hrow.
  apply in_map_iff in Hrow as ([n r] & <- & Hin). cbn [snd].
  apply in_complete_items in Hin as (e & He & Ce).
  apply (Permutation_in _ (sorted_items_perm _)) in He.
  destruct (group_cells_justified all_cells n e He) as (Jh & Ja & Jhs & Jas).
  unfold complete_row in Ce.
  destruct (away_team e) as [at_|]; [|discriminate].
  destruct (home_team e) as [ht|]; [|discriminate].
  destruct (away_score e) as [as_|]; [|discriminate].
  destruct (home_score e) as [hs|]; [|discriminate].
  injection Ce as <-. exists n. cbn. auto.
Qed.

End CellFacts.

Section CellOrderFacts.
Import HaslamCells.
Variable Score : Type.

Lemma update_keys (k : N) (f : Partial Score -> Partial Score)
    (d : GamesDict Score) :
  map fst (update k f d) = map fst d.
Proof.
  induction d as [|[k0 e0] d IH]; simpl; [reflexivity|].
  destruct (N.eqb k0 k); simpl; [reflexivity | now rewrite IH].
Qed.

Lemma has_key_In (k : N) (d : GamesDict Score) :
  has_key k d = true <-> In k (map fst d).
Proof.
  induction d as [|[k0 e0] d IH]; simpl; [split; [discriminate | tauto]|].
  rewrite orb_true_iff, IH, N.eqb_eq. tauto.
Qed.

Lemma add_key_keys (k : N) (d : GamesDict Score) :
  NoDup (map fst d) -> NoDup (map fst (add_key k d)).
Proof.
  intros ND. unfold add_key. destruct (has_key k d) eqn:Hk; [exact ND|].
  rewrite map_app. cbn [map fst].
  apply (Permutation_NoDup (l := k :: map fst d)).
  - apply Permutation_cons_append.
  - constructor; [|exact ND]. intros Hin. apply has_key_In in Hin. congruence.
Qed.

Lemma step_keys (d : GamesDict Score) (c : Cell Score) :
  NoDup (map fst d) -> NoDup (map fst (step d c)).
Proof.
  intros ND. unfold step.
  destruct (match_id (cell_id c)) as [[[game_num row_num] is_score]|];
    [|exact ND].
  pose proof (add_key_keys game_num d ND) as Na.
  destruct is_score;
    [destruct (as_float c) | destruct (link_text c)];
    try exact Na; destruct (Nat.eqb row_num 1); now rewrite update_keys.
Qed.

Lemma group_cells_keys (all_cells : list (Cell Score)) :
  NoDup (map fst (group_cells all_cells)).
Proof.
  unfold group_cells.
  assert (G : forall (cells : list (Cell Score)) (d : GamesDict Score),
             NoDup (map fst d) -> NoDup (map fst (fold_left step cells d))).
  { induction cells as [|c cells IH]; intros d ND; [exact ND|].
    cbn [fold_left]. apply IH. now apply step_keys. }
  apply G. constructor.
Qed.

Lemma insert_item_HdRel (a item : N * Partial Score) (l : GamesDict Score) :
  key_le a item -> HdRel key_le a l -> HdRel key_le a (insert_item item l).
Proof.
  intros Ha Hl. destruct l as [|other l]; simpl.
  - now constructor.
  - destruct (N.leb (fst item) (fst other)); constructor; auto.
    now inversion Hl.
Qed.

Lemma insert_item_Sorted (item : N * Partial Score) (l : GamesDict Score) :
  Sorted key_le l -> Sorted key_le (insert_item item l).
Proof.
  induction l as [|other l IH]; intros S; simpl.
  - repeat constructor.
  - destruct (N.leb_spec (fst item) (fst other)) as [L | G].
    + constructor; [exact S | now constructor].
    + apply Sorted_inv in S as [S Hd]. constructor; [now apply IH|].
      apply insert_item_HdRel; [|exact Hd]. unfold key_le. lia.
Qed.

Lemma sorted_items_Sorted (d : GamesDict Score) :
  Sorted key_le (sorted_items d).
Proof.
  induction d as [|item d IH]; simpl;
    [constructor | now apply insert_item_Sorted].
Qed.

Lemma sorted_items_strict (d : GamesDict Score) :
  NoDup (map fst d) -> StronglySorted N.lt (map fst (sorted_items d)).
Proof.
  intros NDd.
  assert (ND : NoDup (map fst (sorted_items d))).
  { apply (Permutation_NoDup (l := map fst d)); [|exact NDd].
    apply Permutation_map. symmetry. apply sorted_items_perm. }
  assert (SS : StronglySorted key_le (sorted_items d)).
  { apply Sorted_StronglySorted; [|apply sorted_items_Sorted].
    intros a b c. unfold key_le. lia. }
  induction SS as [|item l SS IH F]; [constructor|].
  cbn [map] in *. apply NoDup_cons_iff in ND as [Nk ND].
  constructor; [now apply IH|].
  apply Forall_forall. intros k Hk.
  apply in_map_iff in Hk as (other & <- & Ho).
  rewrite Forall_forall in F. specialize (F other Ho). unfold key_le in F.
  assert (fst item <> fst other).
  { intros E. apply Nk. rewrite E. now apply in_map. }
  lia.
Qed.

Lemma complete_items_keys (items : GamesDict Score) :
  StronglySorted N.lt (map fst items) ->
  StronglySorted N.lt (map fst (complete_items items)).
Proof.
  induction items as [|[k e] items IH]; intros S; [constructor|].
  cbn [map fst] in S. apply StronglySorted_inv in S as [S F].
  cbn [complete_items].
  destruct (complete_row e) as [row|]; [|now apply IH].
  cbn [map fst]. constructor; [now apply IH|].
  apply Forall_forall. intros n Hn.
  apply in_map_iff in Hn as ([n' r] & <- & Hr). cbn [fst].
  apply in_complete_items in Hr as (e' & He' & _).
  rewrite Forall_forall in F. apply F.
  apply in_map_iff. exists (n', e'). auto.
Qed.

(** X22: the games are emitted in ascending game number, each game number
    at most once, in whatever order the cells appear in the page. *)
Theorem games_in_ascending_number (all_cells : list (Cell Score)) :
  StronglySorted N.lt (map fst (numbered_games all_cells)).
Proof.
  unfold numbered_games.
  apply complete_items_keys, sorted_items_strict, group_cells_keys.
Qed.

Lemma in_add_key_fwd (k n : N) (e : Partial Score) (d : GamesDict Score) :
  In (n, e) d -> In (n, e) (add_key k d).
Proof.
  unfold add_key. destruct (has_key k d); [auto|].
  intros H. apply in_app_iff. now left.
Qed.

Lemma add_key_present (k : N) (d : GamesDict Score) :
  exists e, In (k, e) (add_key k d).
Proof.
  unfold add_key. destruct (has_key k d) eqn:Hk.
  - apply has_key_In in Hk. apply in_map_iff in Hk as ([k0 e] & E & He).
    cbn in E. subst k0. now exists e.
  - exists empty. apply in_app_iff. right. now left.
Qed.

Lemma in_update_fwd (k n : N) (f : Partial Score -> Partial Score)
    (e : Partial Score) (d : GamesDict Score) :
  In (n, e) d -> In (n, e) (update k f d) \/ In (n, f e) (update k f d).
Proof.
  induction d as [|[k0 e0] d IH]; simpl; [tauto|].
  destruct (N.eqb_spec k0 k) as [-> | Hne]; simpl.
  - intros [E | Hin]; [injection E as <- <-; auto | auto].
  - intros [E | Hin]; [auto|]. destruct (IH Hin); auto.
Qed.

Lemma update_present (k : N) (f : Partial Score -> Partial Score)
    (d : GamesDict Score) :
  (exists e, In (k, e) d) -> exists e, In (k, f e) (update k f d).
Proof.
  induction d as [|[k0 e0] d IH]; intros (e & He); [destruct He|].
  simpl. destruct (N.eqb_spec k0 k) as [-> | Hne].
  - exists e0. now left.
  - destruct He as [E | He]; [injection E as -> _; now destruct Hne|].
    destruct IH as (e1 & He1); [now exists e|]. exists e1. now right.
Qed.

Lemma step_keeps (P : Partial Score -> Prop) (n : N) (d : GamesDict Score)
    (c : Cell Score) :
  kept_by_assignments P ->
  (exists e, In (n, e) d /\ P e) ->
  exists e, In (n, e) (step d c) /\ P e.
Proof.
  intros K (e & He & Pe). unfold step.
  destruct (match_id (cell_id c)) as [[[game_num row_num] is_score]|];
    [|now exists e].
  pose proof (in_add_key_fwd game_num n e d He) as Ha.
  destruct (K e Pe) as (K1 & K2 & K3 & K4).
  destruct is_score;
    [destruct (as_float c) as [v|] | destruct (link_text c) as [v|]];
    try (now exists e);
    destruct (Nat.eqb row_num 1);
    match goal with
    | |- exists _, In _ (update ?k ?f ?d') /\ _ =>
        destruct (in_update_fwd k n f e d' Ha) as [U | U];
          [now exists e | exists (f e); split; [exact U | auto]]
    end.
Qed.

Lemma fold_step_keeps (P : Partial Score -> Prop) (n : N)
    (cells : list (Cell Score)) :
  kept_by_assignments P ->
  forall d, (exists e, In (n, e) d /\ P e) ->
            exists e, In (n, e) (fold_left step cells d) /\ P e.
Proof.
  intros K. induction cells as [|c cells IH]; intros d H; [exact H|].
  cbn [fold_left]. apply IH. now apply step_keeps.
Qed.

Lemma fold_step_sets (P : Partial Score -> Prop) (n : N)
    (cells : list (Cell Score)) (c : Cell Score) :
  kept_by_assignments P ->
  (forall d, exists e, In (n, e) (step d c) /\ P e) ->
  In c cells ->
  forall d, exists e, In (n, e) (fold_left step cells d) /\ P e.
Proof.
  intros K Sets. induction cells as [|x cells IH]; intros Hc d; [destruct Hc|].
  cbn [fold_left]. destruct Hc as [-> | Hc].
  - apply fold_step_keeps; [exact K | apply Sets].
  - now apply IH.
Qed.

Lemma keys_unique (d : GamesDict Score) (n : N) (e1 e2 : Partial Score) :
  NoDup (map fst d) -> In (n, e1) d -> In (n, e2) d -> e1 = e2.
Proof.
  induction d as [|[k e] d IH]; intros ND H1 H2; [destruct H1|].
  cbn [map fst] in ND. apply NoDup_cons_iff in ND as [Nk ND].
  destruct H1 as [E1 | H1], H2 as [E2 | H2].
  - congruence.
  - injection E1 as -> _. destruct Nk. apply in_map_iff. now exists (n, e2).
  - injection E2 as -> _. destruct Nk. apply in_map_iff. now exists (n, e1).
  - now apply IH.
Qed.

(** X23: a game number for which the page has a row-1 and a row-2 team cell
    with a link and a row-1 and a row-2 score cell with a number is emitted,
    wherever these cells stand among the others. *)
Theorem game_with_four_cells_is_emitted (all_cells : list (Cell Score))
    (n : N) (c_home c_away c_home_score c_away_score : Cell Score) :
  In c_home all_cells ->
  match_id (cell_id c_home) = Some (n, 2%nat, false) ->
  link_text c_home <> None ->
  In c_away all_cells ->
  match_id (cell_id c_away) = Some (n, 1%nat, false) ->
  link_text c_away <> None ->
  In c_home_score all_cells ->
  match_id (cell_id c_home_score) = Some (n, 2%nat, true) ->
  as_float c_home_score <> None ->
  In c_away_score all_cells ->
  match_id (cell_id c_away_score) = Some (n, 1%nat, true) ->
  as_float c_away_score <> None ->
  exists row, In (n, row) (numbered_games all_cells).
Proof.
  intros H1 M1 V1 H2 M2 V2 H3 M3 V3 H4 M4 V4.
  assert (K1 : kept_by_assignments (fun e : Partial Score => home_team e <> None)).
  { intros e Pe. repeat split; intros; cbn; auto; discriminate. }
  assert (K2 : kept_by_assignments (fun e : Partial Score => away_team e <> None)).
  { intros e Pe. repeat split; intros; cbn; auto; discriminate. }
  assert (K3 : kept_by_assignments (fun e : Partial Score => home_score e <> None)).
  { intros e Pe. repeat split; intros; cbn; auto; discriminate. }
  assert (K4 : kept_by_assignments (fun e : Partial Score => away_score e <> None)).
  { intros e Pe. repeat split; intros; cbn; auto; discriminate. }
  destruct (fold_step_sets _ n all_cells c_home K1) with (d := @nil (N * Partial Score))
    as (e1 & He1 & P1); [|exact H1|].
  { intros d. unfold step. rewrite M1.
    destruct (link_text c_home) as [s|]; [|now destruct V1]. cbn [Nat.eqb].
    destruct (update_present n
                (fun e : Partial Score => mkPartial (away_team e) (Some s)
                                    (away_score e) (home_score e))
                (add_key n d) (add_key_present n d)) as (e & He).
    eexists. split; [exact He | cbn; discriminate]. }
  destruct (fold_step_sets _ n all_cells c_away K2) with (d := @nil (N * Partial Score))
    as (e2 & He2 & P2); [|exact H2|].
  { intros d. unfold step. rewrite M2.
    destruct (link_text c_away) as [s|]; [|now destruct V2]. cbn [Nat.eqb].
    destruct (update_present n
                (fun e : Partial Score => mkPartial (Some s) (home_team e)
                                    (away_score e) (home_score e))
                (add_key n d) (add_key_present n d)) as (e & He).
    eexists. split; [exact He | cbn; discriminate]. }
  destruct (fold_step_sets _ n all_cells c_home_score K3) with (d := @nil (N * Partial Score))
    as (e3 & He3 & P3); [|exact H3|].
  { intros d. unfold step. rewrite M3.
    destruct (as_float c_home_score) as [x|]; [|now destruct V3].
    cbn [Nat.eqb].
    destruct (update_present n
                (fun e : Partial Score => mkPartial (away_team e) (home_team e)
                                    (away_score e) (Some x))
                (add_key n d) (add_key_present n d)) as (e & He).
    eexists. split; [exact He | cbn; discriminate]. }
  destruct (fold_step_sets _ n all_cells c_away_score K4) with (d := @nil (N * Partial Score))
    as (e4 & He4 & P4); [|exact H4|].
  { intros d. unfold step. rewrite M4.
    destruct (as_float c_away_score) as [x|]; [|now destruct V4].
    cbn [Nat.eqb].
    destruct (update_present n
                (fun e : Partial Score => mkPartial (away_team e) (home_team e)
                                    (Some x) (home_score e))
                (add_key n d) (add_key_present n d)) as (e & He).
    eexists. split; [exact He | cbn; discriminate]. }
  fold (group_cells all_cells) in He1, He2, He3, He4.
  pose proof (group_cells_keys all_cells) as ND.
  rewrite (keys_unique _ n e2 e1 ND He2 He1) in P2.
  rewrite (keys_unique _ n e3 e1 ND He3 He1) in P3.
  rewrite (keys_unique _ n e4 e1 ND He4 He1) in P4.
  unfold numbered_games.
  assert (C : exists row, complete_row e1 = Some row).
  { unfold complete_row.
    destruct (away_team e1); [|now destruct P2].
    destruct (home_team e1); [|now destruct P1].
    destruct (away_score e1); [|now destruct P4].
    destruct (home_score e1); [|now destruct P3].
    eexists. reflexivity. }
  destruct C as (row & C). exists row.
  apply in_complete_items. exists e1. split; [|exact C].
  apply (Permutation_in _ (Permutation_sym (sorted_items_perm _ _))).
  exact He1.
Qed.

End CellOrderFacts.

Lemma emitted_game_comes_from_one_game_witness :
  exists n,
    (exists c, In c sample_cells
               /\ HaslamCells.match_id (HaslamCells.cell_id c)
                  = Some (n, 2%nat, false)
               /\ HaslamCells.link_text c = Some "Duke 12"%string)
    /\ (exists c, In c sample_cells
                  /\ HaslamCells.match_id (HaslamCells.cell_id c)
                     = Some (n, 1%nat, false)
                  /\ HaslamCells.link_text c = Some "UNC 3"%string)
    /\ (exists c, In c sample_cells
                  /\ HaslamCells.match_id (HaslamCells.cell_id c)
                     = Some (n, 2%nat, true)
                  /\ HaslamCells.as_float c = Some (decimal 781 10))
    /\ (exists c, In c sample_cells
                  /\ HaslamCells.match_id (HaslamCells.cell_id c)
                     = Some (n, 1%nat, true)
                  /\ HaslamCells.as_float c = Some (decimal 745 10)).
Proof.
  apply (emitted_game_comes_from_one_game Q sample_cells
           (HaslamCells.mkGameRow "Duke 12" "UNC 3"
              (decimal 781 10) (decimal 745 10))).
  left. reflexivity.
Defined.

Lemma game_with_four_cells_is_emitted_witness :
  exists row, In (1%N, row) (HaslamCells.numbered_games sample_cells).
Proof.
  apply (game_with_four_cells_is_emitted Q sample_cells 1%N
           (HaslamCells.mkCell "tdUpcoming_1_2" None (Some "Duke 12"%string))
           (HaslamCells.mkCell "tdUpcoming_1_1" None (Some "UNC 3"%string))
           (HaslamCells.mkCell "tdUpcoming_1_2_sc"
              (Some (decimal 781 10)) None)
           (HaslamCells.mkCell "tdUpcoming_1_1_sc"
              (Some (decimal 745 10)) None));
    try reflexivity; try discriminate; cbn [sample_cells In]; tauto.
Defined.

(** ** The logo dictionary and its lookup *)

Section LogoMappingFacts.
Import EspnLogoMapping.
Variable get_canonical_name : string -> option string.
Variable Id : Type.
Variable id_truthy : Id -> bool.
Variable id_text : Id -> string.

#[local] Abbreviation add := (add_team get_canonical_name id_truthy id_text).
#[local] Abbreviation has_key key :=
  (fun kv : string * TeamLogo Id => String.eqb (fst kv) key).

Lemma find_dict_set_same (key : string) (value : TeamLogo Id) (d : Logos Id) :
  find (has_key key) (dict_set key value d) = Some (key, value).
Proof.
  induction d as [|[k old] d IH]; cbn [dict_set].
  - cbn. now rewrite String.eqb_refl.
  - destruct (String.eqb_spec k key) as [-> | Hne]; cbn [find fst].
    + now rewrite String.eqb_refl.
    + apply String.eqb_neq in Hne. now rewrite Hne.
Qed.

Lemma find_dict_set_other (key other : string) (value : TeamLogo Id)
    (d : Logos Id) :
  key <> other ->
  find (has_key other) (dict_set key value d) = find (has_key other) d.
Proof.
  intros Hne. induction d as [|[k old] d IH]; cbn [dict_set].
  - cbn. apply String.eqb_neq in Hne. now rewrite Hne.
  - destruct (String.eqb_spec k key) as [-> | Hk]; cbn [find fst].
    + apply String.eqb_neq in Hne. now rewrite Hne.
    + destruct (String.eqb k other); [reflexivity | exact IH].
Qed.

Lemma dict_set_keys (key : string) (value : TeamLogo Id) (d : Logos Id) :
  map fst (dict_set key value d)
  = if existsb (String.eqb key) (map fst d) then map fst d
    else map fst d ++ [key].
Proof.
  induction d as [|[k old] d IH]; cbn [dict_set map fst existsb app];
    [reflexivity|].
  rewrite (String.eqb_sym key k).
  destruct (String.eqb k key); cbn [map fst orb]; [reflexivity|].
  rewrite IH. now destruct (existsb (String.eqb key) (map fst d)).
Qed.

Lemma dict_set_entries (key : string) (value : TeamLogo Id) (d : Logos Id)
    (kv : string * TeamLogo Id) :
  In kv (dict_set key value d) -> kv = (key, value) \/ In kv d.
Proof.
  induction d as [|[k old] d IH]; cbn [dict_set].
  - intros [<- | []]. now left.
  - destruct (String.eqb_spec k key) as [-> | Hk].
    + intros [<- | Hin]; [now left | right; now right].
    + intros [<- | Hin]; [right; now left|].
      destruct (IH Hin); [now left | right; now right].
Qed.

Lemma usable_fields (team : Team Id) :
  usable id_truthy team = true ->
  exists team_id team_name,
    id team = Some team_id /\ displayName team = Some team_name
    /\ id_truthy team_id = true /\ team_name <> ""%string.
Proof.
  unfold usable. destruct (id team) as [team_id|]; [|discriminate].
  destruct (displayName team) as [team_name|]; [|discriminate].
  intros U. apply andb_true_iff in U as [U1 U2].
  exists team_id, team_name. repeat split; try assumption.
  apply negb_true_iff, String.eqb_neq in U2. exact U2.
Qed.

(** What one usable team writes. *)
Lemma add_usable (st : State Id) (team : Team Id) :
  usable id_truthy team = true ->
  exists value,
    team_logos (add st (Some team))
    = dict_set (logo_key get_canonical_name team) value (team_logos st)
    /\ name value = logo_key get_canonical_name team
    /\ (forall team_id, id team = Some team_id ->
          logo_url value
          = Some ("https://a.espncdn.com/i/teamlogos/ncaa/500/"
                  ++ id_text team_id ++ ".png")%string).
Proof.
  intros U. pose proof U as U'.
  apply usable_fields in U' as (team_id & team_name & Ei & En & Ti & Tn).
  unfold add_team, logo_key, Py.key_of, Py.resolve, make_logo_url.
  rewrite Ei, En, Ti. cbn [Py.value].
  apply String.eqb_neq in Tn. rewrite Tn. cbn [negb andb].
  destruct (Py.truthy (get_canonical_name team_name)); cbn [fst team_logos];
    eexists; (split; [reflexivity|]); cbn [name logo_url];
    (split; [reflexivity|]); intros i [= <-]; reflexivity.
Qed.

Lemma add_unusable (st : State Id) (team_obj : option (Team Id)) :
  (forall team, team_obj = Some team -> usable id_truthy team = false) ->
  add st team_obj = st.
Proof.
  intros U. unfold add_team. destruct team_obj as [team|]; [|reflexivity].
  specialize (U team eq_refl). unfold usable in U.
  destruct (id team) as [team_id|]; [|reflexivity].
  destruct (displayName team) as [team_name|]; [|reflexivity].
  now rewrite U.
Qed.

Lemma usable_dec (team_obj : option (Team Id)) :
  (exists team, team_obj = Some team /\ usable id_truthy team = true)
  \/ (forall team, team_obj = Some team -> usable id_truthy team = false).
Proof.
  destruct team_obj as [team|]; [|right; discriminate].
  destruct (usable id_truthy team) eqn:U.
  - left. now exists team.
  - right. now intros ? [= <-].
Qed.

Lemma fold_leagues (sport : list (list (option (Team Id)))) (st : State Id) :
  fold_left (fun st league => fold_left add league st) sport st
  = fold_left add (List.concat sport) st.
Proof.
  revert st. induction sport as [|league sport IH]; intros st; cbn;
    [reflexivity|].
  now rewrite fold_left_app, IH.
Qed.

(** Teams stored under other keys leave the value of a key alone. *)
Lemma later_teams_keep (key : string) (teams : list (option (Team Id))) :
  (forall team, In (Some team) teams -> usable id_truthy team = true ->
                logo_key get_canonical_name team <> key) ->
  forall st,
    find (has_key key) (team_logos (fold_left add teams st))
    = find (has_key key) (team_logos st).
Proof.
  induction teams as [|team_obj teams IH]; intros Other st; [reflexivity|].
  cbn [fold_left]. rewrite IH by (intros; apply Other; [now right | easy]).
  destruct (usable_dec team_obj) as [(team & -> & U) | U].
  - destruct (add_usable st team U) as (value & -> & _).
    apply find_dict_set_other. apply Other; [now left | exact U].
  - now rewrite add_unusable.
Qed.

Lemma find_logo_file (key : string) (logos : Logos Id) :
  find (fun kv => String.eqb (fst kv) key) (logo_file logos)
  = option_map
      (fun kv => (fst kv, GameCardFiles.mkLogoEntry (logo_url (snd kv))))
      (find (has_key key) logos).
Proof.
  induction logos as [|kv logos IH]; [reflexivity|].
  cbn [logo_file map find fst]. destruct (String.eqb (fst kv) key);
    [reflexivity | exact IH].
Qed.

(** X24: a team of the first sport with an id and a display name is stored
    under the key the schedule uses for that display name, and unless a later
    team is stored under the same key, the card generator finds for this key
    the logo URL built from the team's id. *)
Theorem logo_of_a_listed_team
    (sport : list (list (option (Team Id))))
    (others : list (list (list (option (Team Id)))))
    (before after : list (option (Team Id))) (team : Team Id)
    (team_id : Id) :
  List.concat sport = before ++ Some team :: after ->
  usable id_truthy team = true ->
  id team = Some team_id ->
  (forall later, In (Some later) after -> usable id_truthy later = true ->
     logo_key get_canonical_name later <> logo_key get_canonical_name team) ->
  GameCardFiles.get_logo_url (logo_key get_canonical_name team)
    (logo_file
       (team_logos
          (fetch_all_cbb_teams get_canonical_name id_truthy id_text
             (sport :: others))))
  = Some ("https://a.espncdn.com/i/teamlogos/ncaa/500/"
          ++ id_text team_id ++ ".png")%string.
Proof.
  intros Split U Ei Later. unfold fetch_all_cbb_teams.
  rewrite fold_leagues, Split, fold_left_app. cbn [fold_left].
  unfold GameCardFiles.get_logo_url, GameCardFiles.dict_get.
  rewrite find_logo_file, (later_teams_keep _ after Later).
  destruct (add_usable (fold_left add before (mkState [] [])) team U)
    as (value & -> & _ & Url).
  rewrite find_dict_set_same. cbn. now apply Url.
Qed.

Lemma stored_entries (teams : list (option (Team Id))) :
  forall st kv,
    In kv (team_logos (fold_left add teams st)) ->
    In kv (team_logos st)
    \/ (exists team,
          In (Some team) teams /\ usable id_truthy team = true
          /\ fst kv = logo_key get_canonical_name team
          /\ name (snd kv) = fst kv /\ logo_url (snd kv) <> None).
Proof.
  induction teams as [|team_obj teams IH]; intros st kv Hin; [now left|].
  cbn [fold_left] in Hin. apply IH in Hin as [Hin | (team & Ht & Rest)].
  - destruct (usable_dec team_obj) as [(team & -> & U) | U].
    + destruct (add_usable st team U) as (value & E & Nm & Url).
      rewrite E in Hin. apply dict_set_entries in Hin as [-> | Hin];
        [|now left].
      right. exists team. repeat split; cbn [fst snd]; auto.
      * now left.
      * destruct (usable_fields team U) as (team_id & _ & Ei & _).
        rewrite (Url team_id Ei). discriminate.
    + rewrite add_unusable in Hin by exact U. now left.
  - right. exists team. split; [now right | exact Rest].
Qed.

Lemma stored_keys (teams : list (option (Team Id))) :
  forall st,
    NoDup (map fst (team_logos st)) ->
    NoDup (map fst (team_logos (fold_left add teams st))).
Proof.
  induction teams as [|team_obj teams IH]; intros st ND; [exact ND|].
  cbn [fold_left]. apply IH.
  destruct (usable_dec team_obj) as [(team & -> & U) | U].
  - destruct (add_usable st team U) as (value & -> & _).
    rewrite dict_set_keys.
    destruct (existsb (String.eqb (logo_key get_canonical_name team))
                (map fst (team_logos st))) eqn:Ex; [exact ND|].
    apply (Permutation_NoDup (l := logo_key get_canonical_name team
                                   :: map fst (team_logos st))).
    + apply Permutation_cons_append.
    + constructor; [|exact ND]. intros Hin.
      assert (existsb (String.eqb (logo_key get_canonical_name team))
                (map fst (team_logos st)) = true); [|congruence].
      apply existsb_exists. eexists. split; [exact Hin|].
      apply String.eqb_refl.
  - now rewrite add_unusable.
Qed.

Lemma key_is_stored (key : string) (teams : list (option (Team Id))) :
  forall st,
    (In key (map fst (team_logos st))
     \/ exists team, In (Some team) teams /\ usable id_truthy team = true
                     /\ logo_key get_canonical_name team = key) ->
    In key (map fst (team_logos (fold_left add teams st))).
Proof.
  induction teams as [|team_obj teams IH]; intros st H.
  - destruct H as [H | (team & [] & _)]. exact H.
  - cbn [fold_left]. apply IH.
    destruct (usable_dec team_obj) as [(team & -> & U) | U].
    + destruct (add_usable st team U) as (value & -> & _).
      rewrite dict_set_keys.
      destruct (existsb (String.eqb (logo_key get_canonical_name team))
                  (map fst (team_logos st))) eqn:Ex.
      * destruct H as [H | (other & [[= ->] | Ho] & Uo & Ko)].
        -- now left.
        -- left. apply existsb_exists in Ex as (k & Hk & Ek).
           apply String.eqb_eq in Ek. subst k. now rewrite <- Ko.
        -- right. now exists other.
      * destruct H as [H | (other & [[= ->] | Ho] & Uo & Ko)].
        -- left. apply in_app_iff. now left.
        -- left. apply in_app_iff. right. left. exact Ko.
        -- right. now exists other.
    + rewrite add_unusable by exact U.
      destruct H as [H | (other & [E | Ho] & Uo & Ko)].
      * now left.
      * rewrite (U other E) in Uo. discriminate.
      * right. now exists other.
Qed.

(** X25: the keys of the logo dictionary are exactly the schedule keys of
    the first sport's teams that have an id and a display name, each key
    once; every value has a logo URL and carries its key as its name. *)
Theorem logo_keys_are_the_listed_teams
    (sport : list (list (option (Team Id))))
    (others : list (list (list (option (Team Id))))) :
  let logos :=
    team_logos (fetch_all_cbb_teams get_canonical_name id_truthy id_text
                  (sport :: others)) in
  (forall key,
      In key (map fst logos)
      <-> exists league team,
            In league sport /\ In (Some team) league
            /\ usable id_truthy team = true
            /\ logo_key get_canonical_name team = key)
  /\ NoDup (map fst logos)
  /\ (forall key value, In (key, value) logos ->
        name value = key /\ logo_url value <> None).
Proof.
  cbn zeta. unfold fetch_all_cbb_teams. rewrite fold_leagues.
  split; [|split].
  - intros key. split.
    + intros Hin. apply in_map_iff in Hin as (kv & <- & Hin).
      apply stored_entries in Hin as [[] | (team & Ht & U & K & _)].
      apply in_concat in Ht as (league & Hl & Ht).
      exists league, team. auto.
    + intros (league & team & Hl & Ht & U & K).
      apply key_is_stored. right. exists team. repeat split; auto.
      apply in_concat. now exists league.
  - apply stored_keys. constructor.
  - intros key value Hin.
    apply stored_entries in Hin as [[] | (team & _ & _ & _ & Nm & Url)].
    cbn [fst snd] in *. auto.
Qed.

End LogoMappingFacts.

Lemma logo_of_a_listed_team_witness :
  logo_key one_entry_mapping duke_team = "Duke Blue Devils"%string
  /\ GameCardFiles.get_logo_url "Duke Blue Devils"
       (logo_file
          (EspnLogoMapping.team_logos
             (EspnLogoMapping.fetch_all_cbb_teams one_entry_mapping
                text_truthy (fun team_id => team_id) sample_sports)))
     = Some "https://a.espncdn.com/i/teamlogos/ncaa/500/150.png"%string.
Proof.
  split; [reflexivity|].
  refine (logo_of_a_listed_team one_entry_mapping string text_truthy
            (fun team_id => team_id) (hd [] sample_sports) [] []
            (tl (List.concat (hd [] sample_sports))) duke_team "150"%string
            eq_refl eq_refl eq_refl _).
  intros later [[=] | [[= <-] | [[= <-] | []]]] U; cbn in U |- *;
    discriminate.
Defined.
